(** * charon: start-up, logger registry, singleton guard and control loop

    A shallow embedding of [src/charon/charon.c].  Every C function of the
    file becomes a computation in a small state monad over the process
    state [proc]; what the operating system and the linked libraries
    answer is read from an environment [env].  Every call that leaves the
    file is recorded, in program order, in the [trace] of the process. *)

From stdpp Require Import base option list strings pretty.
From Stdlib Require Import ZArith Lia Ascii.

Local Open Scope string_scope.
Local Open Scope list_scope.
Local Open Scope Z_scope.

(** ** Constants *)

(** Signal numbers of <signal.h>; the three values are the ones POSIX fixes
    for [kill -1], [kill -2] and [kill -15]. *)
Definition SIGHUP : Z := 1.
Definition SIGINT : Z := 2.
Definition SIGTERM : Z := 15.

(** Verbosity levels, numbered as [usage] prints them:
    -1 = silent, 0 = audit, 1 = control, 2 = controlmore, 3 = raw,
    4 = private. *)
Definition LEVEL_SILENT : Z := -1.
Definition LEVEL_AUDIT : Z := 0.
Definition LEVEL_CTRL : Z := 1.

(** Alerts raised on the bus by this file. *)
Inductive alert_t := ALERT_SHUTDOWN_SIGNAL.

(** The standard streams and files opened by path. *)
Inductive stream :=
| Stdout
| Stderr
| Path (filename : string) (mode : string).

(** Syslog facilities used by this file. *)
Inductive facility_t := LOG_DAEMON | LOG_AUTHPRIV.

(** ** Calls that leave the file *)

Inductive event :=
| EvLog (fmt : string)                       (* DBG1 / dbg_stderr *)
| EvPrint (fmt : string)                     (* usage / printf *)
| EvSigprocmask (set : list Z)
| EvLoadFiles (ok : bool)                    (* lib->settings->load_files *)
| EvPluginsReload                            (* lib->plugins->reload *)
| EvAlert (kind : alert_t) (sig : Z)         (* charon->bus->alert *)
| EvPrctlKeepcaps
| EvSetgid (gid : Z) (ok : bool)
| EvSetuid (uid : Z) (ok : bool)
| EvDropCaps (ok : bool)                     (* charon->drop_capabilities *)
| EvStat (found : bool)
| EvFopen (mode : string) (ok : bool)        (* fopen(PID_FILE, mode) *)
| EvFread (n : nat)
| EvFclose
| EvKill (pid : Z) (sig : Z) (ok : bool)
| EvUnlink (ok : bool)                       (* unlink(PID_FILE) *)
| EvFchown (uid gid : Z)
| EvFprintf (text : string)
| EvFflush
| EvFtruncate (ok : bool)
| EvEnumerate (section : list string)        (* create_section_enumerator *)
| EvGetBool (key : list string)              (* settings->get_bool *)
| EvGetInt (key : list string)               (* settings->get_int *)
| EvGetStr (key : list string)               (* settings->get_str *)
| EvFopenLog (filename : string) (mode : string) (ok : bool)
| EvSetlinebuf (filename : string)
| EvAddListener (addr : nat)                 (* charon->bus->add_listener *)
| EvSysloggersInsert (addr : nat)            (* charon->sys_loggers->insert_last *)
| EvFileloggersInsert (addr : nat)           (* charon->file_loggers->insert_last *)
| EvLibraryInit (ok : bool)
| EvIntegrityCheck (ok : bool)
| EvLibhydraInit (ok : bool)
| EvLibcharonInit (ok : bool)
| EvCharonInitialize (ok : bool)
| EvSigaction
| EvCharonStart
| EvLibcharonDeinit
| EvLibhydraDeinit
| EvLibraryDeinit
| EvExit (status : Z).

(** ** Settings *)

(** Modelled from the spec: the settings object [lib->settings] of the core
    library (settings.c is not part of the sources at hand).  A key is the
    path of its segments, ["charon.syslog.%s.default"] with facility [f]
    being [["charon"; "syslog"; f; "default"]].  A section enumerator yields
    the names of the sub-sections of a section; a typed getter returns the
    configured value of a key when the key is present, and the default
    passed by the caller otherwise. *)
Record settings_t := {
  section_names : list string -> list string;
  int_value : list string -> option Z;
  bool_value : list string -> option bool;
  str_value : list string -> option string
}.

(** ** Loggers *)

Inductive sink :=
| SysSink (facility : facility_t)
| FileSink (out : stream) (time_format : option string).

(** A logger object: its sink, the ike_name flag and one level per debug
    group. *)
Record logger := {
  lg_sink : sink;
  lg_ike_name : bool;
  lg_levels : list Z
}.

(** ** The environment *)

(** One outcome of [sigwait]: its return code, the signal it stored, and
    what the configuration files on disk parse to at that moment ([None]
    when they cannot be read). *)
Record stimulus := {
  wait_error : Z;
  wait_sig : Z;
  disk : option settings_t
}.

(** One result of [getopt_long] over the option table of [main]. *)
Inductive opt :=
| OptHelp
| OptVersion
| OptUseSyslog
| OptDebug (group : nat) (optarg : string)
| OptOther.

(** The environment: build configuration, constants of headers that are
    not part of the sources at hand (utils/debug.h), and the answers of
    the operating system and of the linked libraries. *)
Record env := {
  DBG_MAX : nat;                       (* number of debug groups *)
  debug_lower_names : nat -> string;   (* name of a debug group *)
  created_level : Z;                   (* level of a logger just created *)
  HAVE_PRCTL : bool;
  setgid_ok : Z -> bool;               (* setgid(gid) == 0 *)
  setuid_ok : Z -> bool;               (* setuid(uid) == 0 *)
  caps_ok : bool;                      (* charon->drop_capabilities(charon) *)
  getpid : Z;
  kill_ok : Z -> bool;                 (* kill(pid, 0) == 0 *)
  behind_buf : string;                 (* memory behind buf in check_pidfile *)
  may_read : Z -> bool;                (* fopen(PID_FILE, "r") as this euid *)
  may_write : Z -> bool;               (* fopen(PID_FILE, "w") as this euid *)
  may_unlink : Z -> bool;              (* unlink(PID_FILE) as this euid *)
  ftruncate_ok : bool;
  openable : string -> bool;           (* fopen of a log file *)
  library_init_ok : bool;
  integrity : option bool;             (* lib->integrity and its check_file *)
  libhydra_init_ok : bool;
  libcharon_init_ok : bool;
  options : list opt;                  (* getopt_long until EOF *)
  passwd_uid : option (option Z);      (* IPSEC_USER defined? resolved? *)
  group_gid : option (option Z);       (* IPSEC_GROUP defined? resolved? *)
  android_uid : option Z;              (* ANDROID: AID_VPN *)
  charon_initialize_ok : bool;
  signals : list stimulus              (* what sigwait will return *)
}.

(** Modelled from the spec: the status constants of library.h, which is
    not among the sources.  The spec has the integrity failures and the
    initialization failure leave with a code of their own each, distinct
    from one another, from success (0) and from already running (-1); the
    values are those library.h gives them.  They are constants of the
    build, the same in every environment. *)
Definition SS_RC_LIBSTRONGSWAN_INTEGRITY (E : env) : Z := 64.
Definition SS_RC_DAEMON_INTEGRITY (E : env) : Z := 65.
Definition SS_RC_INITIALIZATION_FAILED (E : env) : Z := 66.

(** ** The process state *)

(** The global [FILE *pidfile]. *)
Inductive FILEp := NULLp | OpenR | OpenW | Closed.

Record proc := {
  trace : list event;
  settings : settings_t;               (* lib->settings *)
  egid : Z;
  euid : Z;
  charon_uid : Z;                      (* charon->uid *)
  charon_gid : Z;                      (* charon->gid *)
  marker : option string;              (* PID_FILE: None when absent *)
  pidfile : FILEp;
  heap : list logger;                  (* logger objects, by address *)
  bus_listeners : list nat;            (* charon->bus *)
  sys_loggers : list nat;              (* charon->sys_loggers *)
  file_loggers : list nat              (* charon->file_loggers *)
}.

Definition set_trace (t : list event) (p : proc) : proc :=
  {| trace := t; settings := settings p; egid := egid p; euid := euid p;
     charon_uid := charon_uid p; charon_gid := charon_gid p;
     marker := marker p; pidfile := pidfile p; heap := heap p;
     bus_listeners := bus_listeners p; sys_loggers := sys_loggers p;
     file_loggers := file_loggers p |}.

Definition set_settings (s : settings_t) (p : proc) : proc :=
  {| trace := trace p; settings := s; egid := egid p; euid := euid p;
     charon_uid := charon_uid p; charon_gid := charon_gid p;
     marker := marker p; pidfile := pidfile p; heap := heap p;
     bus_listeners := bus_listeners p; sys_loggers := sys_loggers p;
     file_loggers := file_loggers p |}.

Definition set_egid (g : Z) (p : proc) : proc :=
  {| trace := trace p; settings := settings p; egid := g; euid := euid p;
     charon_uid := charon_uid p; charon_gid := charon_gid p;
     marker := marker p; pidfile := pidfile p; heap := heap p;
     bus_listeners := bus_listeners p; sys_loggers := sys_loggers p;
     file_loggers := file_loggers p |}.

Definition set_euid (u : Z) (p : proc) : proc :=
  {| trace := trace p; settings := settings p; egid := egid p; euid := u;
     charon_uid := charon_uid p; charon_gid := charon_gid p;
     marker := marker p; pidfile := pidfile p; heap := heap p;
     bus_listeners := bus_listeners p; sys_loggers := sys_loggers p;
     file_loggers := file_loggers p |}.

Definition set_charon_uid (u : Z) (p : proc) : proc :=
  {| trace := trace p; settings := settings p; egid := egid p; euid := euid p;
     charon_uid := u; charon_gid := charon_gid p;
     marker := marker p; pidfile := pidfile p; heap := heap p;
     bus_listeners := bus_listeners p; sys_loggers := sys_loggers p;
     file_loggers := file_loggers p |}.

Definition set_charon_gid (g : Z) (p : proc) : proc :=
  {| trace := trace p; settings := settings p; egid := egid p; euid := euid p;
     charon_uid := charon_uid p; charon_gid := g;
     marker := marker p; pidfile := pidfile p; heap := heap p;
     bus_listeners := bus_listeners p; sys_loggers := sys_loggers p;
     file_loggers := file_loggers p |}.

Definition set_marker (m : option string) (p : proc) : proc :=
  {| trace := trace p; settings := settings p; egid := egid p; euid := euid p;
     charon_uid := charon_uid p; charon_gid := charon_gid p;
     marker := m; pidfile := pidfile p; heap := heap p;
     bus_listeners := bus_listeners p; sys_loggers := sys_loggers p;
     file_loggers := file_loggers p |}.

Definition set_pidfile (f : FILEp) (p : proc) : proc :=
  {| trace := trace p; settings := settings p; egid := egid p; euid := euid p;
     charon_uid := charon_uid p; charon_gid := charon_gid p;
     marker := marker p; pidfile := f; heap := heap p;
     bus_listeners := bus_listeners p; sys_loggers := sys_loggers p;
     file_loggers := file_loggers p |}.

Definition set_heap (h : list logger) (p : proc) : proc :=
  {| trace := trace p; settings := settings p; egid := egid p; euid := euid p;
     charon_uid := charon_uid p; charon_gid := charon_gid p;
     marker := marker p; pidfile := pidfile p; heap := h;
     bus_listeners := bus_listeners p; sys_loggers := sys_loggers p;
     file_loggers := file_loggers p |}.

Definition set_bus_listeners (l : list nat) (p : proc) : proc :=
  {| trace := trace p; settings := settings p; egid := egid p; euid := euid p;
     charon_uid := charon_uid p; charon_gid := charon_gid p;
     marker := marker p; pidfile := pidfile p; heap := heap p;
     bus_listeners := l; sys_loggers := sys_loggers p;
     file_loggers := file_loggers p |}.

Definition set_sys_loggers (l : list nat) (p : proc) : proc :=
  {| trace := trace p; settings := settings p; egid := egid p; euid := euid p;
     charon_uid := charon_uid p; charon_gid := charon_gid p;
     marker := marker p; pidfile := pidfile p; heap := heap p;
     bus_listeners := bus_listeners p; sys_loggers := l;
     file_loggers := file_loggers p |}.

Definition set_file_loggers (l : list nat) (p : proc) : proc :=
  {| trace := trace p; settings := settings p; egid := egid p; euid := euid p;
     charon_uid := charon_uid p; charon_gid := charon_gid p;
     marker := marker p; pidfile := pidfile p; heap := heap p;
     bus_listeners := bus_listeners p; sys_loggers := sys_loggers p;
     file_loggers := l |}.

(** ** The monad *)

Definition M (A : Type) : Type := proc -> A * proc.

Definition ret {A} (a : A) : M A := fun p => (a, p).

Definition bind {A B} (c : M A) (k : A -> M B) : M B :=
  fun p => let (a, p') := c p in k a p'.

Notation "x <- c ;; k" := (bind c (fun x => k))
  (at level 100, c at next level, right associativity).
Notation "c ;; k" := (bind c (fun _ => k))
  (at level 100, right associativity).

Definition get {A} (f : proc -> A) : M A := fun p => (f p, p).
Definition modify (f : proc -> proc) : M unit := fun p => (tt, f p).
Definition emit (e : event) : M unit :=
  modify (fun p => set_trace (trace p ++ [e]) p).

(** [DBG1(DBG_DMN, fmt, ...)]. *)
Definition DBG1 (fmt : string) : M unit := emit (EvLog fmt).

(** ** run *)

Inductive run_result :=
| Returned          (* run() returned to main *)
| Waiting.          (* blocked in sigwait, nothing more to come *)

(** Modelled from the spec: [lib->settings->load_files(settings, NULL,
    FALSE)] re-reads the configuration files; when that fails the settings
    in force stay as they were. *)
Definition load_files (d : option settings_t) : M bool :=
  match d with
  | Some s => emit (EvLoadFiles true) ;; modify (set_settings s) ;; ret true
  | None => emit (EvLoadFiles false) ;; ret false
  end.

Definition bus_alert (kind : alert_t) (sig : Z) : M unit :=
  emit (EvAlert kind sig).

(** The [while (TRUE)] of [run], one [sigwait] outcome per iteration. *)
Fixpoint run_loop (inputs : list stimulus) : M run_result :=
  match inputs with
  | [] => ret Waiting
  | i :: rest =>
    let sig := wait_sig i in
    if negb (wait_error i =? 0) then
      DBG1 "error %d while waiting for a signal" ;;
      ret Returned
    else if sig =? SIGHUP then
      DBG1 "signal of type SIGHUP received. Reloading configuration" ;;
      ok <- load_files (disk i) ;;
      (if ok : bool then emit EvPluginsReload
       else DBG1 "reloading config failed, keeping old") ;;
      run_loop rest
    else if sig =? SIGINT then
      DBG1 "signal of type SIGINT received. Shutting down" ;;
      bus_alert ALERT_SHUTDOWN_SIGNAL sig ;;
      ret Returned
    else if sig =? SIGTERM then
      DBG1 "signal of type SIGTERM received. Shutting down" ;;
      bus_alert ALERT_SHUTDOWN_SIGNAL sig ;;
      ret Returned
    else
      DBG1 "unknown signal %d received. Ignored" ;;
      run_loop rest
  end.

Definition run (inputs : list stimulus) : M run_result :=
  emit (EvSigprocmask [SIGINT; SIGHUP; SIGTERM]) ;;
  run_loop inputs.

(** ** drop_capabilities *)

Definition setgid (E : env) (gid : Z) : M bool :=
  let ok := setgid_ok E gid in
  emit (EvSetgid gid ok) ;;
  (if ok then modify (set_egid gid) else ret tt) ;;
  ret ok.

Definition setuid (E : env) (uid : Z) : M bool :=
  let ok := setuid_ok E uid in
  emit (EvSetuid uid ok) ;;
  (if ok then modify (set_euid uid) else ret tt) ;;
  ret ok.

Definition charon_drop_capabilities (E : env) : M bool :=
  emit (EvDropCaps (caps_ok E)) ;; ret (caps_ok E).

Definition drop_capabilities (E : env) : M bool :=
  (if HAVE_PRCTL E then emit EvPrctlKeepcaps else ret tt) ;;
  gid <- get charon_gid ;;
  ok <- setgid E gid ;;
  if negb ok then
    DBG1 "change to unprivileged group failed" ;; ret false
  else
    uid <- get charon_uid ;;
    ok <- setuid E uid ;;
    if negb ok then
      DBG1 "change to unprivileged user failed" ;; ret false
    else
      ok <- charon_drop_capabilities E ;;
      if negb ok then
        DBG1 "unable to drop daemon capabilities" ;; ret false
      else ret true.

(** ** lookup_uid_gid *)

Definition lookup_uid_gid (E : env) : M bool :=
  match passwd_uid E with
  | Some None =>
    DBG1 "resolving user 'IPSEC_USER' failed" ;; ret false
  | user =>
    (match user with
     | Some (Some uid) => modify (set_charon_uid uid)
     | _ => ret tt
     end) ;;
    match group_gid E with
    | Some None =>
      DBG1 "resolving group 'IPSEC_GROUP' failed" ;; ret false
    | group =>
      (match group with
       | Some (Some gid) => modify (set_charon_gid gid)
       | _ => ret tt
       end) ;;
      (match android_uid E with
       | Some uid => modify (set_charon_uid uid)
       | None => ret tt
       end) ;;
      ret true
    end
  end.

(** ** atoi *)

Definition isspace (c : ascii) : bool :=
  let n := nat_of_ascii c in
  (n =? 32)%nat || ((9 <=? n)%nat && (n <=? 13)%nat).

Definition digit_of (c : ascii) : option Z :=
  let n := Z.of_nat (nat_of_ascii c) in
  if (48 <=? n) && (n <=? 57) then Some (n - 48) else None.

Fixpoint skip_space (s : string) : string :=
  match s with
  | String c s' => if isspace c then skip_space s' else s
  | EmptyString => s
  end.

(** The leading decimal digits of [s], read after [acc]. *)
Fixpoint digits (acc : Z) (s : string) : Z :=
  match s with
  | String c s' =>
    match digit_of c with
    | Some d => digits (10 * acc + d) s'
    | None => acc
    end
  | EmptyString => acc
  end.

(** The number written at the start of [s]: optional white space, an
    optional sign, then decimal digits up to the first other character. *)
Definition decimal (s : string) : Z :=
  match skip_space s with
  | String "-" s' => - digits 0 s'
  | String "+" s' => digits 0 s'
  | s' => digits 0 s'
  end.

(** The limits of [long], which has 64 bits. *)
Definition LONG_MAX : Z := 9223372036854775807.
Definition LONG_MIN : Z := -9223372036854775808.

(** [strtol(nptr, NULL, 10)]: the number written at the start of [nptr],
    and the nearest limit of [long] when it is out of range. *)
Definition strtol (nptr : string) : Z :=
  Z.max LONG_MIN (Z.min LONG_MAX (decimal nptr)).

(** The conversion of a [long] to [int], which has 32 bits: the low 32
    bits, read as a number in two's complement. *)
Definition to_int (z : Z) : Z :=
  (z + 2147483648) mod 4294967296 - 2147483648.

(** [atoi(nptr)], which the C library computes as
    [(int) strtol(nptr, NULL, 10)].  Its result is what [check_pidfile]
    stores in [pid] and [main] in [levels[group]], both of the size of
    [int]. *)
Definition atoi (nptr : string) : Z := to_int (strtol nptr).

(** ** check_pidfile, unlink_pidfile *)

(** Size of [buf] in [check_pidfile]. *)
Definition BUF_SIZE : nat := 64.

(** What [fprintf(pidfile, "%d\n", getpid())] writes. *)
Definition newline : string := String (ascii_of_nat 10) EmptyString.

Definition pid_line (pid : Z) : string := pretty pid +:+ newline.

(** [stat(PID_FILE, &stb) == 0]. *)
Definition stat_pidfile : M bool :=
  m <- get marker ;;
  let found := bool_decide (is_Some m) in
  emit (EvStat found) ;; ret found.

(** [pidfile = fopen(PID_FILE, mode)]; opening with "w" creates the file or
    truncates it. *)
Definition fopen_pidfile (E : env) (mode : string) : M bool :=
  uid <- get euid ;;
  m <- get marker ;;
  if String.eqb mode "r" then
    let ok := bool_decide (is_Some m) && may_read E uid in
    emit (EvFopen mode ok) ;;
    modify (set_pidfile (if ok then OpenR else NULLp)) ;;
    ret ok
  else
    let ok := may_write E uid in
    emit (EvFopen mode ok) ;;
    (if ok then modify (set_marker (Some "")) ;; modify (set_pidfile OpenW)
     else modify (set_pidfile NULLp)) ;;
    ret ok.

(** [pid = atoi(buf)] after [fread(buf, 1, sizeof(buf), pidfile)] into the
    zeroed [buf] has read the bytes [bytes], if any.  A file that fills
    [buf] leaves it without a closing NUL, and [atoi] runs on into the
    memory behind [buf]. *)
Definition pid_of_buf (E : env) (bytes : string) : Z :=
  if (String.length bytes =? 0)%nat then 0
  else if (String.length bytes <? BUF_SIZE)%nat then atoi bytes
  else atoi (bytes +:+ behind_buf E).

(** The pid that [check_pidfile] reads from a marker with these contents. *)
Definition marker_pid (E : env) (contents : string) : Z :=
  pid_of_buf E (String.substring 0 BUF_SIZE contents).

(** [fread(buf, 1, sizeof(buf), pidfile)]: the bytes read. *)
Definition fread_pidfile : M string :=
  m <- get marker ;;
  let bytes := String.substring 0 BUF_SIZE (default "" m) in
  emit (EvFread (String.length bytes)) ;;
  ret bytes.

Definition fclose_pidfile : M unit :=
  emit EvFclose ;; modify (set_pidfile Closed).

(** [kill(pid, 0) == 0]. *)
Definition kill0 (E : env) (pid : Z) : M bool :=
  emit (EvKill pid 0 (kill_ok E pid)) ;; ret (kill_ok E pid).

(** [unlink(PID_FILE)]. *)
Definition unlink_path (E : env) : M unit :=
  uid <- get euid ;;
  m <- get marker ;;
  let ok := bool_decide (is_Some m) && may_unlink E uid in
  emit (EvUnlink ok) ;;
  if ok then modify (set_marker None) else ret tt.

(** [fprintf(pidfile, ...)] followed by [fflush(pidfile)]: the text is
    appended to the file behind the stream. *)
Definition fprintf_pidfile (text : string) : M unit :=
  emit (EvFprintf text) ;;
  m <- get marker ;;
  match m with
  | Some contents => modify (set_marker (Some (contents +:+ text)))
  | None => ret tt
  end.

(** The tail of [check_pidfile]: create the new pidfile. *)
Definition create_pidfile (E : env) : M unit :=
  ok <- fopen_pidfile E "w" ;;
  if ok : bool then
    uid <- get charon_uid ;;
    gid <- get charon_gid ;;
    emit (EvFchown uid gid) ;;
    fprintf_pidfile (pid_line (getpid E)) ;;
    emit EvFflush
  else ret tt.

(** Returns [true] if already running. *)
Definition check_pidfile (E : env) : M bool :=
  found <- stat_pidfile ;;
  if found : bool then
    opened <- fopen_pidfile E "r" ;;
    running <-
      (if opened : bool then
         bytes <- fread_pidfile ;;
         let pid := pid_of_buf E bytes in
         fclose_pidfile ;;
         if negb (pid =? 0) then kill0 E pid else ret false
       else ret false) ;;
    if running : bool then ret true
    else
      DBG1 "removing pidfile 'PID_FILE', process not running" ;;
      unlink_path E ;;
      create_pidfile E ;;
      ret false
  else
    create_pidfile E ;;
    ret false.

(** [ftruncate(fileno(pidfile), 0)]: empties the file behind the stream. *)
Definition ftruncate_pidfile (E : env) : M unit :=
  f <- get pidfile ;;
  m <- get marker ;;
  let ok := ftruncate_ok E && match f with OpenW => true | _ => false end in
  emit (EvFtruncate ok) ;;
  if ok && bool_decide (is_Some m) then modify (set_marker (Some ""))
  else ret tt.

Definition unlink_pidfile (E : env) : M unit :=
  f <- get pidfile ;;
  (match f with
   | NULLp => ret tt
   | _ => ftruncate_pidfile E ;; fclose_pidfile
   end) ;;
  unlink_path E.

(** ** initialize_loggers *)

Definition get_bool (key : list string) (def : bool) : M bool :=
  emit (EvGetBool key) ;;
  s <- get settings ;;
  ret (default def (bool_value s key)).

Definition get_int (key : list string) (def : Z) : M Z :=
  emit (EvGetInt key) ;;
  s <- get settings ;;
  ret (default def (int_value s key)).

Definition get_str (key : list string) (def : option string)
  : M (option string) :=
  emit (EvGetStr key) ;;
  s <- get settings ;;
  ret (match str_value s key with Some v => Some v | None => def end).

(** [create_section_enumerator] and the names its [enumerate] yields. *)
Definition enumerate_sections (section : list string) : M (list string) :=
  emit (EvEnumerate section) ;;
  s <- get settings ;;
  ret (section_names s section).

(** A loop over [l] with the local variables [s]. *)
Fixpoint fold_each {A S} (l : list A) (s : S) (body : A -> S -> M S) : M S :=
  match l with
  | [] => ret s
  | x :: l' => s' <- body x s ;; fold_each l' s' body
  end.

Fixpoint for_each {A} (l : list A) (body : A -> M unit) : M unit :=
  match l with
  | [] => ret tt
  | x :: l' => body x ;; for_each l' body
  end.

(** Modelled from the spec: the constructors and [set_level] of
    sys_logger.c and file_logger.c, which are not part of the sources at
    hand.  A logger owns one threshold per debug group; [set_level] on a
    group sets that threshold, and on the pseudo group [DBG_ANY] the
    thresholds of all groups. *)
Definition DBG_ANY (E : env) : nat := DBG_MAX E.

Definition new_logger (E : env) (snk : sink) (ike_name : bool) : M nat :=
  h <- get heap ;;
  modify (set_heap
            (h ++ [{| lg_sink := snk; lg_ike_name := ike_name;
                      lg_levels := replicate (DBG_MAX E) (created_level E) |}])) ;;
  ret (length h).

Definition sys_logger_create (E : env) (facility : facility_t)
    (ike_name : bool) : M nat :=
  new_logger E (SysSink facility) ike_name.

Definition file_logger_create (E : env) (out : stream)
    (time_format : option string) (ike_name : bool) : M nat :=
  new_logger E (FileSink out time_format) ike_name.

Definition with_level (E : env) (group : nat) (level : Z) (l : logger)
  : logger :=
  {| lg_sink := lg_sink l; lg_ike_name := lg_ike_name l;
     lg_levels := if (group <? DBG_ANY E)%nat
                  then <[group := level]> (lg_levels l)
                  else replicate (DBG_MAX E) level |}.

Definition set_level (E : env) (addr : nat) (group : nat) (level : Z)
  : M unit :=
  modify (fun p => set_heap (alter (with_level E group level) addr (heap p)) p).

Definition add_listener (addr : nat) : M unit :=
  emit (EvAddListener addr) ;;
  modify (fun p => set_bus_listeners (bus_listeners p ++ [addr]) p).

Definition sys_loggers_insert_last (addr : nat) : M unit :=
  emit (EvSysloggersInsert addr) ;;
  modify (fun p => set_sys_loggers (sys_loggers p ++ [addr]) p).

Definition file_loggers_insert_last (addr : nat) : M unit :=
  emit (EvFileloggersInsert addr) ;;
  modify (fun p => set_file_loggers (file_loggers p ++ [addr]) p).

(** The groups [0 .. DBG_MAX - 1] of the [for] loops. *)
Definition groups (E : env) : list nat := seq 0 (DBG_MAX E).

(** [def = get_int("<section>.default", 1)] and the loop that installs the
    level of every group. *)
Definition configure_levels (E : env) (section : list string) (addr : nat)
  : M unit :=
  def <- get_int (section ++ ["default"]) 1 ;;
  for_each (groups E) (fun group =>
    level <- get_int (section ++ [debug_lower_names E group]) def ;;
    set_level E addr group level).

(** The body of the loop over the sections of charon.syslog. *)
Definition syslog_section (E : env) (facility : string)
    (loggers_defined : nat) : M nat :=
  let loggers_defined := S loggers_defined in
  let section := ["charon"; "syslog"; facility] in
  ike_name <- get_bool (section ++ ["ike_name"]) false ;;
  created <-
    (if String.eqb facility "daemon" then
       a <- sys_logger_create E LOG_DAEMON ike_name ;; ret (Some a)
     else if String.eqb facility "auth" then
       a <- sys_logger_create E LOG_AUTHPRIV ike_name ;; ret (Some a)
     else ret None) ;;
  match created with
  | None => ret loggers_defined                         (* continue *)
  | Some sys_logger =>
    configure_levels E section sys_logger ;;
    sys_loggers_insert_last sys_logger ;;
    add_listener sys_logger ;;
    ret loggers_defined
  end.

(** [fopen(filename, append ? "a" : "w")] of a log file. *)
Definition fopen_log (E : env) (filename mode : string) : M (option stream) :=
  let ok := openable E filename in
  emit (EvFopenLog filename mode ok) ;;
  ret (if ok then Some (Path filename mode) else None).

(** The body of the loop over the sections of charon.filelog. *)
Definition filelog_section (E : env) (filename : string)
    (loggers_defined : nat) : M nat :=
  let loggers_defined := S loggers_defined in
  let section := ["charon"; "filelog"; filename] in
  file <-
    (if String.eqb filename "stderr" then ret (Some Stderr)
     else if String.eqb filename "stdout" then ret (Some Stdout)
     else
       append <- get_bool (section ++ ["append"]) true ;;
       file <- fopen_log E filename (if append then "a" else "w") ;;
       match file with
       | None =>
         DBG1 "opening file %s for logging failed: %s" ;; ret None
       | Some f =>
         flush_line <- get_bool (section ++ ["flush_line"]) false ;;
         (if flush_line then emit (EvSetlinebuf filename) else ret tt) ;;
         ret (Some f)
       end) ;;
  match file with
  | None => ret loggers_defined                         (* continue *)
  | Some f =>
    time_format <- get_str (section ++ ["time_format"]) None ;;
    ike_name <- get_bool (section ++ ["ike_name"]) false ;;
    file_logger <- file_logger_create E f time_format ike_name ;;
    configure_levels E section file_logger ;;
    file_loggers_insert_last file_logger ;;
    add_listener file_logger ;;
    ret loggers_defined
  end.

(** The legacy style default loggers. *)
Definition default_loggers (E : env) (use_stderr : bool) (levels : list Z)
  : M unit :=
  file_logger <- file_logger_create E Stdout None false ;;
  add_listener file_logger ;;
  file_loggers_insert_last file_logger ;;
  sys_logger <- sys_logger_create E LOG_DAEMON false ;;
  add_listener sys_logger ;;
  sys_loggers_insert_last sys_logger ;;
  for_each (groups E) (fun group =>
    set_level E sys_logger group (levels !!! group) ;;
    if use_stderr then set_level E file_logger group (levels !!! group)
    else ret tt) ;;
  sys_logger <- sys_logger_create E LOG_AUTHPRIV false ;;
  add_listener sys_logger ;;
  sys_loggers_insert_last sys_logger ;;
  set_level E sys_logger (DBG_ANY E) LEVEL_AUDIT.

Definition initialize_loggers (E : env) (use_stderr : bool)
    (levels : list Z) : M unit :=
  facilities <- enumerate_sections ["charon"; "syslog"] ;;
  loggers_defined <- fold_each facilities O (syslog_section E) ;;
  filenames <- enumerate_sections ["charon"; "filelog"] ;;
  loggers_defined <- fold_each filenames loggers_defined (filelog_section E) ;;
  if (loggers_defined =? 0)%nat then default_loggers E use_stderr levels
  else ret tt.

(** ** main *)

Definition usage (msg : string) : M unit :=
  (if negb (String.eqb msg "") then emit (EvPrint msg) else ret tt) ;;
  emit (EvPrint "Usage: charon").

(** The [for (;;)] over [getopt_long]: the status to leave with, or the
    flags to go on with. *)
Fixpoint handle_arguments (E : env) (opts : list opt) (use_syslog : bool)
    (levels : list Z) : M (Z + bool * list Z) :=
  match opts with
  | [] => ret (inr (use_syslog, levels))                 (* EOF *)
  | OptHelp :: _ => usage "" ;; ret (inl 0)
  | OptVersion :: _ => emit (EvPrint "Linux strongSwan %s") ;; ret (inl 0)
  | OptUseSyslog :: rest => handle_arguments E rest true levels
  | OptDebug group optarg :: rest =>
    handle_arguments E rest use_syslog (<[group := atoi optarg]> levels)
  | OptOther :: _ => usage "" ;; ret (inl 1)
  end.

(** The label [deinit]: tear down and [return status]. *)
Definition deinit (status : Z) : M Z :=
  emit EvLibcharonDeinit ;;
  emit EvLibhydraDeinit ;;
  emit EvLibraryDeinit ;;
  ret status.

(** [exit(status)]. *)
Definition exit (status : Z) : M Z :=
  emit (EvExit status) ;; ret status.

Definition install_signal_handlers : M unit :=
  emit EvSigaction.

(** How the start-up part of [main] ends: the process has left with a
    status, or the daemon is started. *)
Inductive started :=
| Aborted (status : Z)
| Started.

Definition abort (leave : M Z) : M started :=
  status <- leave ;; ret (Aborted status).

(** [main] from [check_pidfile] to [charon->start(charon)]. *)
Definition claim_and_start (E : env) : M started :=
  let status := SS_RC_INITIALIZATION_FAILED E in
  running <- check_pidfile E ;;
  if running : bool then
    DBG1 "charon already running ('PID_FILE' exists)" ;;
    abort (deinit (-1))
  else
  dropped <- drop_capabilities E ;;
  if negb dropped then
    DBG1 "capability dropping failed - aborting charon" ;;
    abort (deinit status)
  else
  install_signal_handlers ;;
  emit EvCharonStart ;;
  ret Started.

(** [main] up to and including [charon->start(charon)]. *)
Definition startup (E : env) : M started :=
  let status := SS_RC_INITIALIZATION_FAILED E in
  emit (EvLibraryInit (library_init_ok E)) ;;
  if negb (library_init_ok E) then
    emit EvLibraryDeinit ;;
    abort (exit (SS_RC_LIBSTRONGSWAN_INTEGRITY E))
  else
  checked <-
    (match integrity E with
     | Some ok => emit (EvIntegrityCheck ok) ;; ret ok
     | None => ret true
     end) ;;
  if negb checked then
    emit (EvLog "integrity check of charon failed") ;;
    emit EvLibraryDeinit ;;
    abort (exit (SS_RC_DAEMON_INTEGRITY E))
  else
  emit (EvLibhydraInit (libhydra_init_ok E)) ;;
  if negb (libhydra_init_ok E) then
    emit (EvLog "initialization failed - aborting charon") ;;
    emit EvLibhydraDeinit ;;
    emit EvLibraryDeinit ;;
    abort (exit (SS_RC_INITIALIZATION_FAILED E))
  else
  emit (EvLibcharonInit (libcharon_init_ok E)) ;;
  if negb (libcharon_init_ok E) then
    emit (EvLog "initialization failed - aborting charon") ;;
    abort (deinit status)
  else
  let levels := replicate (DBG_MAX E) LEVEL_CTRL in
  parsed <- handle_arguments E (options E) false levels ;;
  match parsed with
  | inl status => abort (deinit status)
  | inr (use_syslog, levels) =>
    ok <- lookup_uid_gid E ;;
    if negb ok then
      emit (EvLog "invalid uid/gid - aborting charon") ;;
      abort (deinit status)
    else
    initialize_loggers E (negb use_syslog) levels ;;
    emit (EvCharonInitialize (charon_initialize_ok E)) ;;
    if negb (charon_initialize_ok E) then
      DBG1 "initialization failed - aborting charon" ;;
      abort (deinit status)
    else claim_and_start E
  end.

(** [main]; the result is the exit status of the process, or [None] while
    the main thread is still blocked in the [sigwait] of [run]. *)
Definition main (E : env) : M (option Z) :=
  s <- startup E ;;
  match s with
  | Aborted status => ret (Some status)
  | Started =>
    r <- run (signals E) ;;
    match r with
    | Waiting => ret None
    | Returned =>
      unlink_pidfile E ;;
      status <- deinit 0 ;;
      ret (Some status)
    end
  end.

(** ** Stages *)

Inductive stage := Library | Libhydra | Libcharon.

(** The stages torn down in a trace, in the order of their teardown. *)
Fixpoint teardowns (t : list event) : list stage :=
  match t with
  | [] => []
  | EvLibraryDeinit :: t' => Library :: teardowns t'
  | EvLibhydraDeinit :: t' => Libhydra :: teardowns t'
  | EvLibcharonDeinit :: t' => Libcharon :: teardowns t'
  | _ :: t' => teardowns t'
  end.

(** The stages whose initialization was called, and those whose
    initialization succeeded, in the order of the calls. *)
Fixpoint attempted (t : list event) : list stage :=
  match t with
  | [] => []
  | EvLibraryInit _ :: t' => Library :: attempted t'
  | EvLibhydraInit _ :: t' => Libhydra :: attempted t'
  | EvLibcharonInit _ :: t' => Libcharon :: attempted t'
  | _ :: t' => attempted t'
  end.

Fixpoint initialized (t : list event) : list stage :=
  match t with
  | [] => []
  | EvLibraryInit true :: t' => Library :: initialized t'
  | EvLibhydraInit true :: t' => Libhydra :: initialized t'
  | EvLibcharonInit true :: t' => Libcharon :: initialized t'
  | _ :: t' => initialized t'
  end.

(** Why the process leaves, and the status it leaves with. *)
Inductive cause :=
| Success
| AlreadyRunning
| LibraryIntegrity
| DaemonIntegrity
| InitializationFailed.

Definition status_of (E : env) (c : cause) : Z :=
  match c with
  | Success => 0
  | AlreadyRunning => -1
  | LibraryIntegrity => SS_RC_LIBSTRONGSWAN_INTEGRITY E
  | DaemonIntegrity => SS_RC_DAEMON_INTEGRITY E
  | InitializationFailed => SS_RC_INITIALIZATION_FAILED E
  end.

(** The three status constants of library.h differ from one another, from
    0 and from -1. *)
Definition codes_distinct (E : env) : Prop :=
  NoDup [0; -1; SS_RC_LIBSTRONGSWAN_INTEGRITY E; SS_RC_DAEMON_INTEGRITY E;
         SS_RC_INITIALIZATION_FAILED E].

(** ** Traces *)

(** [logged evs p]: the process [p] after the calls [evs]. *)
Definition logged (evs : list event) (p : proc) : proc :=
  set_trace (trace p ++ evs) p.

(** The alerts published in a trace. *)
Fixpoint alerts (t : list event) : list (alert_t * Z) :=
  match t with
  | [] => []
  | EvAlert k s :: t' => (k, s) :: alerts t'
  | _ :: t' => alerts t'
  end.

(** The number of times the configuration files were re-read. *)
Fixpoint reloads (t : list event) : nat :=
  match t with
  | [] => O
  | EvLoadFiles _ :: t' => S (reloads t')
  | _ :: t' => reloads t'
  end.

(** ** The control loop, one iteration at a time *)

(** Signals that keep the loop going. *)
Definition continues (i : stimulus) : Prop :=
  wait_error i = 0 /\ wait_sig i <> SIGINT /\ wait_sig i <> SIGTERM.

Definition is_reload (i : stimulus) : Prop :=
  wait_error i = 0 /\ wait_sig i = SIGHUP.

Definition is_shutdown (i : stimulus) : Prop :=
  wait_error i = 0 /\ (wait_sig i = SIGINT \/ wait_sig i = SIGTERM).

Definition is_unknown (i : stimulus) : Prop :=
  wait_error i = 0 /\
  wait_sig i <> SIGHUP /\ wait_sig i <> SIGINT /\ wait_sig i <> SIGTERM.

(** What one SIGHUP does to the process. *)
Definition reloaded (d : option settings_t) (p : proc) : proc :=
  match d with
  | Some s =>
    logged [EvPluginsReload]
      (set_settings s
         (logged [EvLog "signal of type SIGHUP received. Reloading configuration";
                  EvLoadFiles true] p))
  | None =>
    logged [EvLog "signal of type SIGHUP received. Reloading configuration";
            EvLoadFiles false;
            EvLog "reloading config failed, keeping old"] p
  end.


(** The events of a trace that switch the group or the user. *)
Definition is_setgid (e : event) : bool :=
  match e with EvSetgid _ _ => true | _ => false end.



(** The trace of [drop_capabilities], by the answers of the three steps. *)
Definition drop_trace (E : env) (gid uid : Z) : list event :=
  (if HAVE_PRCTL E then [EvPrctlKeepcaps] else []) ++
  EvSetgid gid (setgid_ok E gid) ::
  (if setgid_ok E gid then
     EvSetuid uid (setuid_ok E uid) ::
     (if setuid_ok E uid then
        EvDropCaps (caps_ok E) ::
        (if caps_ok E then []
         else [EvLog "unable to drop daemon capabilities"])
      else [EvLog "change to unprivileged user failed"])
   else [EvLog "change to unprivileged group failed"]).

(** ** Sample environments *)

(** The debug groups of the option table of [main], in its order. *)
Definition sample_names : list string :=
  ["dmn"; "mgr"; "ike"; "chd"; "job"; "cfg"; "knl"; "net"; "enc"; "tnc";
   "imc"; "imv"; "tls"; "lib"].

Definition no_settings : settings_t :=
  {| section_names := fun _ => []; int_value := fun _ => None;
     bool_value := fun _ => None; str_value := fun _ => None |}.

(** A host on which the marker may be read, written and unlinked as given,
    [alive] tells which pids answer the probe, start-up succeeds as given
    and [sigwait] returns [sigs]. *)
Definition sample_env (rwu : bool * bool * bool) (alive : Z -> bool)
    (init : bool * option bool * bool * bool) (sigs : list stimulus) : env :=
  {| DBG_MAX := 14;
     debug_lower_names := fun g => default "" (sample_names !! g);
     created_level := LEVEL_SILENT;
     HAVE_PRCTL := true;
     setgid_ok := fun _ => true;
     setuid_ok := fun _ => true;
     caps_ok := true;
     getpid := 4711;
     kill_ok := alive;
     behind_buf := "";
     may_read := fun _ => rwu.1.1;
     may_write := fun _ => rwu.1.2;
     may_unlink := fun _ => rwu.2;
     ftruncate_ok := true;
     openable := fun _ => true;
     library_init_ok := init.1.1.1;
     integrity := init.1.1.2;
     libhydra_init_ok := init.1.2;
     libcharon_init_ok := init.2;
     options := [];
     passwd_uid := None;
     group_gid := None;
     android_uid := None;
     charon_initialize_ok := true;
     signals := sigs |}.

(** A process at the start of [main], with the marker as given. *)
Definition sample_proc (m : option string) : proc :=
  {| trace := []; settings := no_settings; egid := 0; euid := 0;
     charon_uid := 0; charon_gid := 0; marker := m; pidfile := NULLp;
     heap := []; bus_listeners := []; sys_loggers := []; file_loggers := [] |}.

Definition quiet_env : env :=
  sample_env (true, true, true) (fun _ => false)
             (true, Some true, true, true) [].

(** ** The marker after the guard *)

(** The marker after [create_pidfile]: rewritten when it can be opened for
    writing, left as it is otherwise. *)
Definition created (E : env) (uid : Z) (m : option string) : option string :=
  if may_write E uid then Some (pid_line (getpid E)) else m.

(** The marker after [unlink(PID_FILE)]. *)
Definition unlinked (E : env) (uid : Z) (m : option string) : option string :=
  match m with
  | Some c => if may_unlink E uid then None else Some c
  | None => None
  end.

(** A marker is stale when it cannot be read, holds no pid, or holds the
    pid of a process that does not answer the probe. *)
Definition stale (E : env) (uid : Z) (c : string) : Prop :=
  may_read E uid = false \/ marker_pid E c = 0 \/
  kill_ok E (marker_pid E c) = false.


(** The events of [t] that came after the first [n]. *)
Definition since (n : nat) (t : list event) : list event := drop n t.

(** The guard as the specification words it: a marker holding the pid of a
    live process means already running and stays untouched; with no marker,
    or one holding the pid of a process that is not live, the check
    succeeds and the marker ends up holding the current pid. *)
Definition guard_as_specified (E : env) (p : proc) : Prop :=
  (forall c,
     marker p = Some c -> 0 < marker_pid E c ->
     kill_ok E (marker_pid E c) = true ->
     fst (check_pidfile E p) = true /\
     marker (snd (check_pidfile E p)) = marker p) /\
  ((marker p = None \/
    exists c, marker p = Some c /\ 0 < marker_pid E c /\
              kill_ok E (marker_pid E c) = false) ->
   fst (check_pidfile E p) = false /\
   marker (snd (check_pidfile E p)) = Some (pid_line (getpid E))).

(** The treatment of unusable markers as the specification words it: a
    marker that cannot be read, or that does not hold a positive pid, never
    means already running. *)
Definition garbage_as_specified (E : env) (p : proc) : Prop :=
  forall c,
    marker p = Some c ->
    may_read E (euid p) = false \/ marker_pid E c <= 0 ->
    fst (check_pidfile E p) = false.

(** ** Thresholds *)

(** The threshold of a debug group in a logger section: the value
    configured for the group if there is one, else the default configured
    for the section if there is one, else 1. *)
Definition threshold (E : env) (s : settings_t) (section : list string)
    (group : nat) : Z :=
  match int_value s (section ++ [debug_lower_names E group]) with
  | Some level => level
  | None =>
    match int_value s (section ++ ["default"]) with
    | Some def => def
    | None => 1
    end
  end.

(** The settings a section consults for its levels. *)
Definition level_queries (E : env) (section : list string) : list event :=
  EvGetInt (section ++ ["default"]) ::
  map (fun group => EvGetInt (section ++ [debug_lower_names E group]))
      (groups E).

(** A logger with the thresholds of its section installed. *)
Definition configured (E : env) (s : settings_t) (section : list string)
    (l : logger) : logger :=
  {| lg_sink := lg_sink l; lg_ike_name := lg_ike_name l;
     lg_levels := map (threshold E s section) (groups E) |}.

(** ** The loggers a section gives rise to *)

Definition facility_of (name : string) : option facility_t :=
  if String.eqb name "daemon" then Some LOG_DAEMON
  else if String.eqb name "auth" then Some LOG_AUTHPRIV
  else None.

(** The logger built for the section [facility] of charon.syslog. *)
Definition sys_logger_of (E : env) (s : settings_t) (facility : string)
    (fac : facility_t) : logger :=
  let section := ["charon"; "syslog"; facility] in
  {| lg_sink := SysSink fac;
     lg_ike_name := default false (bool_value s (section ++ ["ike_name"]));
     lg_levels := map (threshold E s section) (groups E) |}.

(** The process after a logger at address [a] has been entered into
    charon->sys_loggers and added to the bus. *)
Definition sys_registered (a : nat) (l : logger) (evs : list event)
    (p : proc) : proc :=
  set_bus_listeners (bus_listeners p ++ [a])
    (set_sys_loggers (sys_loggers p ++ [a])
       (set_heap (heap p ++ [l]) (logged evs p))).

Definition file_registered (a : nat) (l : logger) (evs : list event)
    (p : proc) : proc :=
  set_bus_listeners (bus_listeners p ++ [a])
    (set_file_loggers (file_loggers p ++ [a])
       (set_heap (heap p ++ [l]) (logged evs p))).

Definition is_sentinel (filename : string) : bool :=
  String.eqb filename "stderr" || String.eqb filename "stdout".

(** The mode a log file is opened with. *)
Definition open_mode (s : settings_t) (filename : string) : string :=
  if default true (bool_value s ["charon"; "filelog"; filename; "append"])
  then "a" else "w".

(** The stream behind the section [filename] of charon.filelog, if any. *)
Definition file_stream_of (E : env) (s : settings_t) (filename : string)
  : option stream :=
  if String.eqb filename "stderr" then Some Stderr
  else if String.eqb filename "stdout" then Some Stdout
  else if openable E filename then Some (Path filename (open_mode s filename))
  else None.

(** What is done to obtain that stream. *)
Definition file_open_events (E : env) (s : settings_t) (filename : string)
  : list event :=
  let section := ["charon"; "filelog"; filename] in
  if is_sentinel filename then []
  else
    EvGetBool (section ++ ["append"]) ::
    EvFopenLog filename (open_mode s filename) (openable E filename) ::
    (if openable E filename then
       EvGetBool (section ++ ["flush_line"]) ::
       (if default false (bool_value s (section ++ ["flush_line"]))
        then [EvSetlinebuf filename] else [])
     else [EvLog "opening file %s for logging failed: %s"]).

(** The logger built for the section [filename] of charon.filelog. *)
Definition file_logger_of (E : env) (s : settings_t) (filename : string)
    (out : stream) : logger :=
  let section := ["charon"; "filelog"; filename] in
  {| lg_sink := FileSink out (str_value s (section ++ ["time_format"]));
     lg_ike_name := default false (bool_value s (section ++ ["ike_name"]));
     lg_levels := map (threshold E s section) (groups E) |}.

(** The calls of the loop body for one section of charon.syslog, the new
    logger getting the address [a]. *)
Definition syslog_events (E : env) (facility : string) (a : nat)
  : list event :=
  match facility_of facility with
  | Some _ =>
    EvGetBool ["charon"; "syslog"; facility; "ike_name"] ::
    level_queries E ["charon"; "syslog"; facility] ++
    [EvSysloggersInsert a; EvAddListener a]
  | None => [EvGetBool ["charon"; "syslog"; facility; "ike_name"]]
  end.

(** The process after the loop body for one section of charon.syslog. *)
Definition after_syslog_section (E : env) (facility : string) (p : proc)
  : proc :=
  let evs := syslog_events E facility (length (heap p)) in
  match facility_of facility with
  | Some fac =>
    sys_registered (length (heap p))
      (sys_logger_of E (settings p) facility fac) evs p
  | None => logged evs p
  end.

(** The calls of the loop body for one section of charon.filelog. *)
Definition filelog_events (E : env) (s : settings_t) (filename : string)
    (a : nat) : list event :=
  match file_stream_of E s filename with
  | Some _ =>
    file_open_events E s filename ++
    EvGetStr ["charon"; "filelog"; filename; "time_format"] ::
    EvGetBool ["charon"; "filelog"; filename; "ike_name"] ::
    level_queries E ["charon"; "filelog"; filename] ++
    [EvFileloggersInsert a; EvAddListener a]
  | None => file_open_events E s filename
  end.

(** The process after the loop body for one section of charon.filelog. *)
Definition after_filelog_section (E : env) (filename : string) (p : proc)
  : proc :=
  let evs := filelog_events E (settings p) filename (length (heap p)) in
  match file_stream_of E (settings p) filename with
  | Some out =>
    file_registered (length (heap p))
      (file_logger_of E (settings p) filename out) evs p
  | None => logged evs p
  end.

(** The logger, if any, that a section gives rise to. *)
Definition syslog_built (E : env) (s : settings_t) (facility : string)
  : option logger :=
  sys_logger_of E s facility <$> facility_of facility.

Definition filelog_built (E : env) (s : settings_t) (filename : string)
  : option logger :=
  file_logger_of E s filename <$> file_stream_of E s filename.

(** [p'] is [p] with loggers [ls] added to the heap and to the bus, after
    the calls [evs]. *)
Definition registers (ls : list logger) (evs : list event) (p p' : proc)
  : Prop :=
  settings p' = settings p /\
  heap p' = heap p ++ ls /\
  bus_listeners p' = bus_listeners p ++ seq (length (heap p)) (length ls) /\
  trace p' = trace p ++ evs.

(** The three default loggers, as [default_loggers] leaves them. *)
Definition default_heap (E : env) (use_stderr : bool) (levels : list Z)
  : list logger :=
  [ {| lg_sink := FileSink Stdout None; lg_ike_name := false;
       lg_levels := if use_stderr
                    then map (fun g => levels !!! g) (groups E)
                    else replicate (DBG_MAX E) (created_level E) |};
    {| lg_sink := SysSink LOG_DAEMON; lg_ike_name := false;
       lg_levels := map (fun g => levels !!! g) (groups E) |};
    {| lg_sink := SysSink LOG_AUTHPRIV; lg_ike_name := false;
       lg_levels := replicate (DBG_MAX E) LEVEL_AUDIT |} ].

(** The calls of [default_loggers], the first new logger getting the
    address [a]. *)
Definition default_events (a : nat) : list event :=
  [EvAddListener a; EvFileloggersInsert a;
   EvAddListener (S a); EvSysloggersInsert (S a);
   EvAddListener (S (S a)); EvSysloggersInsert (S (S a))].

(** The process after [default_loggers]. *)
Definition after_default_loggers (E : env) (use_stderr : bool)
    (levels : list Z) (p : proc) : proc :=
  let a := length (heap p) in
  set_sys_loggers (sys_loggers p ++ [S a; S (S a)])
    (set_file_loggers (file_loggers p ++ [a])
       (set_bus_listeners (bus_listeners p ++ [a; S a; S (S a)])
          (set_heap (heap p ++ default_heap E use_stderr levels)
             (logged (default_events a) p)))).

(** [touches name e]: the call [e] opens the path [name], sets its
    buffering, or consults the append or flush_line flag of the section
    [name] of charon.filelog. *)
Definition touches (name : string) (e : event) : bool :=
  match e with
  | EvFopenLog f _ _ => String.eqb f name
  | EvSetlinebuf f => String.eqb f name
  | EvGetBool key =>
    bool_decide (key = ["charon"; "filelog"; name; "append"]) ||
    bool_decide (key = ["charon"; "filelog"; name; "flush_line"])
  | _ => false
  end.

(** The listeners added to the bus in a trace. *)
Fixpoint added_listeners (t : list event) : list nat :=
  match t with
  | [] => []
  | EvAddListener a :: t' => a :: added_listeners t'
  | _ :: t' => added_listeners t'
  end.

(** The process after [initialize_loggers]. *)
Definition after_initialize_loggers (E : env) (use_stderr : bool)
    (levels : list Z) (p : proc) : proc :=
  let p1 := logged [EvEnumerate ["charon"; "syslog"]] p in
  let facilities := section_names (settings p1) ["charon"; "syslog"] in
  let p2 := foldl (fun p f => after_syslog_section E f p) p1 facilities in
  let p3 := logged [EvEnumerate ["charon"; "filelog"]] p2 in
  let filenames := section_names (settings p3) ["charon"; "filelog"] in
  let p4 := foldl (fun p f => after_filelog_section E f p) p3 filenames in
  if ((0 + length facilities) + length filenames =? 0)%nat
  then after_default_loggers E use_stderr levels p4
  else p4.

(** The loggers that [initialize_loggers] builds and registers: those of
    the sections of charon.syslog, then those of the sections of
    charon.filelog, or the three default loggers when there is no
    section. *)
Definition built_loggers (E : env) (use_stderr : bool) (levels : list Z)
    (s : settings_t) : list logger :=
  let facilities := section_names s ["charon"; "syslog"] in
  let filenames := section_names s ["charon"; "filelog"] in
  omap (syslog_built E s) facilities ++
  omap (filelog_built E s) filenames ++
  match facilities, filenames with
  | [], [] => default_heap E use_stderr levels
  | _, _ => []
  end.

(** A configuration with two sections of charon.syslog, of which [local0]
    is no facility of this file, and two sections of charon.filelog; the
    section stderr sets append to no. *)
Definition sample_settings : settings_t :=
  {| section_names := fun k =>
       if bool_decide (k = ["charon"; "syslog"]) then ["daemon"; "local0"]
       else if bool_decide (k = ["charon"; "filelog"])
            then ["stderr"; "/var/log/charon.log"]
            else [];
     int_value := fun k =>
       if bool_decide (k = ["charon"; "syslog"; "daemon"; "default"])
       then Some 2
       else if bool_decide (k = ["charon"; "syslog"; "daemon"; "ike"])
            then Some 3
            else None;
     bool_value := fun k =>
       if bool_decide (k = ["charon"; "filelog"; "stderr"; "append"])
       then Some false else None;
     str_value := fun _ => None |}.

Definition configured_proc : proc :=
  set_settings sample_settings (sample_proc None).

(** A start-up that fails at a stage, as the specification words it: the
    stages torn down are those that initialized successfully, in reverse
    order. *)
Definition teardown_as_specified (E : env) (p : proc) : Prop :=
  let t := since (length (trace p)) (trace (snd (main E p))) in
  teardowns t = rev (initialized t).

(** The calls of the executable's integrity check. *)
Definition integrity_events (E : env) : list event :=
  match integrity E with
  | Some ok => [EvIntegrityCheck ok]
  | None => []
  end.

(** Options that only set a flag or a level. *)
Definition is_flag (o : opt) : bool :=
  match o with
  | OptUseSyslog | OptDebug _ _ => true
  | _ => false
  end.

(** Calls that initialize or tear down a stage. *)
Definition is_stage_event (e : event) : bool :=
  match e with
  | EvLibraryInit _ | EvLibhydraInit _ | EvLibcharonInit _
  | EvLibraryDeinit | EvLibhydraDeinit | EvLibcharonDeinit => true
  | _ => false
  end.

(** [p'] has the marker, the stream on it and the effective user of [p]. *)
Definition same_host (p p' : proc) : Prop :=
  marker p' = marker p /\ pidfile p' = pidfile p /\ euid p' = euid p.

(** ** The marker at shutdown *)

(** The marker after [ftruncate] on the stream [f]: emptied when the
    stream is open for writing and the call succeeds. *)
Definition truncated (E : env) (f : FILEp) (m : option string)
  : option string :=
  match f, m with
  | OpenW, Some _ => if ftruncate_ok E then Some "" else m
  | _, _ => m
  end.

(** The calls of [unlink_pidfile] in the process [p]. *)
Definition release_events (E : env) (p : proc) : list event :=
  match pidfile p with
  | NULLp => []
  | f =>
    [EvFtruncate (ftruncate_ok E && match f with OpenW => true | _ => false end);
     EvFclose]
  end ++
  [EvUnlink (bool_decide (is_Some (marker p)) && may_unlink E (euid p))].

(** A shutdown after an error of [sigwait], as the specification words
    it: no alert is published, the marker is truncated and removed, and
    the status is 0. *)
Definition error_shutdown_as_specified (E : env) (p : proc) : Prop :=
  forall p1 i post,
    startup E p = (Started, p1) ->
    signals E = i :: post -> wait_error i <> 0 ->
    fst (main E p) = Some 0 /\
    alerts (since (length (trace p1)) (trace (snd (main E p)))) = [] /\
    marker (snd (main E p)) = None.

Definition is_ftruncate (e : event) : bool :=
  match e with EvFtruncate _ => true | _ => false end.

(** A host whose marker directory is read-only, where [sigwait] fails at
    once. *)
Definition readonly_env : env :=
  sample_env (true, false, false) (fun _ => false)
             (true, Some true, true, true)
             [{| wait_error := 4; wait_sig := 0; disk := None |}].

(** A host where [sigwait] fails at once. *)
Definition failing_wait_env : env :=
  sample_env (true, true, true) (fun _ => false)
             (true, Some true, true, true)
             [{| wait_error := 4; wait_sig := 0; disk := None |}].

(** Sample outcomes of [sigwait]. *)
Definition sighup_ok : stimulus :=
  {| wait_error := 0; wait_sig := SIGHUP; disk := Some sample_settings |}.
Definition sighup_bad : stimulus :=
  {| wait_error := 0; wait_sig := SIGHUP; disk := None |}.
Definition sigusr1 : stimulus :=
  {| wait_error := 0; wait_sig := 10; disk := None |}.
Definition sigterm : stimulus :=
  {| wait_error := 0; wait_sig := SIGTERM; disk := None |}.

(** ** Options *)

(** The level of [group] after the options [opts], starting from [init]:
    the value of the last debug option for the group, if there is one. *)
Fixpoint last_level (group : nat) (opts : list opt) (init : Z) : Z :=
  match opts with
  | [] => init
  | OptDebug g optarg :: rest =>
    last_level group rest (if (g =? group)%nat then atoi optarg else init)
  | _ :: rest => last_level group rest init
  end.

Definition is_use_syslog (o : opt) : bool :=
  match o with OptUseSyslog => true | _ => false end.

(** The status [main] leaves with at an option that ends the option loop,
    and what it prints there. *)
Definition option_status (o : opt) : Z :=
  match o with OptOther => 1 | _ => 0 end.

Definition option_prints (o : opt) : list event :=
  match o with
  | OptVersion => [EvPrint "Linux strongSwan %s"]
  | _ => [EvPrint "Usage: charon"]
  end.

(** The calls of [main] up to the option loop when every stage
    initializes. *)
Definition stage_events (E : env) : list event :=
  EvLibraryInit true :: integrity_events E ++
  [EvLibhydraInit true; EvLibcharonInit true].

Definition deinit_events : list event :=
  [EvLibcharonDeinit; EvLibhydraDeinit; EvLibraryDeinit].

(** ** Hosts that differ in one respect *)

(** The host [E] with the command line replaced. *)
Definition with_options v (E : env) : env :=
  {| DBG_MAX := DBG_MAX E; debug_lower_names := debug_lower_names E;
     created_level := created_level E;
     HAVE_PRCTL := HAVE_PRCTL E; setgid_ok := setgid_ok E;
     setuid_ok := setuid_ok E; caps_ok := caps_ok E; getpid := getpid E;
     kill_ok := kill_ok E; behind_buf := behind_buf E;
     may_read := may_read E; may_write := may_write E;
     may_unlink := may_unlink E; ftruncate_ok := ftruncate_ok E;
     openable := openable E; library_init_ok := library_init_ok E;
     integrity := integrity E; libhydra_init_ok := libhydra_init_ok E;
     libcharon_init_ok := libcharon_init_ok E; options := v;
     passwd_uid := passwd_uid E; group_gid := group_gid E;
     android_uid := android_uid E;
     charon_initialize_ok := charon_initialize_ok E; signals := signals E |}.

(** The host [E] with the outcomes of [sigwait] replaced. *)
Definition with_signals v (E : env) : env :=
  {| DBG_MAX := DBG_MAX E; debug_lower_names := debug_lower_names E;
     created_level := created_level E;
     HAVE_PRCTL := HAVE_PRCTL E; setgid_ok := setgid_ok E;
     setuid_ok := setuid_ok E; caps_ok := caps_ok E; getpid := getpid E;
     kill_ok := kill_ok E; behind_buf := behind_buf E;
     may_read := may_read E; may_write := may_write E;
     may_unlink := may_unlink E; ftruncate_ok := ftruncate_ok E;
     openable := openable E; library_init_ok := library_init_ok E;
     integrity := integrity E; libhydra_init_ok := libhydra_init_ok E;
     libcharon_init_ok := libcharon_init_ok E; options := options E;
     passwd_uid := passwd_uid E; group_gid := group_gid E;
     android_uid := android_uid E;
     charon_initialize_ok := charon_initialize_ok E; signals := v |}.


(** The host [E] with the user ids [setuid] accepts replaced. *)
Definition with_setuid_ok v (E : env) : env :=
  {| DBG_MAX := DBG_MAX E; debug_lower_names := debug_lower_names E;
     created_level := created_level E;
     HAVE_PRCTL := HAVE_PRCTL E; setgid_ok := setgid_ok E; setuid_ok := v;
     caps_ok := caps_ok E; getpid := getpid E; kill_ok := kill_ok E;
     behind_buf := behind_buf E; may_read := may_read E;
     may_write := may_write E; may_unlink := may_unlink E;
     ftruncate_ok := ftruncate_ok E; openable := openable E;
     library_init_ok := library_init_ok E; integrity := integrity E;
     libhydra_init_ok := libhydra_init_ok E;
     libcharon_init_ok := libcharon_init_ok E; options := options E;
     passwd_uid := passwd_uid E; group_gid := group_gid E;
     android_uid := android_uid E;
     charon_initialize_ok := charon_initialize_ok E; signals := signals E |}.

(** The host [E] with whether the capabilities can be reduced replaced. *)
Definition with_caps_ok v (E : env) : env :=
  {| DBG_MAX := DBG_MAX E; debug_lower_names := debug_lower_names E;
     created_level := created_level E;
     HAVE_PRCTL := HAVE_PRCTL E; setgid_ok := setgid_ok E;
     setuid_ok := setuid_ok E; caps_ok := v; getpid := getpid E;
     kill_ok := kill_ok E; behind_buf := behind_buf E;
     may_read := may_read E; may_write := may_write E;
     may_unlink := may_unlink E; ftruncate_ok := ftruncate_ok E;
     openable := openable E; library_init_ok := library_init_ok E;
     integrity := integrity E; libhydra_init_ok := libhydra_init_ok E;
     libcharon_init_ok := libcharon_init_ok E; options := options E;
     passwd_uid := passwd_uid E; group_gid := group_gid E;
     android_uid := android_uid E;
     charon_initialize_ok := charon_initialize_ok E; signals := signals E |}.

(** The host [E] with the uid of the configured user replaced. *)
Definition with_passwd_uid v (E : env) : env :=
  {| DBG_MAX := DBG_MAX E; debug_lower_names := debug_lower_names E;
     created_level := created_level E;
     HAVE_PRCTL := HAVE_PRCTL E; setgid_ok := setgid_ok E;
     setuid_ok := setuid_ok E; caps_ok := caps_ok E; getpid := getpid E;
     kill_ok := kill_ok E; behind_buf := behind_buf E;
     may_read := may_read E; may_write := may_write E;
     may_unlink := may_unlink E; ftruncate_ok := ftruncate_ok E;
     openable := openable E; library_init_ok := library_init_ok E;
     integrity := integrity E; libhydra_init_ok := libhydra_init_ok E;
     libcharon_init_ok := libcharon_init_ok E; options := options E;
     passwd_uid := v; group_gid := group_gid E; android_uid := android_uid E;
     charon_initialize_ok := charon_initialize_ok E; signals := signals E |}.

(** The host [E] with the gid of the configured group replaced. *)
Definition with_group_gid v (E : env) : env :=
  {| DBG_MAX := DBG_MAX E; debug_lower_names := debug_lower_names E;
     created_level := created_level E;
     HAVE_PRCTL := HAVE_PRCTL E; setgid_ok := setgid_ok E;
     setuid_ok := setuid_ok E; caps_ok := caps_ok E; getpid := getpid E;
     kill_ok := kill_ok E; behind_buf := behind_buf E;
     may_read := may_read E; may_write := may_write E;
     may_unlink := may_unlink E; ftruncate_ok := ftruncate_ok E;
     openable := openable E; library_init_ok := library_init_ok E;
     integrity := integrity E; libhydra_init_ok := libhydra_init_ok E;
     libcharon_init_ok := libcharon_init_ok E; options := options E;
     passwd_uid := passwd_uid E; group_gid := v;
     android_uid := android_uid E;
     charon_initialize_ok := charon_initialize_ok E; signals := signals E |}.

(** The host [E] with the uid of the Android build replaced. *)
Definition with_android_uid v (E : env) : env :=
  {| DBG_MAX := DBG_MAX E; debug_lower_names := debug_lower_names E;
     created_level := created_level E;
     HAVE_PRCTL := HAVE_PRCTL E; setgid_ok := setgid_ok E;
     setuid_ok := setuid_ok E; caps_ok := caps_ok E; getpid := getpid E;
     kill_ok := kill_ok E; behind_buf := behind_buf E;
     may_read := may_read E; may_write := may_write E;
     may_unlink := may_unlink E; ftruncate_ok := ftruncate_ok E;
     openable := openable E; library_init_ok := library_init_ok E;
     integrity := integrity E; libhydra_init_ok := libhydra_init_ok E;
     libcharon_init_ok := libcharon_init_ok E; options := options E;
     passwd_uid := passwd_uid E; group_gid := group_gid E; android_uid := v;
     charon_initialize_ok := charon_initialize_ok E; signals := signals E |}.

(** The host [E] with the log files that can be opened replaced. *)
Definition with_openable v (E : env) : env :=
  {| DBG_MAX := DBG_MAX E; debug_lower_names := debug_lower_names E;
     created_level := created_level E;
     HAVE_PRCTL := HAVE_PRCTL E; setgid_ok := setgid_ok E;
     setuid_ok := setuid_ok E; caps_ok := caps_ok E; getpid := getpid E;
     kill_ok := kill_ok E; behind_buf := behind_buf E;
     may_read := may_read E; may_write := may_write E;
     may_unlink := may_unlink E; ftruncate_ok := ftruncate_ok E;
     openable := v; library_init_ok := library_init_ok E;
     integrity := integrity E; libhydra_init_ok := libhydra_init_ok E;
     libcharon_init_ok := libcharon_init_ok E; options := options E;
     passwd_uid := passwd_uid E; group_gid := group_gid E;
     android_uid := android_uid E;
     charon_initialize_ok := charon_initialize_ok E; signals := signals E |}.

(** The host [E] with whether the marker can be truncated replaced. *)
Definition with_ftruncate_ok v (E : env) : env :=
  {| DBG_MAX := DBG_MAX E; debug_lower_names := debug_lower_names E;
     created_level := created_level E;
     HAVE_PRCTL := HAVE_PRCTL E; setgid_ok := setgid_ok E;
     setuid_ok := setuid_ok E; caps_ok := caps_ok E; getpid := getpid E;
     kill_ok := kill_ok E; behind_buf := behind_buf E;
     may_read := may_read E; may_write := may_write E;
     may_unlink := may_unlink E; ftruncate_ok := v; openable := openable E;
     library_init_ok := library_init_ok E; integrity := integrity E;
     libhydra_init_ok := libhydra_init_ok E;
     libcharon_init_ok := libcharon_init_ok E; options := options E;
     passwd_uid := passwd_uid E; group_gid := group_gid E;
     android_uid := android_uid E;
     charon_initialize_ok := charon_initialize_ok E; signals := signals E |}.

(** ** The guard in full *)

(** The marker names a process that answers the probe, as far as
    [check_pidfile] can tell. *)
Definition seen_running (E : env) (p : proc) : bool :=
  match marker p with
  | Some c =>
    may_read E (euid p) && negb (marker_pid E c =? 0) &&
    kill_ok E (marker_pid E c)
  | None => false
  end.

(** Calls that change the marker or remove it. *)
Definition changes_marker (e : event) : bool :=
  match e with
  | EvUnlink _ | EvFprintf _ | EvFtruncate _ | EvFchown _ _ => true
  | EvFopen mode _ => negb (String.eqb mode "r")
  | _ => false
  end.

(** [p'] is [p] after calls that neither initialize nor tear down a stage
    and publish no alert. *)
Definition silent (p p' : proc) : Prop :=
  exists evs,
    trace p' = trace p ++ evs /\
    Forall (fun e => is_stage_event e = false) evs /\ alerts evs = [].

(** ** The control loop as a whole *)

(** The configurations that the SIGHUPs among [inputs] load, in their
    order. *)
Definition loaded (inputs : list stimulus) : list settings_t :=
  omap (fun i => if wait_sig i =? SIGHUP then disk i else None) inputs.

(** An outcome of [sigwait] on which [run] returns. *)
Definition stops (i : stimulus) : Prop :=
  wait_error i <> 0 \/ is_shutdown i.

(** ** Every path through main *)

(** The statuses [main] can leave with. *)
Definition exit_statuses (E : env) : list Z :=
  [0; 1; -1; SS_RC_LIBSTRONGSWAN_INTEGRITY E; SS_RC_DAEMON_INTEGRITY E;
   SS_RC_INITIALIZATION_FAILED E].

(** How [startup] ends once the three stages are initialized, [p0] being
    the process at that point: either the daemon is started, or the three
    stages have been torn down after calls that touch no stage and publish
    no alert. *)
Definition ends_start (E : env) (p0 : proc) (r : started * proc) : Prop :=
  exists mid,
    Forall (fun e => is_stage_event e = false) mid /\ alerts mid = [] /\
    match fst r with
    | Started => trace (snd r) = trace p0 ++ mid
    | Aborted s =>
      trace (snd r) = trace p0 ++ mid ++ deinit_events /\
      (s = 0 \/ s = 1 \/ s = -1 \/ s = SS_RC_INITIALIZATION_FAILED E)
    end.

(** What can be said of [main] on every path: [evs] are its calls and [r]
    is its result. *)
Definition path_of_main (E : env) (r : option Z) (evs : list event) : Prop :=
  attempted evs `prefix_of` [Library; Libhydra; Libcharon] /\
  match r with
  | Some s => teardowns evs = rev (attempted evs) /\ In s (exit_statuses E)
  | None =>
    teardowns evs = [] /\ attempted evs = [Library; Libhydra; Libcharon] /\
    Forall continues (signals E)
  end /\
  (alerts evs = [] \/
   exists sig,
     (sig = SIGINT \/ sig = SIGTERM) /\ r = Some 0 /\
     alerts evs = [(ALERT_SHUTDOWN_SIGNAL, sig)]).

(** ** The registry of loggers *)

(** The bus lists no logger twice, every listener is a logger that exists,
    and the listeners are those kept in charon->sys_loggers and
    charon->file_loggers. *)
Definition registry_ok (p : proc) : Prop :=
  NoDup (bus_listeners p) /\
  Forall (fun a => (a < length (heap p))%nat) (bus_listeners p) /\
  bus_listeners p ≡ₚ sys_loggers p ++ file_loggers p.

(** A configuration whose only sections are a facility this file does not
    know and a log file. *)
Definition unusable_settings : settings_t :=
  {| section_names := fun k =>
       if bool_decide (k = ["charon"; "syslog"]) then ["local0"]
       else if bool_decide (k = ["charon"; "filelog"])
            then ["/var/log/charon.log"]
            else [];
     int_value := fun _ => None;
     bool_value := fun k =>
       if bool_decide (k = ["charon"; "filelog"; "/var/log/charon.log"; "append"])
       then Some false else None;
     str_value := fun _ => None |}.

(** ** The identity of the daemon *)

(** charon's user and group after a successful [lookup_uid_gid] that
    started from [old]. *)
Definition resolved_uid (E : env) (old : Z) : Z :=
  match android_uid E with
  | Some aid => aid
  | None => match passwd_uid E with Some (Some uid) => uid | _ => old end
  end.

Definition resolved_gid (E : env) (old : Z) : Z :=
  match group_gid E with Some (Some gid) => gid | _ => old end.

(** What [lookup_uid_gid] logs when it fails. *)
Definition unresolved_log (E : env) : event :=
  match passwd_uid E with
  | Some None => EvLog "resolving user 'IPSEC_USER' failed"
  | _ => EvLog "resolving group 'IPSEC_GROUP' failed"
  end.

(** [drop_capabilities] succeeds for charon's user and group. *)
Definition can_drop (E : env) (gid uid : Z) : bool :=
  setgid_ok E gid && setuid_ok E uid && caps_ok E.

(** The host [E] with whether the daemon initializes replaced. *)
Definition with_charon_initialize_ok v (E : env) : env :=
  {| DBG_MAX := DBG_MAX E; debug_lower_names := debug_lower_names E;
     created_level := created_level E;
     HAVE_PRCTL := HAVE_PRCTL E; setgid_ok := setgid_ok E;
     setuid_ok := setuid_ok E; caps_ok := caps_ok E; getpid := getpid E;
     kill_ok := kill_ok E; behind_buf := behind_buf E;
     may_read := may_read E; may_write := may_write E;
     may_unlink := may_unlink E; ftruncate_ok := ftruncate_ok E;
     openable := openable E; library_init_ok := library_init_ok E;
     integrity := integrity E; libhydra_init_ok := libhydra_init_ok E;
     libcharon_init_ok := libcharon_init_ok E; options := options E;
     passwd_uid := passwd_uid E; group_gid := group_gid E;
     android_uid := android_uid E; charon_initialize_ok := v;
     signals := signals E |}.

(** ** When the daemon is started *)

(** Everything the start-up needs to get through. *)
Definition can_start (E : env) (p : proc) : Prop :=
  library_init_ok E = true /\ integrity E <> Some false /\
  libhydra_init_ok E = true /\ libcharon_init_ok E = true /\
  forallb is_flag (options E) = true /\
  passwd_uid E <> Some None /\ group_gid E <> Some None /\
  charon_initialize_ok E = true /\
  seen_running E p = false /\
  can_drop E (resolved_gid E (charon_gid p))
             (resolved_uid E (charon_uid p)) = true.

(** ** Writing the marker *)

(** A call of [fprintf] on the marker. *)
Definition is_fprintf (e : event) : bool :=
  match e with EvFprintf _ => true | _ => false end.
(** * Properties *)

Lemma alerts_app t1 t2 : alerts (t1 ++ t2) = alerts t1 ++ alerts t2.
Proof.
  induction t1 as [|e t1 IH]; simpl; [reflexivity|].
  destruct e; simpl; rewrite ?IH; reflexivity.
Qed.

Lemma reloads_app t1 t2 : (reloads (t1 ++ t2) = reloads t1 + reloads t2)%nat.
Proof.
  induction t1 as [|e t1 IH]; simpl; [reflexivity|].
  destruct e; simpl; rewrite ?IH; reflexivity.
Qed.

Lemma logged_nil p : logged [] p = p.
Proof. destruct p; unfold logged, set_trace; simpl. by rewrite app_nil_r. Qed.

Lemma logged_logged e1 e2 p : logged e2 (logged e1 p) = logged (e1 ++ e2) p.
Proof. unfold logged, set_trace; simpl. by rewrite app_assoc. Qed.

Lemma trace_logged evs p : trace (logged evs p) = trace p ++ evs.
Proof. reflexivity. Qed.

Lemma settings_logged evs p : settings (logged evs p) = settings p.
Proof. reflexivity. Qed.

(** Unfold the monad and bring the traces to the form [trace p ++ evs]. *)
Ltac exec :=
  repeat (progress (unfold bind, DBG1, bus_alert, load_files, emit, modify,
                    ret, get, logged in *; cbn in * ));
  rewrite <- ?app_assoc; cbn.

Lemma run_loop_error i rest p :
  wait_error i <> 0 ->
  run_loop (i :: rest) p =
  (Returned, logged [EvLog "error %d while waiting for a signal"] p).
Proof.
  intros He. simpl. destruct (Z.eqb_spec (wait_error i) 0); [done|].
  exec. reflexivity.
Qed.

Lemma run_loop_reload i rest p :
  is_reload i ->
  run_loop (i :: rest) p = run_loop rest (reloaded (disk i) p).
Proof.
  intros [He Hs]. simpl. rewrite He, Hs. simpl.
  unfold reloaded. destruct (disk i); exec; reflexivity.
Qed.

Lemma run_loop_unknown i rest p :
  is_unknown i ->
  run_loop (i :: rest) p =
  run_loop rest (logged [EvLog "unknown signal %d received. Ignored"] p).
Proof.
  intros (He & H1 & H2 & H3). simpl. rewrite He. simpl.
  destruct (Z.eqb_spec (wait_sig i) SIGHUP); [done|].
  destruct (Z.eqb_spec (wait_sig i) SIGINT); [done|].
  destruct (Z.eqb_spec (wait_sig i) SIGTERM); [done|].
  exec. reflexivity.
Qed.

Lemma run_loop_shutdown i rest p :
  is_shutdown i ->
  exists msg,
    run_loop (i :: rest) p =
    (Returned, logged [EvLog msg; EvAlert ALERT_SHUTDOWN_SIGNAL (wait_sig i)] p).
Proof.
  intros [He [Hs|Hs]]; simpl; rewrite He, Hs; simpl; eexists; exec;
    reflexivity.
Qed.

Lemma continues_cases i : continues i -> is_reload i \/ is_unknown i.
Proof.
  intros (He & H1 & H2). unfold is_reload, is_unknown.
  destruct (Z.eq_dec (wait_sig i) SIGHUP); tauto.
Qed.

Lemma trace_reloaded d p :
  exists evs, trace (reloaded d p) = trace p ++ evs /\
              alerts evs = [] /\ reloads evs = 1%nat.
Proof.
  destruct d; simpl; rewrite <- ?app_assoc; eexists; split;
    try reflexivity; split; reflexivity.
Qed.

(** A run of signals that keep the loop going publishes no alert and
    leaves the loop where it was. *)
Lemma run_loop_continues pre rest p :
  Forall continues pre ->
  exists p1 evs,
    run_loop (pre ++ rest) p = run_loop rest p1 /\
    trace p1 = trace p ++ evs /\ alerts evs = [].
Proof.
  intros H. revert p. induction H as [|i pre Hi _ IH]; intros p.
  - exists p, []. simpl. by rewrite app_nil_r.
  - destruct (continues_cases i Hi) as [Hr|Hu].
    + destruct (IH (reloaded (disk i) p)) as (p1 & evs & Hrun & Ht & Ha).
      destruct (trace_reloaded (disk i) p) as (e0 & Ht0 & Ha0 & _).
      exists p1, (e0 ++ evs). split; [|split].
      * simpl app. rewrite run_loop_reload by done. exact Hrun.
      * rewrite Ht, Ht0. by rewrite app_assoc.
      * rewrite alerts_app, Ha0, Ha. reflexivity.
    + destruct (IH (logged [EvLog "unknown signal %d received. Ignored"] p))
        as (p1 & evs & Hrun & Ht & Ha).
      exists p1, (EvLog "unknown signal %d received. Ignored" :: evs).
      split; [|split].
      * simpl app. rewrite run_loop_unknown by done. exact Hrun.
      * rewrite Ht. simpl. by rewrite <- app_assoc.
      * exact Ha.
Qed.


(** ** The control loop *)

(** C1.  In every run of the control loop in which the signals before the
    first SIGINT or SIGTERM keep the loop going, that signal publishes one
    shutdown alert carrying its number, as the last call of [run], which
    then returns; no other alert is published.  A signal other than
    SIGHUP, SIGINT and SIGTERM is logged and ignored, and the loop goes on
    with the next signal. *)
Theorem run_shutdown_alert :
  (forall pre i post p,
     Forall continues pre -> is_shutdown i ->
     exists evs p',
       run (pre ++ i :: post) p = (Returned, p') /\
       trace p' =
         trace p ++ evs ++ [EvAlert ALERT_SHUTDOWN_SIGNAL (wait_sig i)] /\
       alerts evs = []) /\
  (forall i rest p,
     is_unknown i ->
     run_loop (i :: rest) p =
     run_loop rest (logged [EvLog "unknown signal %d received. Ignored"] p)).
Proof.
  split.
  - intros pre i post p Hpre Hi.
    destruct (run_loop_continues pre (i :: post)
                (logged [EvSigprocmask [SIGINT; SIGHUP; SIGTERM]] p) Hpre)
      as (p1 & evs & Hrun & Ht & Ha).
    destruct (run_loop_shutdown i post p1 Hi) as (msg & Hstop).
    exists (EvSigprocmask [SIGINT; SIGHUP; SIGTERM] :: evs ++ [EvLog msg]).
    eexists. split; [|split].
    + unfold run, bind, emit, modify. cbn.
      change (set_trace (trace p ++ [EvSigprocmask [SIGINT; SIGHUP; SIGTERM]]) p)
        with (logged [EvSigprocmask [SIGINT; SIGHUP; SIGTERM]] p).
      rewrite Hrun, Hstop. reflexivity.
    + rewrite trace_logged, Ht, trace_logged. cbn.
      rewrite <- !app_assoc. reflexivity.
    + cbn. rewrite alerts_app, Ha. reflexivity.
  - intros i rest p Hi. by apply run_loop_unknown.
Qed.

Lemma run_shutdown_alert_witness :
  (exists evs p',
     run ([sighup_bad; sigusr1] ++ sigterm :: [sighup_ok]) (sample_proc None) =
       (Returned, p') /\
     trace p' =
       trace (sample_proc None) ++ evs ++
       [EvAlert ALERT_SHUTDOWN_SIGNAL (wait_sig sigterm)] /\
     alerts evs = []) /\
  run_loop (sigusr1 :: [sigterm]) (sample_proc None) =
  run_loop [sigterm]
    (logged [EvLog "unknown signal %d received. Ignored"] (sample_proc None)).
Proof.
  split.
  - apply (proj1 run_shutdown_alert [sighup_bad; sigusr1] sigterm [sighup_ok]
             (sample_proc None)).
    + repeat constructor; vm_compute; discriminate.
    + split; [reflexivity|right; reflexivity].
  - apply (proj2 run_shutdown_alert sigusr1 [sigterm] (sample_proc None)).
    repeat split; vm_compute; discriminate.
Defined.

(** C5.  A SIGHUP re-reads the configuration files.  When that succeeds the
    plugins are asked to reload and the new settings are in force; when it
    fails the failure is logged, no reload is requested and the settings
    stay as they were.  Either way the loop goes on with the next signal,
    so any number of SIGHUPs leaves the loop waiting, each having re-read
    the files once. *)
Theorem run_reload :
  (forall i rest p,
     is_reload i ->
     exists p1,
       run_loop (i :: rest) p = run_loop rest p1 /\
       match disk i with
       | Some s =>
         settings p1 = s /\
         trace p1 = trace p ++
           [EvLog "signal of type SIGHUP received. Reloading configuration";
            EvLoadFiles true; EvPluginsReload]
       | None =>
         settings p1 = settings p /\
         trace p1 = trace p ++
           [EvLog "signal of type SIGHUP received. Reloading configuration";
            EvLoadFiles false;
            EvLog "reloading config failed, keeping old"]
       end) /\
  (forall inputs p,
     Forall is_reload inputs ->
     exists p',
       run_loop inputs p = (Waiting, p') /\
       reloads (trace p') = (reloads (trace p) + length inputs)%nat /\
       alerts (trace p') = alerts (trace p)).
Proof.
  split.
  - intros i rest p Hi. exists (reloaded (disk i) p). split.
    + by apply run_loop_reload.
    + unfold reloaded. destruct (disk i); split; try reflexivity;
        cbn; rewrite <- !app_assoc; reflexivity.
  - intros inputs p H. revert p.
    induction H as [|i inputs Hi _ IH]; intros p.
    + exists p. cbn. split; [reflexivity|]. split; [lia|reflexivity].
    + destruct (IH (reloaded (disk i) p)) as (p' & Hrun & Hn & Ha).
      destruct (trace_reloaded (disk i) p) as (e0 & Ht0 & Ha0 & Hn0).
      exists p'. split; [|split].
      * rewrite run_loop_reload by done. exact Hrun.
      * rewrite Hn, Ht0, reloads_app, Hn0. cbn. lia.
      * rewrite Ha, Ht0, alerts_app, Ha0. by rewrite app_nil_r.
Qed.

Lemma run_reload_witness :
  (exists p1,
     run_loop (sighup_bad :: [sigterm]) (sample_proc None) =
       run_loop [sigterm] p1 /\
     settings p1 = settings (sample_proc None) /\
     trace p1 = trace (sample_proc None) ++
       [EvLog "signal of type SIGHUP received. Reloading configuration";
        EvLoadFiles false;
        EvLog "reloading config failed, keeping old"]) /\
  (exists p',
     run_loop [sighup_ok; sighup_bad; sighup_ok] (sample_proc None) =
       (Waiting, p') /\
     reloads (trace p') = (reloads (trace (sample_proc None)) + 3)%nat /\
     alerts (trace p') = alerts (trace (sample_proc None))).
Proof.
  split.
  - apply (proj1 run_reload sighup_bad [sigterm] (sample_proc None)).
    split; reflexivity.
  - apply (proj2 run_reload [sighup_ok; sighup_bad; sighup_ok]
             (sample_proc None)).
    repeat constructor.
Defined.

(** ** Dropping privileges *)

Lemma drop_capabilities_trace E p :
  drop_capabilities E p =
  (setgid_ok E (charon_gid p) && setuid_ok E (charon_uid p) && caps_ok E,
   snd (drop_capabilities E p)) /\
  trace (snd (drop_capabilities E p)) =
  trace p ++ drop_trace E (charon_gid p) (charon_uid p).
Proof.
  unfold drop_capabilities, drop_trace, setgid, setuid,
    charon_drop_capabilities.
  destruct (HAVE_PRCTL E), (setgid_ok E (charon_gid p)) eqn:Hg; exec;
    rewrite ?Hg; exec;
    destruct (setuid_ok E (charon_uid p)) eqn:Hu; exec; rewrite ?Hu; exec;
    destruct (caps_ok E) eqn:Hc; exec; rewrite ?Hc; exec; auto.
Qed.



(** ** The singleton guard *)

#[local] Arguments String.substring : simpl never.
#[local] Arguments pid_of_buf : simpl never.
#[local] Arguments pid_line : simpl never.

Ltac exec_pid :=
  unfold check_pidfile, create_pidfile, stat_pidfile, fopen_pidfile,
    fread_pidfile, fclose_pidfile, kill0, unlink_path, fprintf_pidfile,
    unlink_pidfile, ftruncate_pidfile, marker_pid in *;
  exec.

Lemma check_pidfile_absent E p :
  marker p = None ->
  exists p',
    check_pidfile E p = (false, p') /\
    marker p' = created E (euid p) None /\
    pidfile p' = (if may_write E (euid p) then OpenW else NULLp) /\
    euid p' = euid p.
Proof.
  intros Hm. destruct p; cbn in *; subst. unfold created. exec_pid.
  destruct (may_write E _); exec; eexists; split; eauto.
Qed.

Lemma check_pidfile_running E p c :
  marker p = Some c ->
  may_read E (euid p) = true ->
  marker_pid E c <> 0 ->
  kill_ok E (marker_pid E c) = true ->
  check_pidfile E p =
  (true,
   set_pidfile Closed
     (logged [EvStat true; EvFopen "r" true;
              EvFread (String.length (String.substring 0 BUF_SIZE c));
              EvFclose; EvKill (marker_pid E c) 0 true] p)).
Proof.
  intros Hm Hr Hp Hk. destruct p; cbn in *; subst. exec_pid.
  rewrite Hr. exec.
  destruct (Z.eqb_spec (pid_of_buf E (String.substring 0 BUF_SIZE c)) 0);
    [done|].
  exec. rewrite Hk. exec. reflexivity.
Qed.

Lemma check_pidfile_stale E p c :
  marker p = Some c ->
  stale E (euid p) c ->
  exists p',
    check_pidfile E p = (false, p') /\
    marker p' = created E (euid p) (unlinked E (euid p) (Some c)) /\
    In (EvUnlink (may_unlink E (euid p))) (drop (length (trace p)) (trace p')) /\
    pidfile p' = (if may_write E (euid p) then OpenW else NULLp) /\
    euid p' = euid p.
Proof.
  intros Hm Hs. destruct p; cbn in *; subst.
  unfold created, unlinked, stale in *. exec_pid.
  destruct (may_read E _) eqn:Hr; exec.
  - destruct (Z.eqb_spec (pid_of_buf E (String.substring 0 BUF_SIZE c)) 0)
      as [H0|H0]; exec.
    + destruct (may_unlink E _), (may_write E _); exec;
        eexists; (split; [reflexivity|]); cbn;
        rewrite ?drop_app_length; cbn; tauto.
    + destruct Hs as [Hs|[Hs|Hs]]; [done|done|]. rewrite Hs. exec.
      destruct (may_unlink E _), (may_write E _); exec;
        eexists; (split; [reflexivity|]); cbn;
        rewrite ?drop_app_length; cbn; tauto.
  - destruct (may_unlink E _), (may_write E _); exec;
      eexists; (split; [reflexivity|]); cbn;
      rewrite ?drop_app_length; cbn; tauto.
Qed.

(** C3, on a host where the marker cannot be created: with no marker the
    check reports not running, and no marker holding the current pid comes
    to exist. *)
Lemma guard_unwritable_marker :
  ~ guard_as_specified
      (sample_env (true, false, true) (fun _ => false)
                  (true, Some true, true, true) [])
      (sample_proc None).
Proof.
  intros [_ H]. destruct H as [_ H]; [by left|]. vm_compute in H. discriminate.
Qed.

(** When the marker cannot be opened for writing, nothing is written. *)
Lemma check_pidfile_no_write E p :
  may_write E (euid p) = false ->
  exists evs,
    trace (snd (check_pidfile E p)) = trace p ++ evs /\
    existsb is_fprintf evs = false.
Proof.
  destruct p as [tr st eg eu cu cg mk pf hp bl sl fl]. cbn. intros Hw.
  destruct mk as [c|]; exec_pid; rewrite ?Hw; exec.
  - destruct (may_read E eu) eqn:Hr; exec.
    + destruct (Z.eqb_spec (pid_of_buf E (String.substring 0 BUF_SIZE c)) 0)
        as [H0|H0]; exec.
      * destruct (may_unlink E eu) eqn:Hu; exec; rewrite ?Hu, ?Hw; exec;
          eexists; (split; [reflexivity|]); reflexivity.
      * destruct (kill_ok E _) eqn:Hk; exec.
        -- eexists. split; [reflexivity|]. reflexivity.
        -- destruct (may_unlink E eu) eqn:Hu; exec; rewrite ?Hu, ?Hw; exec;
             eexists; (split; [reflexivity|]); reflexivity.
    + destruct (may_unlink E eu) eqn:Hu; exec; rewrite ?Hu, ?Hw; exec;
        eexists; (split; [reflexivity|]); reflexivity.
  - eexists. split; [reflexivity|]. reflexivity.
Qed.

(** C3, as the code has it.  A marker that can be opened for reading and
    holds a pid that answers the probe means already running: the check
    returns true after stat, open, read, close and probe, and the marker
    keeps its contents.  With no marker, or with a marker holding the pid
    of a process that does not answer the probe, the check returns false;
    the marker then holds the current pid if it can be opened for
    writing.  If it cannot, nothing is written: the marker is what the
    unlink of the old one left, and [fprintf] is not called. *)
Theorem check_pidfile_guard E p :
  (forall c,
     marker p = Some c -> may_read E (euid p) = true ->
     marker_pid E c <> 0 -> kill_ok E (marker_pid E c) = true ->
     exists p',
       check_pidfile E p = (true, p') /\
       marker p' = marker p /\
       since (length (trace p)) (trace p') =
         [EvStat true; EvFopen "r" true;
          EvFread (String.length (String.substring 0 BUF_SIZE c));
          EvFclose; EvKill (marker_pid E c) 0 true]) /\
  ((marker p = None \/
    exists c, marker p = Some c /\ kill_ok E (marker_pid E c) = false) ->
   exists p',
     check_pidfile E p = (false, p') /\
     (may_write E (euid p) = true ->
      marker p' = Some (pid_line (getpid E))) /\
     (may_write E (euid p) = false ->
      marker p' = unlinked E (euid p) (marker p) /\
      existsb is_fprintf (since (length (trace p)) (trace p')) = false)).
Proof.
  split.
  - intros c Hm Hr Hp Hk. eexists. split; [by apply check_pidfile_running|].
    split; [reflexivity|]. unfold since. cbn. by rewrite drop_app_length.
  - intros H.
    assert (Hrun : exists p',
              check_pidfile E p = (false, p') /\
              marker p' = created E (euid p) (unlinked E (euid p) (marker p))).
    { destruct H as [Hm|(c & Hm & Hk)].
      - destruct (check_pidfile_absent E p Hm) as (p' & Hc & Hm' & _).
        exists p'. by rewrite Hm.
      - destruct (check_pidfile_stale E p c Hm) as (p' & Hc & Hm' & _).
        { right; by right. }
        exists p'. by rewrite Hm. }
    destruct Hrun as (p' & Hc & Hm'). exists p'. split; [done|].
    unfold created in Hm'. split; intros Hw; rewrite Hw in Hm'; [done|].
    split; [done|].
    destruct (check_pidfile_no_write E p Hw) as (evs & Ht & Hno).
    rewrite Hc in Ht. cbn [snd] in Ht. unfold since.
    by rewrite Ht, drop_app_length.
Qed.

Lemma check_pidfile_guard_witness :
  (exists p',
     check_pidfile (sample_env (true, true, true) (fun _ => true)
                               (true, Some true, true, true) [])
                   (sample_proc (Some "4242")) = (true, p') /\
     marker p' = Some "4242" /\
     since 0 (trace p') =
       [EvStat true; EvFopen "r" true; EvFread 4; EvFclose;
        EvKill 4242 0 true]) /\
  (exists p',
     check_pidfile quiet_env (sample_proc (Some "999999")) = (false, p') /\
     marker p' = Some (pid_line 4711)) /\
  (exists p',
     check_pidfile (sample_env (true, false, false) (fun _ => false)
                               (true, Some true, true, true) [])
                   (sample_proc (Some "999999")) = (false, p') /\
     marker p' = Some "999999" /\
     existsb is_fprintf (since 0 (trace p')) = false).
Proof.
  split; [|split].
  - apply (proj1 (check_pidfile_guard
                    (sample_env (true, true, true) (fun _ => true)
                                (true, Some true, true, true) [])
                    (sample_proc (Some "4242"))) "4242");
      vm_compute; congruence.
  - destruct (proj2 (check_pidfile_guard quiet_env
                       (sample_proc (Some "999999"))))
      as (p' & Hc & Hw & _).
    { right. exists "999999". split; reflexivity. }
    exists p'. split; [exact Hc|]. apply Hw. reflexivity.
  - destruct (proj2 (check_pidfile_guard
                       (sample_env (true, false, false) (fun _ => false)
                                   (true, Some true, true, true) [])
                       (sample_proc (Some "999999"))))
      as (p' & Hc & _ & Hw).
    { right. exists "999999". split; reflexivity. }
    exists p'. split; [exact Hc|]. apply Hw. reflexivity.
Defined.

(** C9, on a marker holding -1 while the probe of -1 succeeds: the marker
    holds no positive pid, and the check reports already running. *)
Lemma garbage_negative_pid :
  ~ garbage_as_specified
      (sample_env (true, true, true) (fun _ => true)
                  (true, Some true, true, true) [])
      (sample_proc (Some "-1")).
Proof.
  intros H. specialize (H "-1" eq_refl). vm_compute in H.
  assert (true = false) by (apply H; right; discriminate). discriminate.
Qed.

(** C9, as the code has it.  A marker that exists but cannot be opened for
    reading, or from which the pid 0 is read (an empty file, or one that
    does not start with a number other than 0), is stale: the check
    returns false, tries to unlink the marker, and the marker then holds
    the current pid if it can be opened for writing; if it cannot, the
    marker is gone when the unlink succeeded and untouched otherwise. *)
Theorem check_pidfile_garbage E p c :
  marker p = Some c ->
  may_read E (euid p) = false \/ marker_pid E c = 0 ->
  exists p',
    check_pidfile E p = (false, p') /\
    In (EvUnlink (may_unlink E (euid p))) (since (length (trace p)) (trace p')) /\
    (may_write E (euid p) = true ->
     marker p' = Some (pid_line (getpid E))) /\
    (may_write E (euid p) = false ->
     marker p' = if may_unlink E (euid p) then None else Some c).
Proof.
  intros Hm Hg.
  destruct (check_pidfile_stale E p c Hm) as (p' & Hc & Hm' & Hu & _).
  { destruct Hg; [by left|right; by left]. }
  exists p'. split; [done|]. split; [done|].
  unfold created, unlinked in Hm'.
  split; intros Hw; rewrite Hw in Hm'; done.
Qed.

Lemma check_pidfile_garbage_witness :
  exists p',
    check_pidfile quiet_env (sample_proc (Some "garbage")) = (false, p') /\
    In (EvUnlink true) (since 0 (trace p')) /\
    (true = true -> marker p' = Some (pid_line 4711)) /\
    (true = false -> marker p' = None).
Proof.
  apply (check_pidfile_garbage quiet_env (sample_proc (Some "garbage"))
           "garbage").
  - reflexivity.
  - right. vm_compute. reflexivity.
Defined.

(** ** Installing the levels of a logger *)

Lemma set_heap_id p : set_heap (heap p) p = p.
Proof. by destruct p. Qed.

Lemma install_levels_upto (f : nat -> Z) (lv : list Z) (k : nat) :
  (k <= length lv)%nat ->
  foldl (fun l g => <[g := f g]> l) lv (seq 0 k) =
  map f (seq 0 k) ++ drop k lv.
Proof.
  induction k as [|k IH]; intros Hk.
  - cbn. by rewrite drop_0.
  - rewrite seq_S, foldl_snoc, IH by lia. cbn.
    rewrite map_app. cbn.
    rewrite insert_app_r_alt by (rewrite length_map, length_seq; lia).
    rewrite length_map, length_seq, Nat.sub_diag.
    destruct (lookup_lt_is_Some_2 lv k) as [x Hx]; [lia|].
    rewrite (drop_S lv x k Hx). cbn. by rewrite <- app_assoc.
Qed.

Lemma install_levels (f : nat -> Z) (lv : list Z) (n : nat) :
  length lv = n ->
  foldl (fun l g => <[g := f g]> l) lv (seq 0 n) = map f (seq 0 n).
Proof.
  intros <-. rewrite install_levels_upto by lia.
  by rewrite drop_all, app_nil_r.
Qed.

Lemma with_level_groups E (f : nat -> Z) (gs : list nat) (l : logger) :
  Forall (fun g => (g < DBG_MAX E)%nat) gs ->
  foldl (fun l g => with_level E g (f g) l) l gs =
  {| lg_sink := lg_sink l; lg_ike_name := lg_ike_name l;
     lg_levels := foldl (fun lv g => <[g := f g]> lv) (lg_levels l) gs |}.
Proof.
  intros H. revert l. induction H as [|g gs Hg _ IH]; intros l.
  - by destruct l.
  - cbn [foldl]. rewrite IH. unfold with_level, DBG_ANY. cbn [lg_sink lg_ike_name lg_levels].
    destruct (Nat.ltb_spec g (DBG_MAX E)); [reflexivity|lia].
Qed.

Lemma with_level_any E (level : Z) (l : logger) :
  with_level E (DBG_ANY E) level l =
  {| lg_sink := lg_sink l; lg_ike_name := lg_ike_name l;
     lg_levels := replicate (DBG_MAX E) level |}.
Proof. unfold with_level, DBG_ANY. by rewrite Nat.ltb_irrefl. Qed.

Lemma groups_bounded E : Forall (fun g => (g < DBG_MAX E)%nat) (groups E).
Proof.
  apply Forall_forall. intros g Hg. apply elem_of_seq in Hg. lia.
Qed.

(** Bring a process expression to the form of a record. *)
Ltac norm :=
  lazy beta iota zeta delta
    [logged set_trace set_settings set_egid set_euid set_charon_uid
     set_charon_gid set_marker set_pidfile set_heap set_bus_listeners
     set_sys_loggers set_file_loggers
     trace settings egid euid charon_uid charon_gid marker pidfile heap
     bus_listeners sys_loggers file_loggers negb];
  rewrite <- ?app_assoc.

(** *** Running the primitives *)

Lemma bind_pair {A B} (c : M A) (k : A -> M B) p a p1 :
  c p = (a, p1) -> bind c k p = k a p1.
Proof. intros H. unfold bind. by rewrite H. Qed.

Lemma ret_run {A} (a : A) p : ret a p = (a, p).
Proof. reflexivity. Qed.

Lemma emit_run e p : emit e p = (tt, logged [e] p).
Proof. reflexivity. Qed.

Lemma DBG1_run fmt p : DBG1 fmt p = (tt, logged [EvLog fmt] p).
Proof. reflexivity. Qed.

Lemma get_run {A} (f : proc -> A) p : get f p = (f p, p).
Proof. reflexivity. Qed.

Lemma modify_run f p : modify f p = (tt, f p).
Proof. reflexivity. Qed.

Lemma get_int_run key def p :
  get_int key def p =
  (default def (int_value (settings p) key), logged [EvGetInt key] p).
Proof. reflexivity. Qed.

Lemma get_bool_run key def p :
  get_bool key def p =
  (default def (bool_value (settings p) key), logged [EvGetBool key] p).
Proof. reflexivity. Qed.

Lemma get_str_run key def p :
  get_str key def p =
  (match str_value (settings p) key with Some v => Some v | None => def end,
   logged [EvGetStr key] p).
Proof. reflexivity. Qed.

Lemma enumerate_sections_run section p :
  enumerate_sections section p =
  (section_names (settings p) section, logged [EvEnumerate section] p).
Proof. reflexivity. Qed.

(** A logger as its constructor leaves it. *)
Lemma new_logger_run E snk ike p :
  new_logger E snk ike p =
  (length (heap p),
   set_heap (heap p ++ [{| lg_sink := snk; lg_ike_name := ike;
                           lg_levels := replicate (DBG_MAX E) (created_level E) |}])
            p).
Proof. reflexivity. Qed.

Lemma set_level_run E a g lvl p :
  set_level E a g lvl p =
  (tt, set_heap (alter (with_level E g lvl) a (heap p)) p).
Proof. reflexivity. Qed.

Lemma add_listener_run a p :
  add_listener a p =
  (tt, set_bus_listeners (bus_listeners p ++ [a]) (logged [EvAddListener a] p)).
Proof. reflexivity. Qed.

Lemma sys_loggers_insert_last_run a p :
  sys_loggers_insert_last a p =
  (tt, set_sys_loggers (sys_loggers p ++ [a]) (logged [EvSysloggersInsert a] p)).
Proof. reflexivity. Qed.

Lemma file_loggers_insert_last_run a p :
  file_loggers_insert_last a p =
  (tt, set_file_loggers (file_loggers p ++ [a])
         (logged [EvFileloggersInsert a] p)).
Proof. reflexivity. Qed.

Create HintDb run.
#[local] Hint Resolve ret_run emit_run DBG1_run get_run modify_run get_int_run
  get_bool_run get_str_run enumerate_sections_run new_logger_run
  set_level_run add_listener_run sys_loggers_insert_last_run
  file_loggers_insert_last_run : run.

(** Run the first computation of a sequence. *)
Ltac step0 := erewrite bind_pair by (solve [eauto with run]); cbv beta iota.
Ltac step := step0; norm.
Ltac steps := repeat step; rewrite ?ret_run.

Lemma for_each_levels E (section : list string) (a : nat) (def : Z)
    (gs : list nat) (p : proc) :
  for_each gs (fun group =>
    level <- get_int (section ++ [debug_lower_names E group]) def ;;
    set_level E a group level) p =
  (tt,
   set_heap
     (alter (fun l =>
               foldl (fun l g =>
                        with_level E g
                          (default def
                             (int_value (settings p)
                                (section ++ [debug_lower_names E g]))) l)
                     l gs) a (heap p))
     (logged (map (fun g => EvGetInt (section ++ [debug_lower_names E g])) gs)
             p)).
Proof.
  revert p. induction gs as [|g gs IH]; intros p.
  - cbn. unfold ret. rewrite logged_nil.
    rewrite (list_alter_id (fun l => l)) by done. by rewrite set_heap_id.
  - cbn [for_each]. step. rewrite IH.
    destruct p. norm. rewrite list_alter_alter_eq. reflexivity.
Qed.

Lemma configure_levels_run E (section : list string) (a : nat) (p : proc)
    (l : logger) :
  heap p !! a = Some l ->
  length (lg_levels l) = DBG_MAX E ->
  configure_levels E section a p =
  (tt,
   set_heap (<[a := configured E (settings p) section l]> (heap p))
            (logged (level_queries E section) p)).
Proof.
  intros Hl Hn. unfold configure_levels, level_queries.
  step. rewrite for_each_levels.
  destruct p. cbn [heap] in Hl. norm. cbn [app map]. f_equal. f_equal.
  apply list_eq. intros i.
  destruct (decide (a = i)) as [<-|Hne].
  - rewrite list_lookup_alter_eq, list_lookup_insert_eq
      by (by eapply lookup_lt_Some).
    rewrite Hl. cbn. f_equal.
    rewrite with_level_groups by apply groups_bounded.
    unfold configured, groups. rewrite install_levels by done.
    reflexivity.
  - by rewrite list_lookup_alter_ne, list_lookup_insert_ne.
Qed.

(** ** One section of the logger configuration *)

Lemma lookup_fresh {A} (h : list A) (x : A) : (h ++ [x]) !! length h = Some x.
Proof. by rewrite list_lookup_middle. Qed.

Lemma insert_fresh {A} (h : list A) (x y : A) :
  <[length h := y]> (h ++ [x]) = h ++ [y].
Proof.
  rewrite insert_app_r_alt by lia. by rewrite Nat.sub_diag.
Qed.

Lemma syslog_section_run E facility fac n p :
  facility_of facility = Some fac ->
  syslog_section E facility n p =
  (S n,
   sys_registered (length (heap p))
     (sys_logger_of E (settings p) facility fac)
     (EvGetBool ["charon"; "syslog"; facility; "ike_name"] ::
      level_queries E ["charon"; "syslog"; facility] ++
      [EvSysloggersInsert (length (heap p));
       EvAddListener (length (heap p))]) p).
Proof.
  intros Hf. destruct p as [tr st eg eu cu cg mk pf hp bl sl fl].
  unfold syslog_section, facility_of, sys_logger_create, sys_registered in *.
  step.
  destruct (String.eqb facility "daemon");
    [|destruct (String.eqb facility "auth")]; simplify_eq;
    (step;
     erewrite bind_pair
       by (eapply configure_levels_run;
           [apply lookup_fresh|cbn; by rewrite length_replicate]);
     cbv beta iota; norm; steps;
     rewrite insert_fresh; reflexivity).
Qed.

Lemma syslog_section_skip E facility n p :
  facility_of facility = None ->
  syslog_section E facility n p =
  (S n, logged [EvGetBool ["charon"; "syslog"; facility; "ike_name"]] p).
Proof.
  intros Hf. unfold syslog_section, facility_of in *. step.
  destruct (String.eqb facility "daemon");
    [|destruct (String.eqb facility "auth")]; simplify_eq.
  steps. reflexivity.
Qed.

(** Obtaining the stream of a file logger. *)
Lemma filelog_open_run E filename p :
  (if String.eqb filename "stderr" then ret (Some Stderr)
   else if String.eqb filename "stdout" then ret (Some Stdout)
   else
     append <- get_bool (["charon"; "filelog"; filename] ++ ["append"]) true ;;
     file <- fopen_log E filename (if append then "a" else "w") ;;
     match file with
     | None =>
       DBG1 "opening file %s for logging failed: %s" ;; ret None
     | Some f =>
       flush_line <-
         get_bool (["charon"; "filelog"; filename] ++ ["flush_line"]) false ;;
       (if flush_line then emit (EvSetlinebuf filename) else ret tt) ;;
       ret (Some f)
     end) p =
  (file_stream_of E (settings p) filename,
   logged (file_open_events E (settings p) filename) p).
Proof.
  unfold file_stream_of, file_open_events, is_sentinel, open_mode, fopen_log.
  destruct (String.eqb filename "stderr"); cbn [orb].
  { by rewrite ret_run, logged_nil. }
  destruct (String.eqb filename "stdout"); cbn [orb].
  { by rewrite ret_run, logged_nil. }
  step. step. destruct (openable E filename).
  - step.
    destruct p; cbn [settings logged set_trace trace];
      destruct (default false (bool_value _ _)); steps; norm; reflexivity.
  - steps. destruct p. norm. reflexivity.
Qed.

Lemma filelog_section_run E filename n p :
  filelog_section E filename n p =
  (S n,
   match file_stream_of E (settings p) filename with
   | Some out =>
     file_registered (length (heap p))
       (file_logger_of E (settings p) filename out)
       (file_open_events E (settings p) filename ++
        EvGetStr ["charon"; "filelog"; filename; "time_format"] ::
        EvGetBool ["charon"; "filelog"; filename; "ike_name"] ::
        level_queries E ["charon"; "filelog"; filename] ++
        [EvFileloggersInsert (length (heap p));
         EvAddListener (length (heap p))]) p
   | None => logged (file_open_events E (settings p) filename) p
   end).
Proof.
  unfold filelog_section.
  erewrite bind_pair by apply filelog_open_run.
  destruct (file_stream_of E (settings p) filename) as [out|];
    [|by rewrite ret_run].
  unfold file_logger_create. step. step. step.
  erewrite bind_pair.
  2: { eapply configure_levels_run; [apply lookup_fresh|].
       cbn. by rewrite length_replicate. }
  steps. destruct p. unfold file_registered, file_logger_of. norm.
  rewrite insert_fresh. cbn.
  destruct (str_value _ _); reflexivity.
Qed.

(** ** The loops over the sections *)

Lemma fold_each_run {A} (body : A -> nat -> M nat) (step : A -> proc -> proc)
    (l : list A) (n : nat) (p : proc) :
  (forall x n p, body x n p = (S n, step x p)) ->
  fold_each l n body p =
  ((n + length l)%nat, foldl (fun p x => step x p) p l).
Proof.
  intros Hbody. revert n p. induction l as [|x l IH]; intros n p.
  - cbn. unfold ret. f_equal. lia.
  - cbn [fold_each]. erewrite bind_pair by apply Hbody.
    rewrite IH. cbn. f_equal. lia.
Qed.

Lemma registers_refl p : registers [] [] p p.
Proof.
  unfold registers. cbn. by rewrite !app_nil_r.
Qed.

Lemma registers_trans l1 e1 l2 e2 p1 p2 p3 :
  registers l1 e1 p1 p2 -> registers l2 e2 p2 p3 ->
  registers (l1 ++ l2) (e1 ++ e2) p1 p3.
Proof.
  intros (Hs1 & Hh1 & Hb1 & Ht1) (Hs2 & Hh2 & Hb2 & Ht2).
  unfold registers. split; [congruence|].
  split; [by rewrite Hh2, Hh1, app_assoc|].
  split; [|by rewrite Ht2, Ht1, app_assoc].
  rewrite Hb2, Hb1, Hh1, <- app_assoc. f_equal.
  rewrite !length_app, seq_app. reflexivity.
Qed.

Lemma registers_syslog E facility p :
  registers (option_list (syslog_built E (settings p) facility))
            (syslog_events E facility (length (heap p)))
            p (after_syslog_section E facility p).
Proof.
  unfold after_syslog_section, syslog_built, syslog_events, registers.
  destruct (facility_of facility) as [fac|]; cbn;
    by rewrite ?Nat.add_0_r, ?app_nil_r.
Qed.

Lemma registers_filelog E filename p :
  registers (option_list (filelog_built E (settings p) filename))
            (filelog_events E (settings p) filename (length (heap p)))
            p (after_filelog_section E filename p).
Proof.
  unfold after_filelog_section, filelog_built, filelog_events, registers.
  destruct (file_stream_of E (settings p) filename) as [out|]; cbn;
    by rewrite ?Nat.add_0_r, ?app_nil_r.
Qed.

(** A loop whose every iteration registers the logger of its section, if
    any, registers the loggers of all sections, in their order. *)
Lemma registers_foldl {A} (build : settings_t -> A -> option logger)
    (events : A -> proc -> list event) (step : A -> proc -> proc)
    (l : list A) (p : proc) :
  (forall x p,
     registers (option_list (build (settings p) x)) (events x p) p (step x p)) ->
  exists evs,
    registers (omap (build (settings p)) l) evs p
              (foldl (fun p x => step x p) p l) /\
    forall Q : event -> Prop,
      (forall x p, Forall Q (events x p)) -> Forall Q evs.
Proof.
  intros Hstep. revert p. induction l as [|x l IH]; intros p.
  - exists []. split; [apply registers_refl|]. intros; constructor.
  - destruct (IH (step x p)) as (evs & Hr & HQ).
    exists (events x p ++ evs). split.
    + cbn [foldl omap].
      assert (Hs : settings (step x p) = settings p) by apply Hstep.
      rewrite Hs in Hr.
      pose proof (registers_trans _ _ _ _ _ _ _ (Hstep x p) Hr) as Hr'.
      destruct (build (settings p) x) eqn:Hb; cbn in Hr' |- *; rewrite Hb;
        exact Hr'.
    + intros Q HQ'. apply Forall_app. split; [apply HQ'|by apply HQ].
Qed.

Lemma syslog_section_after E facility n p :
  syslog_section E facility n p = (S n, after_syslog_section E facility p).
Proof.
  unfold after_syslog_section, syslog_events.
  destruct (facility_of facility) as [fac|] eqn:Hf.
  - by apply syslog_section_run.
  - by apply syslog_section_skip.
Qed.

Lemma filelog_section_after E filename n p :
  filelog_section E filename n p = (S n, after_filelog_section E filename p).
Proof.
  rewrite filelog_section_run.
  unfold after_filelog_section, filelog_events.
  by destruct (file_stream_of E (settings p) filename).
Qed.

(** ** The default loggers *)

Lemma alter_end0 {A} (f : A -> A) h x t :
  alter f (length h) (h ++ x :: t) = h ++ f x :: t.
Proof. rewrite alter_app_r_alt by lia. by rewrite Nat.sub_diag. Qed.

Lemma alter_end1 {A} (f : A -> A) h x y t :
  alter f (S (length h)) (h ++ x :: y :: t) = h ++ x :: f y :: t.
Proof.
  rewrite alter_app_r_alt by lia.
  by replace (S (length h) - length h)%nat with 1%nat by lia.
Qed.

Lemma alter_end2 {A} (f : A -> A) h x y z t :
  alter f (S (S (length h))) (h ++ x :: y :: z :: t) = h ++ x :: y :: f z :: t.
Proof.
  rewrite alter_app_r_alt by lia.
  by replace (S (S (length h)) - length h)%nat with 2%nat by lia.
Qed.

Lemma for_each_default E (use_stderr : bool) (levels : list Z) (gs : list nat)
    (h : list logger) (l0 l1 : logger) (p : proc) :
  heap p = h ++ [l0; l1] ->
  for_each gs (fun group =>
    set_level E (S (length h)) group (levels !!! group) ;;
    if use_stderr then set_level E (length h) group (levels !!! group)
    else ret tt) p =
  (tt,
   set_heap
     (h ++ [if use_stderr
            then foldl (fun l g => with_level E g (levels !!! g) l) l0 gs
            else l0;
            foldl (fun l g => with_level E g (levels !!! g) l) l1 gs]) p).
Proof.
  revert l0 l1 p. induction gs as [|g gs IH]; intros l0 l1 p Hh;
    destruct p as [tr st eg eu cu cg mk pf hp bl sl fl];
    cbn [heap] in Hh; subst hp.
  - cbn. unfold ret. by destruct use_stderr.
  - cbn [for_each foldl].
    destruct use_stderr; step; rewrite ?alter_end1, ?alter_end0;
      (erewrite IH by (cbn [heap]; reflexivity)); norm; reflexivity.
Qed.

Lemma length_snoc {A} (h : list A) (x : A) : length (h ++ [x]) = S (length h).
Proof. rewrite length_app. cbn. lia. Qed.

Lemma default_loggers_run E use_stderr levels p :
  default_loggers E use_stderr levels p =
  (tt, after_default_loggers E use_stderr levels p).
Proof.
  destruct p as [tr st eg eu cu cg mk pf hp bl sl fl].
  unfold default_loggers, file_logger_create, sys_logger_create.
  do 6 step. rewrite !length_snoc. cbn [app].
  erewrite bind_pair by (apply for_each_default; cbn [heap]; reflexivity).
  cbv beta iota. norm. do 3 step. rewrite set_level_run. norm.
  unfold after_default_loggers, default_heap, default_events. norm.
  rewrite !length_app. cbn [length app].
  replace (length hp + 2)%nat with (S (S (length hp))) by lia.
  rewrite alter_end2.
  rewrite with_level_any.
  rewrite !with_level_groups by apply groups_bounded.
  cbn [lg_sink lg_ike_name lg_levels]. unfold groups.
  rewrite !install_levels by apply length_replicate.
  destruct use_stderr; reflexivity.
Qed.

(** ** initialize_loggers as a whole *)

Lemma initialize_loggers_run E use_stderr levels p :
  initialize_loggers E use_stderr levels p =
  (tt, after_initialize_loggers E use_stderr levels p).
Proof.
  unfold initialize_loggers, after_initialize_loggers.
  step.
  erewrite bind_pair
    by (apply fold_each_run; intros; apply syslog_section_after).
  step.
  erewrite bind_pair
    by (apply fold_each_run; intros; apply filelog_section_after).
  cbv zeta.
  destruct (_ =? 0)%nat; [apply default_loggers_run|reflexivity].
Qed.

Lemma registers_logged evs p : registers [] evs p (logged evs p).
Proof.
  unfold registers. cbn. by rewrite !app_nil_r.
Qed.

Lemma registers_default E use_stderr levels p :
  registers (default_heap E use_stderr levels)
            (default_events (length (heap p)))
            p (after_default_loggers E use_stderr levels p).
Proof.
  unfold registers, after_default_loggers. cbn.
  by rewrite ?Nat.add_0_r.
Qed.

Lemma initialize_loggers_registers E use_stderr levels p :
  exists evs,
    registers (built_loggers E use_stderr levels (settings p)) evs p
              (after_initialize_loggers E use_stderr levels p) /\
    forall Q : event -> Prop,
      (forall k, Q (EvEnumerate k)) ->
      (forall f a, Forall Q (syslog_events E f a)) ->
      (forall s f a, Forall Q (filelog_events E s f a)) ->
      (forall a, Forall Q (default_events a)) ->
      Forall Q evs.
Proof.
  unfold after_initialize_loggers, built_loggers. cbv zeta.
  set (p1 := logged [EvEnumerate ["charon"; "syslog"]] p).
  change (settings p1) with (settings p).
  set (facilities := section_names (settings p) ["charon"; "syslog"]).
  destruct (registers_foldl (syslog_built E)
              (fun f p => syslog_events E f (length (heap p)))
              (after_syslog_section E) facilities p1)
    as (e2 & H2 & Q2); [intros; apply registers_syslog|].
  set (p2 := foldl _ p1 facilities) in *.
  set (p3 := logged [EvEnumerate ["charon"; "filelog"]] p2).
  assert (Hs3 : settings p3 = settings p) by apply H2.
  rewrite Hs3.
  set (filenames := section_names (settings p) ["charon"; "filelog"]).
  destruct (registers_foldl (filelog_built E)
              (fun f p => filelog_events E (settings p) f (length (heap p)))
              (after_filelog_section E) filenames p3)
    as (e4 & H4 & Q4); [intros; apply registers_filelog|].
  set (p4 := foldl _ p3 filenames) in *.
  rewrite Hs3 in H4.
  pose proof (registers_trans _ _ _ _ _ _ _
                (registers_trans _ _ _ _ _ _ _
                   (registers_trans _ _ _ _ _ _ _
                      (registers_logged _ p) H2)
                   (registers_logged _ p2)) H4) as H14.
  cbn [app] in H14. rewrite app_nil_r in H14.
  assert (HQ : forall Q : event -> Prop,
             (forall k, Q (EvEnumerate k)) ->
             (forall f a, Forall Q (syslog_events E f a)) ->
             (forall s f a, Forall Q (filelog_events E s f a)) ->
             Forall Q ((EvEnumerate ["charon"; "syslog"] :: e2 ++
                        [EvEnumerate ["charon"; "filelog"]]) ++ e4)).
  { intros Q Qe Qs Qf. apply Forall_app. split.
    - constructor; [apply Qe|]. apply Forall_app. split.
      + apply Q2. intros. apply Qs.
      + by repeat constructor.
    - apply Q4. intros. apply Qf. }
  clearbody p4 p2.
  destruct facilities as [|f fs], filenames as [|g gs]; cbn [length Nat.add Nat.eqb omap app] in *.
  - eexists. split.
    + pose proof (registers_trans _ _ _ _ _ _ _ H14
                    (registers_default E use_stderr levels p4)) as H.
      exact H.
    + intros Q Qe Qs Qf Qd. apply Forall_app. split; [by apply HQ|apply Qd].
  - eexists. split; [|intros Q Qe Qs Qf Qd; by apply HQ].
    rewrite app_nil_r. exact H14.
  - eexists. split; [|intros Q Qe Qs Qf Qd; by apply HQ].
    rewrite !app_nil_r in *. exact H14.
  - eexists. split; [|intros Q Qe Qs Qf Qd; by apply HQ].
    rewrite app_nil_r. exact H14.
Qed.

(** ** The logger registry *)

(** C6.  When charon.syslog and charon.filelog have no section,
    [initialize_loggers] adds exactly three listeners to the bus, in this
    order: a file logger on stdout, a syslog logger on the daemon facility
    and a syslog logger on the auth facility; whatever the levels given on
    the command line, the level of every group of the auth logger is
    audit. *)
Theorem default_topology E use_stderr levels p :
  section_names (settings p) ["charon"; "syslog"] = [] ->
  section_names (settings p) ["charon"; "filelog"] = [] ->
  exists p' l0 l1 l2,
    let a := length (heap p) in
    initialize_loggers E use_stderr levels p = (tt, p') /\
    heap p' = heap p ++ [l0; l1; l2] /\
    bus_listeners p' = bus_listeners p ++ [a; S a; S (S a)] /\
    added_listeners (since (length (trace p)) (trace p')) = [a; S a; S (S a)] /\
    lg_sink l0 = FileSink Stdout None /\
    lg_sink l1 = SysSink LOG_DAEMON /\
    lg_sink l2 = SysSink LOG_AUTHPRIV /\
    lg_levels l2 = replicate (DBG_MAX E) LEVEL_AUDIT.
Proof.
  intros Hs Hf. rewrite initialize_loggers_run.
  unfold after_initialize_loggers. cbv zeta.
  change (settings (logged _ p)) with (settings p). rewrite Hs.
  cbn [foldl length].
  change (settings (logged _ (logged _ p))) with (settings p). rewrite Hf.
  cbn [foldl length Nat.add Nat.eqb].
  eexists _, _, _, _. cbv zeta. split; [reflexivity|].
  destruct p. unfold after_default_loggers, default_heap, since. norm.
  cbn [app]. split; [reflexivity|]. split; [reflexivity|].
  split; [|done]. by rewrite drop_app_length.
Qed.

Lemma default_topology_witness :
  exists p' l0 l1 l2,
    initialize_loggers quiet_env true (replicate 14 LEVEL_CTRL)
                       (sample_proc None) = (tt, p') /\
    heap p' = [] ++ [l0; l1; l2] /\
    bus_listeners p' = [] ++ [0; 1; 2]%nat /\
    added_listeners (since 0 (trace p')) = [0; 1; 2]%nat /\
    lg_sink l0 = FileSink Stdout None /\
    lg_sink l1 = SysSink LOG_DAEMON /\
    lg_sink l2 = SysSink LOG_AUTHPRIV /\
    lg_levels l2 = replicate 14 LEVEL_AUDIT.
Proof.
  apply (default_topology quiet_env true (replicate 14 LEVEL_CTRL)
           (sample_proc None)); reflexivity.
Defined.

Lemma registers_elem ls evs p p' (l : logger) :
  registers ls evs p p' ->
  l ∈ ls ->
  exists a,
    (length (heap p) <= a)%nat /\ a ∈ bus_listeners p' /\
    heap p' !! a = Some l.
Proof.
  intros (_ & Hh & Hb & _) Hl.
  apply list_elem_of_lookup in Hl as [i Hi].
  exists (length (heap p) + i)%nat. split; [lia|]. split.
  - rewrite Hb. apply elem_of_app. right. apply elem_of_seq.
    apply lookup_lt_Some in Hi. lia.
  - rewrite Hh, lookup_app_r by lia.
    by replace (length (heap p) + i - length (heap p))%nat with i by lia.
Qed.

Lemma registers_new ls evs p p' (a : nat) (l : logger) :
  registers ls evs p p' ->
  (length (heap p) <= a)%nat -> heap p' !! a = Some l ->
  l ∈ ls /\ a ∈ bus_listeners p'.
Proof.
  intros (_ & Hh & Hb & _) Ha Hl.
  rewrite Hh, lookup_app_r in Hl by lia. split.
  - apply list_elem_of_lookup. eauto.
  - rewrite Hb. apply elem_of_app. right. apply elem_of_seq.
    apply lookup_lt_Some in Hl. lia.
Qed.

Lemma threshold_installed E s section (g : nat) :
  (g < DBG_MAX E)%nat ->
  map (threshold E s section) (groups E) !! g = Some (threshold E s section g).
Proof.
  intros Hg. unfold groups.
  change (map ?f ?l) with (f <$> l).
  by rewrite list_lookup_fmap, lookup_seq_lt.
Qed.

Lemma syslog_logger_registered E use_stderr levels p facility fac :
  facility ∈ section_names (settings p) ["charon"; "syslog"] ->
  facility_of facility = Some fac ->
  exists a,
    (length (heap p) <= a)%nat /\
    a ∈ bus_listeners (after_initialize_loggers E use_stderr levels p) /\
    heap (after_initialize_loggers E use_stderr levels p) !! a =
      Some (sys_logger_of E (settings p) facility fac).
Proof.
  intros Hin Hfac.
  destruct (initialize_loggers_registers E use_stderr levels p)
    as (evs & Hreg & _).
  apply (registers_elem _ _ _ _ _ Hreg).
  unfold built_loggers. apply elem_of_app. left. apply list_elem_of_omap.
  exists facility. split; [done|]. unfold syslog_built. by rewrite Hfac.
Qed.

Lemma filelog_logger_registered E use_stderr levels p filename out :
  filename ∈ section_names (settings p) ["charon"; "filelog"] ->
  file_stream_of E (settings p) filename = Some out ->
  exists a,
    (length (heap p) <= a)%nat /\
    a ∈ bus_listeners (after_initialize_loggers E use_stderr levels p) /\
    heap (after_initialize_loggers E use_stderr levels p) !! a =
      Some (file_logger_of E (settings p) filename out).
Proof.
  intros Hin Hout.
  destruct (initialize_loggers_registers E use_stderr levels p)
    as (evs & Hreg & _).
  apply (registers_elem _ _ _ _ _ Hreg).
  unfold built_loggers. apply elem_of_app. right. apply elem_of_app. left.
  apply list_elem_of_omap.
  exists filename. split; [done|]. unfold filelog_built. by rewrite Hout.
Qed.

(** C7.  After [initialize_loggers], every section of charon.syslog named
    daemon or auth, and every section of charon.filelog whose stream could
    be obtained, has its logger on the bus, and every logger built from the
    configuration belongs to such a section; the level of each debug
    group of that logger is the value configured for the group in the
    section if there is one, else the default configured in the section
    if there is one, else 1. *)
Theorem configured_thresholds E use_stderr levels p :
  let s := settings p in
  let p' := snd (initialize_loggers E use_stderr levels p) in
  let installed (section : list string) (l : logger) :=
    forall g, (g < DBG_MAX E)%nat ->
      lg_levels l !! g =
      Some match int_value s (section ++ [debug_lower_names E g]) with
           | Some level => level
           | None =>
             match int_value s (section ++ ["default"]) with
             | Some def => def
             | None => 1
             end
           end in
  (forall facility fac,
     facility ∈ section_names s ["charon"; "syslog"] ->
     facility_of facility = Some fac ->
     exists a l,
       (length (heap p) <= a)%nat /\ a ∈ bus_listeners p' /\
       heap p' !! a = Some l /\ lg_sink l = SysSink fac /\
       installed ["charon"; "syslog"; facility] l) /\
  (forall filename out,
     filename ∈ section_names s ["charon"; "filelog"] ->
     file_stream_of E s filename = Some out ->
     exists a l,
       (length (heap p) <= a)%nat /\ a ∈ bus_listeners p' /\
       heap p' !! a = Some l /\
       lg_sink l =
         FileSink out (str_value s ["charon"; "filelog"; filename; "time_format"]) /\
       installed ["charon"; "filelog"; filename] l) /\
  (forall a l,
     section_names s ["charon"; "syslog"] ++
     section_names s ["charon"; "filelog"] <> [] ->
     (length (heap p) <= a)%nat -> heap p' !! a = Some l ->
     (exists facility fac,
        facility ∈ section_names s ["charon"; "syslog"] /\
        facility_of facility = Some fac /\ lg_sink l = SysSink fac /\
        installed ["charon"; "syslog"; facility] l) \/
     (exists filename out,
        filename ∈ section_names s ["charon"; "filelog"] /\
        file_stream_of E s filename = Some out /\
        lg_sink l =
          FileSink out (str_value s ["charon"; "filelog"; filename; "time_format"]) /\
        installed ["charon"; "filelog"; filename] l)).
Proof.
  cbv zeta. rewrite initialize_loggers_run. cbn [snd].
  destruct (initialize_loggers_registers E use_stderr levels p)
    as (evs & Hreg & _).
  unfold built_loggers in Hreg. cbv zeta in Hreg.
  split; [|split].
  - intros facility fac Hin Hfac.
    destruct (syslog_logger_registered E use_stderr levels p facility fac
                Hin Hfac) as (a & Ha & Hb & Hl).
    exists a, (sys_logger_of E (settings p) facility fac).
    repeat split; try done. intros g Hg. by apply threshold_installed.
  - intros filename out Hin Hout.
    destruct (filelog_logger_registered E use_stderr levels p filename out
                Hin Hout) as (a & Ha & Hb & Hl).
    exists a, (file_logger_of E (settings p) filename out).
    repeat split; try done. intros g Hg. by apply threshold_installed.
  - intros a l Hne Ha Hl.
    destruct (registers_new _ _ _ _ a l Hreg Ha Hl) as [Hin _].
    apply elem_of_app in Hin as [Hin|Hin];
      [|apply elem_of_app in Hin as [Hin|Hin]].
    + apply list_elem_of_omap in Hin as (facility & Hin & Hb).
      unfold syslog_built in Hb.
      destruct (facility_of facility) as [fac|] eqn:Hfac; [|done].
      cbn in Hb. simplify_eq. left. exists facility, fac.
      repeat split; try done. intros g Hg. by apply threshold_installed.
    + apply list_elem_of_omap in Hin as (filename & Hin & Hb).
      unfold filelog_built in Hb.
      destruct (file_stream_of E (settings p) filename) as [out|] eqn:Hout;
        [|done].
      cbn in Hb. simplify_eq. right. exists filename, out.
      repeat split; try done. intros g Hg. by apply threshold_installed.
    + destruct (section_names (settings p) ["charon"; "syslog"]),
               (section_names (settings p) ["charon"; "filelog"]);
        try done; by apply elem_of_nil in Hin.
Qed.

Lemma configured_thresholds_witness :
  exists a l,
    (0 <= a)%nat /\
    a ∈ bus_listeners
          (snd (initialize_loggers quiet_env true (replicate 14 LEVEL_CTRL)
                                   configured_proc)) /\
    heap (snd (initialize_loggers quiet_env true (replicate 14 LEVEL_CTRL)
                                  configured_proc)) !! a = Some l /\
    lg_sink l = SysSink LOG_DAEMON /\
    forall g, (g < 14)%nat ->
      lg_levels l !! g =
      Some match int_value sample_settings
                   (["charon"; "syslog"; "daemon"] ++
                    [debug_lower_names quiet_env g]) with
           | Some level => level
           | None =>
             match int_value sample_settings
                     (["charon"; "syslog"; "daemon"] ++ ["default"]) with
             | Some def => def
             | None => 1
             end
           end.
Proof.
  apply (proj1 (configured_thresholds quiet_env true (replicate 14 LEVEL_CTRL)
                  configured_proc) "daemon" LOG_DAEMON).
  - apply list_elem_of_here.
  - reflexivity.
Defined.

(** *** Sentinel names of file loggers *)

Lemma touches_level_queries E name section :
  Forall (fun e => touches name e = false) (level_queries E section).
Proof.
  unfold level_queries. constructor; [done|].
  apply Forall_forall. intros e He.
  change (map ?f ?l) with (f <$> l) in He.
  apply list_elem_of_fmap in He. by destruct He as (g & -> & _).
Qed.

Lemma touches_syslog_events E name f a :
  Forall (fun e => touches name e = false) (syslog_events E f a).
Proof.
  unfold syslog_events.
  assert (touches name (EvGetBool ["charon"; "syslog"; f; "ike_name"]) = false).
  { cbn. rewrite !bool_decide_eq_false_2; [done|congruence|congruence]. }
  destruct (facility_of f); [|by repeat constructor].
  constructor; [done|]. apply Forall_app. split.
  - apply touches_level_queries.
  - by repeat constructor.
Qed.

Lemma touches_default_events name a :
  Forall (fun e => touches name e = false) (default_events a).
Proof. by repeat constructor. Qed.

Lemma is_sentinel_cases name :
  is_sentinel name = true -> name = "stderr" \/ name = "stdout".
Proof.
  unfold is_sentinel. intros H. apply orb_true_iff in H.
  destruct H as [H|H]; apply String.eqb_eq in H; auto.
Qed.

Lemma touches_filelog_events E s name f a :
  is_sentinel name = true ->
  Forall (fun e => touches name e = false) (filelog_events E s f a).
Proof.
  intros Hname.
  assert (Hike :
    touches name (EvGetBool ["charon"; "filelog"; f; "ike_name"]) = false).
  { cbn. rewrite !bool_decide_eq_false_2; [done|congruence|congruence]. }
  assert (Hopen :
    Forall (fun e => touches name e = false) (file_open_events E s f)).
  { unfold file_open_events.
    destruct (is_sentinel f) eqn:Hf; [constructor|].
    assert (Hne : f <> name) by (intros ->; congruence).
    assert (String.eqb f name = false) by by apply String.eqb_neq.
    constructor.
    { cbn. rewrite !bool_decide_eq_false_2; [done|congruence|congruence]. }
    constructor; [done|].
    destruct (openable E f); [|by repeat constructor].
    constructor.
    { cbn. rewrite !bool_decide_eq_false_2; [done|congruence|congruence]. }
    destruct (default false _); by repeat constructor. }
  unfold filelog_events.
  destruct (file_stream_of E s f); [|done].
  apply Forall_app. split; [done|].
  constructor; [done|]. constructor; [done|].
  apply Forall_app. split; [apply touches_level_queries|by repeat constructor].
Qed.

(** C8.  For a section of charon.filelog named stderr or stdout, the
    logger built by [initialize_loggers] writes to that stream and is on
    the bus, and no call of [initialize_loggers] opens a path of that
    name, sets its buffering or consults the append or flush_line flag of
    the section, whatever these flags are set to. *)
Theorem sentinel_streams E use_stderr levels p filename :
  filename ∈ section_names (settings p) ["charon"; "filelog"] ->
  is_sentinel filename = true ->
  let p' := snd (initialize_loggers E use_stderr levels p) in
  (exists a l,
     (length (heap p) <= a)%nat /\ a ∈ bus_listeners p' /\
     heap p' !! a = Some l /\
     lg_sink l =
       FileSink (if String.eqb filename "stderr" then Stderr else Stdout)
                (str_value (settings p)
                   ["charon"; "filelog"; filename; "time_format"])) /\
  Forall (fun e => touches filename e = false)
         (since (length (trace p)) (trace p')).
Proof.
  intros Hin Hname. cbv zeta.
  assert (Hout : file_stream_of E (settings p) filename =
                 Some (if String.eqb filename "stderr" then Stderr else Stdout)).
  { unfold file_stream_of.
    destruct (is_sentinel_cases _ Hname) as [->| ->]; reflexivity. }
  split.
  - rewrite initialize_loggers_run. cbn [snd].
    destruct (filelog_logger_registered E use_stderr levels p filename _
                Hin Hout) as (a & Ha & Hb & Hl).
    by exists a, (file_logger_of E (settings p) filename
                    (if String.eqb filename "stderr" then Stderr else Stdout)).
  - rewrite initialize_loggers_run. cbn [snd].
    destruct (initialize_loggers_registers E use_stderr levels p)
      as (evs & (_ & _ & _ & Ht) & HQ).
    rewrite Ht. unfold since. rewrite drop_app_length.
    apply HQ.
    + done.
    + intros. apply touches_syslog_events.
    + intros. by apply touches_filelog_events.
    + intros. apply touches_default_events.
Qed.

Lemma sentinel_streams_witness :
  (exists a l,
     (0 <= a)%nat /\
     a ∈ bus_listeners
           (snd (initialize_loggers quiet_env true (replicate 14 LEVEL_CTRL)
                                    configured_proc)) /\
     heap (snd (initialize_loggers quiet_env true (replicate 14 LEVEL_CTRL)
                                   configured_proc)) !! a = Some l /\
     lg_sink l = FileSink Stderr None) /\
  Forall (fun e => touches "stderr" e = false)
         (since 0 (trace (snd (initialize_loggers quiet_env true
                                 (replicate 14 LEVEL_CTRL) configured_proc)))).
Proof.
  apply (sentinel_streams quiet_env true (replicate 14 LEVEL_CTRL)
           configured_proc "stderr").
  - apply list_elem_of_here.
  - reflexivity.
Defined.

(** ** Start-up *)

Lemma since_logged evs p : since (length (trace p)) (trace (logged evs p)) = evs.
Proof. unfold since. cbn. by rewrite drop_app_length. Qed.

Lemma main_aborted E p status p' :
  startup E p = (Aborted status, p') -> main E p = (Some status, p').
Proof. intros H. unfold main. by erewrite bind_pair by exact H. Qed.

Lemma startup_library_fails E p :
  library_init_ok E = false ->
  startup E p =
  (Aborted (SS_RC_LIBSTRONGSWAN_INTEGRITY E),
   logged [EvLibraryInit false; EvLibraryDeinit;
           EvExit (SS_RC_LIBSTRONGSWAN_INTEGRITY E)] p).
Proof.
  intros H. unfold startup, abort, exit. rewrite H. cbn [negb].
  steps. destruct p. norm. reflexivity.
Qed.

Lemma startup_integrity_fails E p :
  library_init_ok E = true -> integrity E = Some false ->
  startup E p =
  (Aborted (SS_RC_DAEMON_INTEGRITY E),
   logged [EvLibraryInit true; EvIntegrityCheck false;
           EvLog "integrity check of charon failed"; EvLibraryDeinit;
           EvExit (SS_RC_DAEMON_INTEGRITY E)] p).
Proof.
  intros H1 H2. unfold startup, abort, exit. rewrite H1, H2. cbn [negb].
  steps. destruct p. norm. reflexivity.
Qed.

Lemma startup_libhydra_fails E p :
  library_init_ok E = true -> integrity E <> Some false ->
  libhydra_init_ok E = false ->
  startup E p =
  (Aborted (SS_RC_INITIALIZATION_FAILED E),
   logged (EvLibraryInit true :: integrity_events E ++
           [EvLibhydraInit false;
            EvLog "initialization failed - aborting charon";
            EvLibhydraDeinit; EvLibraryDeinit;
            EvExit (SS_RC_INITIALIZATION_FAILED E)]) p).
Proof.
  intros H1 H2 H3. unfold startup, abort, exit, integrity_events.
  rewrite H1, H3. cbn [negb].
  destruct (integrity E) as [[]|]; try done;
    steps; destruct p; norm; reflexivity.
Qed.

Lemma startup_libcharon_fails E p :
  library_init_ok E = true -> integrity E <> Some false ->
  libhydra_init_ok E = true -> libcharon_init_ok E = false ->
  startup E p =
  (Aborted (SS_RC_INITIALIZATION_FAILED E),
   logged (EvLibraryInit true :: integrity_events E ++
           [EvLibhydraInit true; EvLibcharonInit false;
            EvLog "initialization failed - aborting charon";
            EvLibcharonDeinit; EvLibhydraDeinit; EvLibraryDeinit]) p).
Proof.
  intros H1 H2 H3 H4. unfold startup, abort, deinit, integrity_events.
  rewrite H1, H3, H4. cbn [negb].
  destruct (integrity E) as [[]|]; try done;
    steps; destruct p; norm; reflexivity.
Qed.

Lemma status_of_inj E c1 c2 :
  status_of E c1 = status_of E c2 -> c1 = c2.
Proof. destruct c1, c2; cbn; intros H; (reflexivity || discriminate H). Qed.

Lemma codes_are_distinct E : codes_distinct E.
Proof. unfold codes_distinct. apply (bool_decide_unpack _). by vm_compute. Qed.

(** C4, when the core library fails to initialize: no stage has
    initialized successfully, and the teardown of the core library is
    run. *)
Lemma teardown_of_failed_library :
  ~ teardown_as_specified
      (sample_env (true, true, true) (fun _ => false)
                  (false, Some true, true, true) [])
      (sample_proc None).
Proof. vm_compute. discriminate. Qed.

(** *** What the start-up leaves alone *)

Lemma teardowns_app t1 t2 : teardowns (t1 ++ t2) = teardowns t1 ++ teardowns t2.
Proof.
  induction t1 as [|e t1 IH]; [done|]. destruct e; cbn; by rewrite ?IH.
Qed.

Lemma attempted_app t1 t2 : attempted (t1 ++ t2) = attempted t1 ++ attempted t2.
Proof.
  induction t1 as [|e t1 IH]; [done|]. destruct e; cbn; by rewrite ?IH.
Qed.

Lemma no_stage_events t :
  Forall (fun e => is_stage_event e = false) t ->
  teardowns t = [] /\ attempted t = [].
Proof.
  induction 1 as [|e t He _ [IH1 IH2]]; [done|].
  destruct e; cbn in *; try done.
Qed.

Lemma same_host_refl p : same_host p p.
Proof. done. Qed.

Lemma same_host_trans p1 p2 p3 :
  same_host p1 p2 -> same_host p2 p3 -> same_host p1 p3.
Proof. unfold same_host. intros (?&?&?) (?&?&?). repeat split; congruence. Qed.

Lemma same_host_foldl {A} (step : A -> proc -> proc) (l : list A) p :
  (forall x p, same_host p (step x p)) ->
  same_host p (foldl (fun p x => step x p) p l).
Proof.
  intros H. revert p. induction l as [|x l IH]; intros p; [done|].
  cbn. eapply same_host_trans; [apply H|apply IH].
Qed.

Lemma same_host_initialize_loggers E use_stderr levels p :
  same_host p (after_initialize_loggers E use_stderr levels p).
Proof.
  unfold after_initialize_loggers. cbv zeta.
  set (p2 := foldl _ _ (section_names _ ["charon"; "syslog"])).
  assert (H2 : same_host p p2).
  { eapply same_host_trans; [|apply same_host_foldl].
    - done.
    - intros f q. unfold after_syslog_section.
      by destruct (facility_of f). }
  set (p4 := foldl _ _ (section_names _ ["charon"; "filelog"])).
  assert (H4 : same_host p p4).
  { eapply same_host_trans; [exact H2|].
    eapply same_host_trans; [|apply same_host_foldl].
    - done.
    - intros f q. unfold after_filelog_section.
      by destruct (file_stream_of E (settings q) f). }
  destruct (_ =? 0)%nat; [|done].
  eapply same_host_trans; [exact H4|done].
Qed.

Lemma stage_events_initialize_loggers E use_stderr levels p :
  exists evs,
    trace (after_initialize_loggers E use_stderr levels p) = trace p ++ evs /\
    Forall (fun e => is_stage_event e = false) evs /\ alerts evs = [].
Proof.
  destruct (initialize_loggers_registers E use_stderr levels p)
    as (evs & (_ & _ & _ & Ht) & HQ).
  exists evs. split; [done|].
  assert (HF : Forall (fun e => is_stage_event e = false /\ alerts [e] = []) evs).
  { apply HQ.
    - done.
    - intros f a. unfold syslog_events, level_queries.
      destruct (facility_of f); repeat constructor.
      apply Forall_app. split; [|by repeat constructor].
      apply Forall_forall. intros e He.
      change (map ?f ?l) with (f <$> l) in He.
      apply list_elem_of_fmap in He. by destruct He as (g & -> & _).
    - intros s f a. unfold filelog_events, file_open_events, level_queries.
      assert (Forall (fun e => is_stage_event e = false /\ alerts [e] = [])
                (if is_sentinel f then []
                 else EvGetBool (["charon"; "filelog"; f] ++ ["append"])
                      :: EvFopenLog f (open_mode s f) (openable E f)
                      :: (if openable E f
                          then EvGetBool (["charon"; "filelog"; f] ++ ["flush_line"])
                               :: (if default false
                                        (bool_value s
                                           (["charon"; "filelog"; f] ++ ["flush_line"]))
                                   then [EvSetlinebuf f] else [])
                          else [EvLog "opening file %s for logging failed: %s"]))).
      { destruct (is_sentinel f); [constructor|].
        destruct (openable E f); [destruct (default false _)|];
          by repeat constructor. }
      destruct (file_stream_of E s f); [|done].
      apply Forall_app. split; [done|]. repeat constructor.
      apply Forall_app. split; [|by repeat constructor].
      apply Forall_forall. intros e He.
      change (map ?f ?l) with (f <$> l) in He.
      apply list_elem_of_fmap in He. by destruct He as (g & -> & _).
    - intros a. by repeat constructor. }
  clear -HF. induction HF as [|e t [He Ha] _ [IH1 IH2]]; [done|].
  split; [by constructor|].
  change (e :: t) with ([e] ++ t). by rewrite alerts_app, Ha, IH2.
Qed.

Lemma handle_arguments_flags E opts use_syslog levels p :
  forallb is_flag opts = true ->
  exists use_syslog' levels',
    handle_arguments E opts use_syslog levels p =
    (inr (use_syslog', levels'), p).
Proof.
  revert use_syslog levels.
  induction opts as [|o opts IH]; intros use_syslog levels H.
  - by exists use_syslog, levels.
  - destruct o; try done; cbn in H |- *; by apply IH.
Qed.

Lemma lookup_uid_gid_resolved E p :
  passwd_uid E <> Some None -> group_gid E <> Some None ->
  exists p',
    lookup_uid_gid E p = (true, p') /\ same_host p p' /\
    trace p' = trace p /\ settings p' = settings p.
Proof.
  intros Hu Hg. unfold lookup_uid_gid.
  destruct (passwd_uid E) as [[u|]|], (group_gid E) as [[g|]|],
    (android_uid E) as [a|]; try done; eexists; (split; [reflexivity|done]).
Qed.

(** With every stage initialized, the options parsed, the identity
    resolved and the daemon initialized, start-up reaches the singleton
    guard with the marker as it was. *)
Lemma startup_reaches_guard E p :
  library_init_ok E = true -> integrity E <> Some false ->
  libhydra_init_ok E = true -> libcharon_init_ok E = true ->
  forallb is_flag (options E) = true ->
  passwd_uid E <> Some None -> group_gid E <> Some None ->
  charon_initialize_ok E = true ->
  exists p3 evs,
    startup E p = claim_and_start E p3 /\
    same_host p p3 /\
    trace p3 = trace p ++ evs /\
    attempted evs = [Library; Libhydra; Libcharon] /\
    teardowns evs = [] /\ alerts evs = [].
Proof.
  intros H1 H2 H3 H4 H5 H6 H7 H8. unfold startup.
  rewrite H1, H3, H4, H8. cbn [negb].
  erewrite bind_pair by apply emit_run. cbv beta iota.
  assert (Hint : forall q,
    (match integrity E with
     | Some ok => emit (EvIntegrityCheck ok) ;; ret ok
     | None => ret true
     end) q = (true, logged (integrity_events E) q)).
  { intros q. unfold integrity_events.
    destruct (integrity E) as [[]|]; try done. by rewrite logged_nil. }
  erewrite bind_pair by apply Hint. cbn [negb].
  erewrite bind_pair by apply emit_run. cbv beta iota.
  erewrite bind_pair by apply emit_run. cbv beta iota.
  rewrite !logged_logged.
  set (p2 := logged _ p).
  destruct (handle_arguments_flags E (options E) false
              (replicate (DBG_MAX E) LEVEL_CTRL) p2 H5)
    as (us & lv' & Hargs).
  erewrite bind_pair by exact Hargs. cbv beta iota.
  destruct (lookup_uid_gid_resolved E p2 H6 H7) as (p2' & Hl & Hh & Ht & Hs).
  erewrite bind_pair by exact Hl. cbn [negb].
  erewrite bind_pair by apply initialize_loggers_run.
  erewrite bind_pair by apply emit_run. cbv beta iota.
  destruct (stage_events_initialize_loggers E (negb us) lv' p2')
    as (evs & Hevs & Hst & Hal).
  destruct (no_stage_events evs Hst) as [Htd Hat].
  eexists _, _. split; [reflexivity|].
  split; [|split; [|split; [|split]]].
  - eapply same_host_trans; [|eapply same_host_trans;
      [exact Hh|apply (same_host_trans _ _ _
                         (same_host_initialize_loggers E (negb us) lv' p2'))]];
      [subst p2; done|done].
  - cbn [trace logged set_trace]. rewrite Hevs, Ht. subst p2.
    cbn [trace logged set_trace]. rewrite <- !app_assoc. reflexivity.
  - rewrite !attempted_app, Hat. cbn.
    unfold integrity_events. by destruct (integrity E) as [[]|].
  - rewrite !teardowns_app, Htd. cbn.
    unfold integrity_events. by destruct (integrity E) as [[]|].
  - rewrite !alerts_app, Hal. cbn.
    unfold integrity_events. by destruct (integrity E) as [[]|].
Qed.

Lemma claim_and_start_running E p c :
  marker p = Some c -> may_read E (euid p) = true ->
  marker_pid E c <> 0 -> kill_ok E (marker_pid E c) = true ->
  claim_and_start E p =
  (Aborted (-1),
   set_pidfile Closed
     (logged [EvStat true; EvFopen "r" true;
              EvFread (String.length (String.substring 0 BUF_SIZE c));
              EvFclose; EvKill (marker_pid E c) 0 true;
              EvLog "charon already running ('PID_FILE' exists)";
              EvLibcharonDeinit; EvLibhydraDeinit; EvLibraryDeinit] p)).
Proof.
  intros Hm Hr Hp Hk. unfold claim_and_start, abort, deinit.
  erewrite bind_pair by (by apply check_pidfile_running).
  destruct p. cbv beta iota. norm. steps. reflexivity.
Qed.

(** C4, as the code has it.  When a stage of start-up fails, the teardown
    of that stage and of every stage initialized before it is run, in
    reverse order of initialization, and the process leaves with the
    status of the cause: the core library's integrity status when the core
    library fails, the daemon's integrity status when the check of the
    executable fails, and the initialization status when the supporting
    library or the daemon library fails.  A live marker makes the process
    leave with -1 after the teardown of all three stages, and a run that
    returns makes it leave with 0.  These five statuses differ
    pairwise. *)
Theorem startup_stage_failure E p :
  let t := since (length (trace p)) (trace (snd (main E p))) in
  let left_with c := fst (main E p) = Some (status_of E c) in
  (library_init_ok E = false ->
   left_with LibraryIntegrity /\
   attempted t = [Library] /\ teardowns t = [Library]) /\
  (library_init_ok E = true -> integrity E = Some false ->
   left_with DaemonIntegrity /\
   attempted t = [Library] /\ teardowns t = [Library]) /\
  (library_init_ok E = true -> integrity E <> Some false ->
   libhydra_init_ok E = false ->
   left_with InitializationFailed /\
   attempted t = [Library; Libhydra] /\ teardowns t = [Libhydra; Library]) /\
  (library_init_ok E = true -> integrity E <> Some false ->
   libhydra_init_ok E = true -> libcharon_init_ok E = false ->
   left_with InitializationFailed /\
   attempted t = [Library; Libhydra; Libcharon] /\
   teardowns t = [Libcharon; Libhydra; Library]) /\
  (forall c,
     library_init_ok E = true -> integrity E <> Some false ->
     libhydra_init_ok E = true -> libcharon_init_ok E = true ->
     forallb is_flag (options E) = true ->
     passwd_uid E <> Some None -> group_gid E <> Some None ->
     charon_initialize_ok E = true ->
     marker p = Some c -> may_read E (euid p) = true ->
     marker_pid E c <> 0 -> kill_ok E (marker_pid E c) = true ->
     left_with AlreadyRunning /\
     attempted t = [Library; Libhydra; Libcharon] /\
     teardowns t = [Libcharon; Libhydra; Library]) /\
  (forall p1 p2,
     startup E p = (Started, p1) ->
     run (signals E) p1 = (Returned, p2) ->
     left_with Success) /\
  codes_distinct E /\
  (forall c1 c2, status_of E c1 = status_of E c2 -> c1 = c2).
Proof.
  cbv zeta. repeat apply conj.
  - intros H.
    rewrite (main_aborted _ _ _ _ (startup_library_fails E p H)).
    cbn [fst snd]. by rewrite since_logged.
  - intros H1 H2.
    rewrite (main_aborted _ _ _ _ (startup_integrity_fails E p H1 H2)).
    cbn [fst snd]. by rewrite since_logged.
  - intros H1 H2 H3.
    rewrite (main_aborted _ _ _ _ (startup_libhydra_fails E p H1 H2 H3)).
    cbn [fst snd]. rewrite since_logged. unfold integrity_events.
    by destruct (integrity E) as [[]|].
  - intros H1 H2 H3 H4.
    rewrite (main_aborted _ _ _ _ (startup_libcharon_fails E p H1 H2 H3 H4)).
    cbn [fst snd]. rewrite since_logged. unfold integrity_events.
    by destruct (integrity E) as [[]|].
  - intros c H1 H2 H3 H4 H5 H6 H7 H8 Hm Hr Hp Hk.
    destruct (startup_reaches_guard E p H1 H2 H3 H4 H5 H6 H7 H8)
      as (p3 & evs & Hstart & (Hm3 & _ & Hu3) & Ht & Hat & Htd & _).
    rewrite <- Hm3 in Hm. rewrite <- Hu3 in Hr.
    rewrite (claim_and_start_running E p3 c Hm Hr Hp Hk) in Hstart.
    rewrite (main_aborted _ _ _ _ Hstart). cbn [fst snd].
    split; [done|].
    assert (Hsince : forall tail,
      since (length (trace p)) (trace (set_pidfile Closed (logged tail p3))) =
      evs ++ tail).
    { intros tail. unfold since. cbn. rewrite Ht, <- app_assoc.
      by rewrite drop_app_length. }
    rewrite Hsince, attempted_app, teardowns_app, Hat, Htd. done.
  - intros p1 p2 Hs Hr. unfold main.
    erewrite bind_pair by exact Hs. cbv beta iota.
    erewrite bind_pair by exact Hr. cbv beta iota.
    unfold bind. destruct (unlink_pidfile E p2). done.
  - apply codes_are_distinct.
  - intros c1 c2. by apply status_of_inj.
Qed.

Lemma startup_stage_failure_witness :
  (fst (main (sample_env (true, true, true) (fun _ => false)
                         (true, Some true, false, true) [])
             (sample_proc None)) = Some 66 /\
   attempted
     (since 0 (trace (snd (main (sample_env (true, true, true) (fun _ => false)
                                            (true, Some true, false, true) [])
                                (sample_proc None))))) =
     [Library; Libhydra] /\
   teardowns
     (since 0 (trace (snd (main (sample_env (true, true, true) (fun _ => false)
                                            (true, Some true, false, true) [])
                                (sample_proc None))))) =
     [Libhydra; Library]) /\
  (fst (main (sample_env (true, true, true) (fun _ => true)
                         (true, Some true, true, true) [])
             (sample_proc (Some "4242"))) = Some (-1) /\
   attempted
     (since 0 (trace (snd (main (sample_env (true, true, true) (fun _ => true)
                                            (true, Some true, true, true) [])
                                (sample_proc (Some "4242")))))) =
     [Library; Libhydra; Libcharon] /\
   teardowns
     (since 0 (trace (snd (main (sample_env (true, true, true) (fun _ => true)
                                            (true, Some true, true, true) [])
                                (sample_proc (Some "4242")))))) =
     [Libcharon; Libhydra; Library]) /\
  (forall c1 c2,
     status_of quiet_env c1 = status_of quiet_env c2 -> c1 = c2).
Proof.
  split; [|split].
  - apply (proj1 (proj2 (proj2
             (startup_stage_failure
                (sample_env (true, true, true) (fun _ => false)
                            (true, Some true, false, true) [])
                (sample_proc None)))));
      [reflexivity|discriminate|reflexivity].
  - apply (proj1 (proj2 (proj2 (proj2 (proj2
             (startup_stage_failure
                (sample_env (true, true, true) (fun _ => true)
                            (true, Some true, true, true) [])
                (sample_proc (Some "4242"))))))) "4242");
      try reflexivity; try discriminate.
  - apply (proj2 (proj2 (proj2 (proj2 (proj2 (proj2 (proj2
             (startup_stage_failure quiet_env (sample_proc None))))))))).
Defined.

(** ** Shutdown *)

Lemma unlink_pidfile_run E p :
  exists p',
    unlink_pidfile E p = (tt, p') /\
    marker p' = unlinked E (euid p) (truncated E (pidfile p) (marker p)) /\
    trace p' = trace p ++ release_events E p.
Proof.
  destruct p as [tr st eg eu cu cg [c|] [] hp bl sl fl];
    unfold release_events, unlinked, truncated; exec_pid;
    destruct (ftruncate_ok E); exec;
    destruct (may_unlink E eu); exec; eexists; split; try reflexivity;
    split; reflexivity.
Qed.

Lemma run_loop_same_host inputs p : same_host p (snd (run_loop inputs p)).
Proof.
  revert p. induction inputs as [|i rest IH]; intros p; [done|].
  cbn [run_loop]. destruct (negb _); [done|].
  destruct (_ =? SIGHUP).
  { step. unfold load_files.
    destruct (disk i); steps;
      (eapply same_host_trans; [|apply IH]); done. }
  destruct (_ =? SIGINT); [done|].
  destruct (_ =? SIGTERM); [done|].
  step. eapply same_host_trans; [|apply IH]. done.
Qed.

Lemma run_same_host inputs p : same_host p (snd (run inputs p)).
Proof.
  unfold run. step. eapply same_host_trans; [|apply run_loop_same_host]. done.
Qed.

(** How a run ends that meets an error of [sigwait] or a shutdown signal
    after signals that keep the loop going. *)
Lemma run_returns pre i post p :
  Forall continues pre ->
  wait_error i <> 0 \/ is_shutdown i ->
  exists p2,
    run (pre ++ i :: post) p = (Returned, p2) /\
    same_host p p2 /\
    alerts (since (length (trace p)) (trace p2)) =
      if wait_error i =? 0 then [(ALERT_SHUTDOWN_SIGNAL, wait_sig i)] else [].
Proof.
  intros Hpre Hi.
  destruct (run_loop_continues pre (i :: post)
              (logged [EvSigprocmask [SIGINT; SIGHUP; SIGTERM]] p) Hpre)
    as (p1 & evs & Hrun & Ht & Ha).
  assert (Hlast : exists tail,
    run_loop (i :: post) p1 = (Returned, logged tail p1) /\
    alerts tail =
      if wait_error i =? 0 then [(ALERT_SHUTDOWN_SIGNAL, wait_sig i)] else []).
  { destruct Hi as [He|Hs].
    - rewrite run_loop_error by done. eexists. split; [reflexivity|].
      by destruct (Z.eqb_spec (wait_error i) 0).
    - destruct (run_loop_shutdown i post p1 Hs) as (msg & ->).
      eexists. split; [reflexivity|]. destruct Hs as [-> _]. done. }
  destruct Hlast as (tail & Hstop & Htail).
  exists (logged tail p1).
  assert (Hr : run (pre ++ i :: post) p = (Returned, logged tail p1)).
  { unfold run. erewrite bind_pair by apply emit_run.
    by rewrite Hrun, Hstop. }
  split; [exact Hr|]. split.
  - pose proof (run_same_host (pre ++ i :: post) p) as H.
    by rewrite Hr in H.
  - unfold since. cbn. rewrite Ht. cbn. rewrite <- !app_assoc.
    rewrite drop_app_length. cbn. by rewrite alerts_app, Ha.
Qed.

(** C10, on a host whose marker directory is read-only and holds the
    marker of a dead process: start-up succeeds without a stream on the
    marker, [sigwait] fails, and the process leaves with 0 while the
    marker stays as it was, neither truncated nor removed. *)
Lemma error_shutdown_marker_left :
  ~ error_shutdown_as_specified readonly_env (sample_proc (Some "999999")) /\
  marker (snd (main readonly_env (sample_proc (Some "999999")))) =
    Some "999999" /\
  forallb (fun e => negb (is_ftruncate e))
          (trace (snd (main readonly_env (sample_proc (Some "999999"))))) =
    true.
Proof.
  split; [|split; vm_compute; reflexivity].
  intros H.
  destruct (H (snd (startup readonly_env (sample_proc (Some "999999"))))
              {| wait_error := 4; wait_sig := 0; disk := None |} [])
    as (_ & _ & Hm).
  - vm_compute. reflexivity.
  - reflexivity.
  - discriminate.
  - vm_compute in Hm. discriminate.
Qed.

(** A run that ends on an error of [sigwait] ends with the log of that
    error. *)
Lemma run_error_logged pre i post p :
  Forall continues pre -> wait_error i <> 0 ->
  exists evs,
    since (length (trace p)) (trace (snd (run (pre ++ i :: post) p))) =
      evs ++ [EvLog "error %d while waiting for a signal"] /\
    alerts evs = [].
Proof.
  intros Hpre He. unfold run. erewrite bind_pair by apply emit_run.
  destruct (run_loop_continues pre (i :: post)
              (logged [EvSigprocmask [SIGINT; SIGHUP; SIGTERM]] p) Hpre)
    as (p1 & evs & Hrun & Ht & Ha).
  rewrite Hrun, run_loop_error by done. cbn [snd].
  exists (EvSigprocmask [SIGINT; SIGHUP; SIGTERM] :: evs).
  split; [|exact Ha].
  rewrite trace_logged, Ht, trace_logged. unfold since.
  rewrite <- !app_assoc, drop_app_length. reflexivity.
Qed.

(** C10, as the code has it.  When start-up has succeeded and [sigwait]
    returns an error after signals that kept the loop going, [run] logs
    the error and returns without publishing an alert.  [main] then calls
    [unlink_pidfile], which truncates the marker if the stream on it is
    open and then tries to unlink it, runs the teardown of the three
    stages in reverse order of their initialization and leaves with
    status 0.  A run ended by SIGINT or SIGTERM differs only in the one
    alert it publishes. *)
Theorem sigwait_error_shutdown E p p1 pre i post :
  startup E p = (Started, p1) ->
  signals E = pre ++ i :: post -> Forall continues pre ->
  wait_error i <> 0 \/ is_shutdown i ->
  exists p2 p',
    run (signals E) p1 = (Returned, p2) /\
    alerts (since (length (trace p1)) (trace p2)) =
      (if wait_error i =? 0 then [(ALERT_SHUTDOWN_SIGNAL, wait_sig i)]
       else []) /\
    (wait_error i <> 0 ->
     exists evs,
       since (length (trace p1)) (trace p2) =
         evs ++ [EvLog "error %d while waiting for a signal"] /\
       alerts evs = []) /\
    main E p = (Some 0, p') /\
    since (length (trace p2)) (trace p') =
      release_events E p1 ++
      [EvLibcharonDeinit; EvLibhydraDeinit; EvLibraryDeinit] /\
    marker p' = unlinked E (euid p1) (truncated E (pidfile p1) (marker p1)).
Proof.
  intros Hs Hsig Hpre Hi. rewrite Hsig.
  destruct (run_returns pre i post p1 Hpre Hi) as (p2 & Hr & (Hm & Hf & Hu) & Ha).
  destruct (unlink_pidfile_run E p2) as (p3 & Hrel & Hm3 & Ht3).
  exists p2, (logged [EvLibcharonDeinit; EvLibhydraDeinit; EvLibraryDeinit] p3).
  split; [done|]. split; [done|]. split.
  { intros He. destruct (run_error_logged pre i post p1 Hpre He)
      as (evs & Hl & Ha'). rewrite Hr in Hl. by exists evs. }
  split; [|split].
  - unfold main. erewrite bind_pair by exact Hs. cbv beta iota.
    rewrite Hsig. erewrite bind_pair by exact Hr. cbv beta iota.
    erewrite bind_pair by exact Hrel. unfold deinit. steps.
    destruct p3. norm. reflexivity.
  - unfold since. cbn. rewrite Ht3, <- app_assoc, drop_app_length.
    unfold release_events. by rewrite Hm, Hf, Hu.
  - cbn. rewrite Hm3. by rewrite Hm, Hf, Hu.
Qed.

Lemma sigwait_error_shutdown_witness :
  exists p2 p',
    run (signals failing_wait_env)
        (snd (startup failing_wait_env (sample_proc None))) = (Returned, p2) /\
    alerts (since (length (trace (snd (startup failing_wait_env
                                          (sample_proc None)))))
                  (trace p2)) = [] /\
    (exists evs,
       since (length (trace (snd (startup failing_wait_env
                                    (sample_proc None)))))
             (trace p2) =
         evs ++ [EvLog "error %d while waiting for a signal"] /\
       alerts evs = []) /\
    main failing_wait_env (sample_proc None) = (Some 0, p') /\
    since (length (trace p2)) (trace p') =
      [EvFtruncate true; EvFclose; EvUnlink true;
       EvLibcharonDeinit; EvLibhydraDeinit; EvLibraryDeinit] /\
    marker p' = None.
Proof.
  destruct (sigwait_error_shutdown failing_wait_env (sample_proc None)
              (snd (startup failing_wait_env (sample_proc None)))
              [] {| wait_error := 4; wait_sig := 0; disk := None |} [])
    as (p2 & p' & Hr & Ha & Hlog & Hmain & Hsince & Hm).
  - vm_compute. reflexivity.
  - reflexivity.
  - constructor.
  - left. discriminate.
  - exists p2, p'. split; [exact Hr|]. split; [exact Ha|].
    split; [apply Hlog; discriminate|].
    split; [exact Hmain|]. split; [exact Hsince|exact Hm].
Defined.

(** ** Reading back a marker *)

Lemma digit_of_pretty_N_char n :
  (n < 10)%N -> digit_of (pretty_N_char n) = Some (Z.of_N n).
Proof.
  intros H. rewrite <- (N2Nat.id n).
  assert (Hk : (N.to_nat n < 10)%nat) by lia.
  set (k := N.to_nat n) in *. clearbody k. clear H.
  do 10 (destruct k as [|k]; [reflexivity|]). lia.
Qed.

Lemma digits_pretty_N_go x s :
  digits 0 (pretty_N_go x s) = digits (Z.of_N x) s.
Proof.
  revert s. induction (N.lt_wf_0 x) as [x _ IH]; intros s.
  destruct (decide (0 < x)%N) as [Hx|Hx].
  - rewrite pretty_N_go_step by done.
    rewrite IH by (apply N.div_lt; lia).
    cbn [digits]. rewrite digit_of_pretty_N_char by (apply N.mod_lt; lia).
    f_equal. rewrite (N.div_mod x 10) at 3 by lia. lia.
  - assert (x = 0%N) as -> by lia. by rewrite pretty_N_go_0.
Qed.

Lemma pretty_N_go_head x s :
  (0 < x)%N ->
  exists n rest, (n < 10)%N /\ pretty_N_go x s = String (pretty_N_char n) rest.
Proof.
  revert s. induction (N.lt_wf_0 x) as [x _ IH]; intros s Hx.
  rewrite pretty_N_go_step by done.
  destruct (decide (0 < x `div` 10)%N) as [Hd|Hd].
  - apply IH; [apply N.div_lt; lia|done].
  - apply N.nlt_ge, N.le_0_r in Hd. rewrite Hd, pretty_N_go_0.
    eexists _, _. split; [|reflexivity]. by apply N.mod_lt.
Qed.

Lemma decimal_digit n rest :
  (n < 10)%N ->
  decimal (String (pretty_N_char n) rest) =
  digits 0 (String (pretty_N_char n) rest).
Proof.
  intros H. rewrite <- (N2Nat.id n).
  assert (Hk : (N.to_nat n < 10)%nat) by lia.
  set (k := N.to_nat n) in *. clearbody k. clear H.
  do 10 (destruct k as [|k]; [reflexivity|]). lia.
Qed.

Lemma length_pretty_N_go (k : nat) x s :
  (x < 10 ^ N.of_nat k)%N ->
  (String.length (pretty_N_go x s) <= k + String.length s)%nat.
Proof.
  revert x s. induction k as [|k IH]; intros x s Hx.
  - assert (x = 0%N) as -> by (cbn in Hx; lia). rewrite pretty_N_go_0. lia.
  - destruct (decide (0 < x)%N) as [H0|H0].
    + rewrite pretty_N_go_step by done.
      etrans; [apply IH|cbn; lia].
      apply N.Div0.div_lt_upper_bound.
      rewrite Nat2N.inj_succ, N.pow_succ_r' in Hx. lia.
    + assert (x = 0%N) as -> by lia. rewrite pretty_N_go_0. lia.
Qed.

Lemma pretty_N_go_app x s t :
  pretty_N_go x (s +:+ t) = pretty_N_go x s +:+ t.
Proof.
  revert s. induction (N.lt_wf_0 x) as [x _ IH]; intros s.
  destruct (decide (0 < x)%N) as [Hx|Hx].
  - rewrite (pretty_N_go_step x (s +:+ t)), (pretty_N_go_step x s) by done.
    apply (IH (x `div` 10)%N (N.div_lt x 10 Hx eq_refl)
             (String (pretty_N_char (x `mod` 10)) s)).
  - assert (x = 0%N) as -> by lia. by rewrite !pretty_N_go_0.
Qed.

Lemma substring_all s n :
  (String.length s <= n)%nat -> String.substring 0 n s = s.
Proof.
  revert n. induction s as [|c s IH]; intros n Hn.
  - by destruct n.
  - destruct n; cbn in *; [lia|].
    change (String.substring 0 (S n) (String c s))
      with (String c (String.substring 0 n s)).
    rewrite IH by lia. reflexivity.
Qed.

Lemma pid_line_pretty (x : positive) :
  pid_line (Z.pos x) = pretty_N_go (N.pos x) newline.
Proof.
  unfold pid_line. rewrite <- (pretty_N_go_app (N.pos x) "" _). reflexivity.
Qed.

(** [atoi] on a number that fits an [int]. *)
Lemma atoi_small s :
  -2147483648 <= decimal s < 2147483648 -> atoi s = decimal s.
Proof.
  intros H. unfold atoi, strtol, to_int, LONG_MAX, LONG_MIN.
  rewrite Z.min_r, Z.max_r by lia. rewrite Z.mod_small by lia. lia.
Qed.

Lemma marker_pid_pid_line E pid :
  0 < pid < 2 ^ 31 -> marker_pid E (pid_line pid) = pid.
Proof.
  intros [H0 H1]. destruct pid as [|x|x]; try lia.
  rewrite pid_line_pretty. unfold marker_pid, pid_of_buf.
  assert (Hlen : (String.length (pretty_N_go (N.pos x) newline) <= 63)%nat).
  { etrans; [apply (length_pretty_N_go 62)|cbn; lia].
    change (N.pos x < 10 ^ 62)%N. change (2 ^ 31) with 2147483648 in H1. lia. }
  rewrite substring_all by (unfold BUF_SIZE; lia).
  destruct (pretty_N_go_head (N.pos x) newline) as (n & rest & Hn & Heq); [lia|].
  rewrite Heq in *. cbn [String.length Nat.eqb].
  destruct (Nat.ltb_spec (S (String.length rest)) BUF_SIZE) as [_|Hge];
    [|unfold BUF_SIZE in Hge; cbn in Hlen; lia].
  assert (Hd : decimal (String (pretty_N_char n) rest) = Z.pos x).
  { rewrite decimal_digit by done. rewrite <- Heq, digits_pretty_N_go.
    cbn. reflexivity. }
  rewrite atoi_small; rewrite Hd; [done|].
  change (2 ^ 31) with 2147483648 in H1. lia.
Qed.

(** A daemon started while the one that wrote the marker is alive finds it
    running. *)
Lemma check_pidfile_detects_instance E1 E2 p :
  marker p = None -> may_write E1 (euid p) = true ->
  0 < getpid E1 < 2 ^ 31 ->
  may_read E2 (euid p) = true -> kill_ok E2 (getpid E1) = true ->
  fst (check_pidfile E2 (snd (check_pidfile E1 p))) = true.
Proof.
  intros Hm Hw Hpid Hr Hk.
  destruct (check_pidfile_absent E1 p Hm) as (p' & Hc & Hm' & _ & Hu).
  rewrite Hc. cbn [snd]. unfold created in Hm'. rewrite Hw in Hm'.
  rewrite (check_pidfile_running E2 p' (pid_line (getpid E1)));
    rewrite ?marker_pid_pid_line, ?Hu by done; try done. lia.
Qed.

(** * Further properties *)

(** ** Reading numbers *)

Lemma digits_stop acc rest :
  match rest with
  | String c _ => digit_of c = None
  | EmptyString => True
  end ->
  digits acc rest = acc.
Proof. destruct rest as [|c rest]; cbn; [done|]. by intros ->. Qed.

Lemma decimal_pretty_N_go x rest :
  (0 < x)%N -> decimal (pretty_N_go x rest) = digits (Z.of_N x) rest.
Proof.
  intros Hx. destruct (pretty_N_go_head x rest Hx) as (n & tl & Hn & Heq).
  rewrite Heq, decimal_digit by done. by rewrite <- Heq, digits_pretty_N_go.
Qed.

(** What [printf("%d")] writes is the decimal form that [strtol] reads
    back, whatever follows that does not start with a digit. *)
Lemma decimal_pretty_round_trip (z : Z) (rest : string) :
  match rest with
  | String c _ => digit_of c = None
  | EmptyString => True
  end ->
  decimal (pretty z +:+ rest) = z.
Proof.
  intros Hrest. destruct z as [|x|x].
  - change (pretty 0 +:+ rest) with (String "0" rest).
    change (decimal (String "0" rest)) with (digits 0 rest).
    by apply digits_stop.
  - change (pretty (Z.pos x) +:+ rest) with (pretty_N_go (N.pos x) "" +:+ rest).
    rewrite <- pretty_N_go_app. change ("" +:+ rest) with rest.
    rewrite decimal_pretty_N_go by lia. by rewrite digits_stop.
  - change (pretty (Z.neg x) +:+ rest)
      with (String "-" (pretty_N_go (N.pos x) "" +:+ rest)).
    rewrite <- pretty_N_go_app. change ("" +:+ rest) with rest.
    change (decimal (String "-" ?s)) with (- digits 0 s).
    rewrite digits_pretty_N_go, digits_stop by done. reflexivity.
Qed.

(** X1.  [check_pidfile] reads back what it writes.  A marker that holds
    the decimal form of a number in the range of [int], as [fprintf] with
    %d writes it, followed by text that does not start with a digit, such
    as the newline written after the pid, and that fits into the buffer,
    is read as that number, whatever the memory behind the buffer
    holds. *)
Theorem marker_round_trip E (z : Z) (rest : string) :
  - 2 ^ 31 <= z < 2 ^ 31 ->
  match rest with
  | String c _ => digit_of c = None
  | EmptyString => True
  end ->
  (String.length (pretty z +:+ rest) < BUF_SIZE)%nat ->
  marker_pid E (pretty z +:+ rest) = z.
Proof.
  intros Hz Hrest Hlen.
  pose proof (decimal_pretty_round_trip z rest Hrest) as Hrt.
  change (2 ^ 31) with 2147483648 in Hz.
  unfold marker_pid, pid_of_buf. rewrite substring_all by lia.
  destruct (pretty z +:+ rest) as [|c s] eqn:Hs.
  - exfalso. cbn in Hrt. subst z. discriminate Hs.
  - cbn [String.length Nat.eqb].
    destruct (Nat.ltb_spec (S (String.length s)) BUF_SIZE) as [_|Hge];
      [|cbn [String.length] in Hlen; lia].
    rewrite atoi_small; rewrite Hrt; [done|lia].
Qed.

Lemma marker_round_trip_witness :
  marker_pid quiet_env (pretty 4711 +:+ newline) = 4711.
Proof.
  apply (marker_round_trip quiet_env 4711 newline).
  - split; [discriminate|reflexivity].
  - reflexivity.
  - vm_compute. lia.
Defined.

(** ** The marker across processes *)

Lemma marker_pid_empty E : marker_pid E "" = 0.
Proof. reflexivity. Qed.

Lemma check_pidfile_not_running E p :
  marker p = None \/ marker p = Some "" ->
  fst (check_pidfile E p) = false.
Proof.
  intros [Hm|Hm].
  - destruct (check_pidfile_absent E p Hm) as (p' & -> & _). done.
  - destruct (check_pidfile_stale E p "" Hm) as (p' & -> & _); [|done].
    right. left. apply marker_pid_empty.
Qed.

(** X2.  A start that finds no marker, or a stale one, and can write the
    marker leaves in it the decimal form of its pid; any process started
    afterwards on that marker, able to read it and for which that pid
    answers the probe, reports already running and leaves the marker as
    it is. *)
Theorem pidfile_second_instance E1 E2 p p2 :
  marker p = None \/ (exists c, marker p = Some c /\ stale E1 (euid p) c) ->
  may_write E1 (euid p) = true ->
  0 < getpid E1 < 2 ^ 31 ->
  marker p2 = marker (snd (check_pidfile E1 p)) ->
  may_read E2 (euid p2) = true ->
  kill_ok E2 (getpid E1) = true ->
  fst (check_pidfile E1 p) = false /\
  marker (snd (check_pidfile E1 p)) = Some (pid_line (getpid E1)) /\
  fst (check_pidfile E2 p2) = true /\
  marker (snd (check_pidfile E2 p2)) = Some (pid_line (getpid E1)).
Proof.
  intros Hstart Hw Hpid Hm2 Hr Hk.
  assert (H1 : fst (check_pidfile E1 p) = false /\
               marker (snd (check_pidfile E1 p)) = Some (pid_line (getpid E1))).
  { destruct Hstart as [Hm|(c & Hm & Hs)].
    - destruct (check_pidfile_absent E1 p Hm) as (p' & -> & Hm' & _).
      unfold created in Hm'. by rewrite Hw in Hm'.
    - destruct (check_pidfile_stale E1 p c Hm Hs) as (p' & -> & Hm' & _).
      unfold created in Hm'. by rewrite Hw in Hm'. }
  destruct H1 as [Hf Hm1]. rewrite Hm1 in Hm2.
  split; [done|]. split; [done|].
  rewrite (check_pidfile_running E2 p2 (pid_line (getpid E1)));
    rewrite ?marker_pid_pid_line by done; try done. lia.
Qed.

Lemma pidfile_second_instance_witness :
  fst (check_pidfile quiet_env (sample_proc None)) = false /\
  marker (snd (check_pidfile quiet_env (sample_proc None))) =
    Some (pid_line 4711) /\
  fst (check_pidfile
         (sample_env (true, true, true) (fun _ => true)
                     (true, Some true, true, true) [])
         (sample_proc (Some (pid_line 4711)))) = true /\
  marker (snd (check_pidfile
                 (sample_env (true, true, true) (fun _ => true)
                             (true, Some true, true, true) [])
                 (sample_proc (Some (pid_line 4711))))) =
    Some (pid_line 4711).
Proof.
  apply (pidfile_second_instance quiet_env
           (sample_env (true, true, true) (fun _ => true)
                       (true, Some true, true, true) [])
           (sample_proc None) (sample_proc (Some (pid_line 4711)))).
  - by left.
  - reflexivity.
  - vm_compute. split; reflexivity.
  - vm_compute. reflexivity.
  - reflexivity.
  - reflexivity.
Defined.

(** X3.  After [unlink_pidfile] has truncated the marker through its open
    stream or has unlinked it, no later start reports already running on
    what is left of the marker, whatever process the old pid may name by
    then. *)
Theorem restart_after_release E E2 p p2 :
  (pidfile p = OpenW /\ ftruncate_ok E = true) \/
  may_unlink E (euid p) = true ->
  marker p2 = marker (snd (unlink_pidfile E p)) ->
  fst (check_pidfile E2 p2) = false.
Proof.
  intros H Hm2. apply check_pidfile_not_running. rewrite Hm2.
  destruct (unlink_pidfile_run E p) as (p' & Hrun & Hm & _).
  rewrite Hrun. cbn [snd]. rewrite Hm.
  unfold unlinked, truncated.
  destruct H as [[-> ->]| ->]; destruct (marker p); try destruct (pidfile p);
    try destruct (ftruncate_ok E); try destruct (may_unlink E (euid p)); auto.
Qed.

Lemma restart_after_release_witness :
  fst (check_pidfile
         (sample_env (true, true, true) (fun _ => true)
                     (true, Some true, true, true) [])
         (sample_proc
            (marker (snd (unlink_pidfile
                            (sample_env (true, true, false) (fun _ => false)
                                        (true, Some true, true, true) [])
                            (set_pidfile OpenW
                               (sample_proc (Some (pid_line 4711))))))))) =
  false.
Proof.
  apply (restart_after_release
           (sample_env (true, true, false) (fun _ => false)
                       (true, Some true, true, true) [])
           (sample_env (true, true, true) (fun _ => true)
                       (true, Some true, true, true) [])
           (set_pidfile OpenW (sample_proc (Some (pid_line 4711))))).
  - left. split; reflexivity.
  - reflexivity.
Defined.

(** ** The guard in full *)

Lemma check_pidfile_general E p :
  exists evs,
    check_pidfile E p = (seen_running E p, snd (check_pidfile E p)) /\
    trace (snd (check_pidfile E p)) = trace p ++ evs /\
    Forall (fun e => is_stage_event e = false) evs /\ alerts evs = [] /\
    (seen_running E p = true -> existsb changes_marker evs = false) /\
    marker (snd (check_pidfile E p)) =
      (if seen_running E p then marker p
       else created E (euid p) (unlinked E (euid p) (marker p))) /\
    pidfile (snd (check_pidfile E p)) =
      (if seen_running E p then Closed
       else if may_write E (euid p) then OpenW else NULLp) /\
    euid (snd (check_pidfile E p)) = euid p /\
    egid (snd (check_pidfile E p)) = egid p /\
    charon_uid (snd (check_pidfile E p)) = charon_uid p /\
    charon_gid (snd (check_pidfile E p)) = charon_gid p /\
    heap (snd (check_pidfile E p)) = heap p /\
    bus_listeners (snd (check_pidfile E p)) = bus_listeners p /\
    settings (snd (check_pidfile E p)) = settings p.
Proof.
  destruct p as [tr st eg eu cu cg mk pf hp bl sl fl].
  unfold seen_running, created, unlinked. cbn.
  destruct mk as [c|]; exec_pid.
  - destruct (may_read E eu) eqn:Hr; exec.
    + destruct (Z.eqb_spec (pid_of_buf E (String.substring 0 BUF_SIZE c)) 0)
        as [H0|H0]; exec.
      * destruct (may_unlink E eu) eqn:Hu, (may_write E eu) eqn:Hw; exec;
          rewrite ?Hu, ?Hw; exec;
          eexists; (split; [reflexivity|]); (split; [reflexivity|]);
          (split; [repeat constructor|]); done.
      * destruct (kill_ok E _) eqn:Hk; exec.
        -- eexists. split; [reflexivity|]. split; [reflexivity|].
           split; [repeat constructor|]. done.
        -- destruct (may_unlink E eu) eqn:Hu, (may_write E eu) eqn:Hw; exec;
          rewrite ?Hu, ?Hw; exec;
             eexists; (split; [reflexivity|]); (split; [reflexivity|]);
             (split; [repeat constructor|]); done.
    + destruct (may_unlink E eu) eqn:Hu, (may_write E eu) eqn:Hw; exec;
          rewrite ?Hu, ?Hw; exec;
        eexists; (split; [reflexivity|]); (split; [reflexivity|]);
        (split; [repeat constructor|]); done.
  - destruct (may_write E eu) eqn:Hw; exec; rewrite ?Hw; exec;
      eexists; (split; [reflexivity|]); (split; [reflexivity|]);
      (split; [repeat constructor|]); done.
Qed.

(** X4.  [check_pidfile] reports already running exactly when there is a
    marker that it can read, that holds a pid other than 0, and whose
    process answers the probe.  When it does so it has made no call that
    changes or removes the marker, the marker is as it was and the stream
    on it is closed.  Otherwise the old marker, if any, has been unlinked
    if that is permitted, and the marker holds the current pid if it can
    be opened for writing; the stream is then open for writing, and null
    if not.  The credentials, the loggers and the settings are never
    changed. *)
Theorem check_pidfile_result E p :
  let running := fst (check_pidfile E p) in
  let p' := snd (check_pidfile E p) in
  (running = true <->
   exists c, marker p = Some c /\ may_read E (euid p) = true /\
             marker_pid E c <> 0 /\ kill_ok E (marker_pid E c) = true) /\
  (running = true ->
   marker p' = marker p /\ pidfile p' = Closed /\
   existsb changes_marker (since (length (trace p)) (trace p')) = false) /\
  (running = false ->
   marker p' = created E (euid p) (unlinked E (euid p) (marker p)) /\
   pidfile p' = (if may_write E (euid p) then OpenW else NULLp)) /\
  euid p' = euid p /\ egid p' = egid p /\
  charon_uid p' = charon_uid p /\ charon_gid p' = charon_gid p /\
  heap p' = heap p /\ bus_listeners p' = bus_listeners p /\
  settings p' = settings p.
Proof.
  destruct (check_pidfile_general E p)
    as (evs & Hrun & Ht & _ & _ & Hch & Hm & Hf & Hrest).
  assert (Hfst : fst (check_pidfile E p) = seen_running E p)
    by (by rewrite Hrun).
  cbv zeta. rewrite Hfst.
  split; [|split; [|split]]; [| | |exact Hrest].
  - unfold seen_running. destruct (marker p) as [c|]; split.
    + intros H. exists c.
      destruct (may_read E (euid p)), (Z.eqb_spec (marker_pid E c) 0),
        (kill_ok E (marker_pid E c)); done.
    + intros (c' & [= <-] & -> & H0 & ->).
      by destruct (Z.eqb_spec (marker_pid E c) 0).
    + done.
    + by intros (c & ? & _).
  - intros H. rewrite H in Hm, Hf. rewrite Ht. unfold since.
    rewrite drop_app_length. auto.
  - intros H. by rewrite H in Hm, Hf.
Qed.


Lemma check_pidfile_result_witness :
  marker (snd (check_pidfile
                 (sample_env (true, true, true) (fun _ => true)
                             (true, Some true, true, true) [])
                 (sample_proc (Some "4242")))) =
    marker (sample_proc (Some "4242")) /\
  pidfile (snd (check_pidfile
                  (sample_env (true, true, true) (fun _ => true)
                              (true, Some true, true, true) [])
                  (sample_proc (Some "4242")))) = Closed /\
  existsb changes_marker
    (since (length (trace (sample_proc (Some "4242"))))
       (trace (snd (check_pidfile
                      (sample_env (true, true, true) (fun _ => true)
                                  (true, Some true, true, true) [])
                      (sample_proc (Some "4242")))))) = false.
Proof.
  apply (proj1 (proj2 (check_pidfile_result
                         (sample_env (true, true, true) (fun _ => true)
                                     (true, Some true, true, true) [])
                         (sample_proc (Some "4242"))))).
  reflexivity.
Defined.


(** ** Identity and privileges *)

Lemma drop_capabilities_state E p :
  let p' := snd (drop_capabilities E p) in
  let gid_ok := setgid_ok E (charon_gid p) in
  let uid_ok := setuid_ok E (charon_uid p) in
  egid p' = (if gid_ok then charon_gid p else egid p) /\
  euid p' = (if gid_ok && uid_ok then charon_uid p else euid p) /\
  (fst (drop_capabilities E p) = true ->
   egid p' = charon_gid p /\ euid p' = charon_uid p) /\
  marker p' = marker p /\ pidfile p' = pidfile p /\
  charon_uid p' = charon_uid p /\ charon_gid p' = charon_gid p /\
  heap p' = heap p /\ bus_listeners p' = bus_listeners p /\
  settings p' = settings p.
Proof.
  destruct p as [tr st eg eu cu cg mk pf hp bl sl fl].
  unfold drop_capabilities, setgid, setuid, charon_drop_capabilities.
  cbn [charon_gid charon_uid].
  destruct (HAVE_PRCTL E), (setgid_ok E cg) eqn:Hg; exec; rewrite ?Hg; exec;
    destruct (setuid_ok E cu) eqn:Hu; exec; rewrite ?Hu; exec;
    destruct (caps_ok E) eqn:Hc; exec; rewrite ?Hc; exec;
    repeat split; done.
Qed.

(** X5.  [drop_capabilities] changes nothing but the credentials of the
    process: the effective group becomes charon's group exactly when
    [setgid] succeeds, and the effective user becomes charon's user exactly
    when both [setgid] and [setuid] succeed.  So a success leaves the
    process with both target identities, a failed group switch leaves both
    as they were, and a failed user switch leaves the group already
    switched. *)
Theorem drop_capabilities_credentials E p :
  let p' := snd (drop_capabilities E p) in
  let gid_ok := setgid_ok E (charon_gid p) in
  let uid_ok := setuid_ok E (charon_uid p) in
  egid p' = (if gid_ok then charon_gid p else egid p) /\
  euid p' = (if gid_ok && uid_ok then charon_uid p else euid p) /\
  (fst (drop_capabilities E p) = true ->
   egid p' = charon_gid p /\ euid p' = charon_uid p) /\
  marker p' = marker p /\ pidfile p' = pidfile p /\
  charon_uid p' = charon_uid p /\ charon_gid p' = charon_gid p /\
  heap p' = heap p /\ bus_listeners p' = bus_listeners p /\
  settings p' = settings p.
Proof. exact (drop_capabilities_state E p). Qed.


Lemma drop_capabilities_credentials_witness :
  egid (snd (drop_capabilities quiet_env
               (set_charon_gid 7 (set_charon_uid 8 (sample_proc None))))) =
    charon_gid (set_charon_gid 7 (set_charon_uid 8 (sample_proc None))) /\
  euid (snd (drop_capabilities quiet_env
               (set_charon_gid 7 (set_charon_uid 8 (sample_proc None))))) =
    charon_uid (set_charon_gid 7 (set_charon_uid 8 (sample_proc None))).
Proof.
  apply (proj1 (proj2 (proj2 (drop_capabilities_credentials quiet_env
           (set_charon_gid 7 (set_charon_uid 8 (sample_proc None))))))).
  reflexivity.
Defined.


(** X6.  [lookup_uid_gid] succeeds exactly when neither the user nor the
    group fails to resolve.  When the user fails, charon's uid and gid stay
    as they were; when the user resolves and the group fails, the uid is
    already replaced and the gid is not; on success the gid is the
    resolved one, and the uid is AID_VPN on Android and the resolved one
    otherwise.  Nothing else of the process changes. *)
Theorem lookup_uid_gid_result E p :
  let ok := fst (lookup_uid_gid E p) in
  let p' := snd (lookup_uid_gid E p) in
  let resolved (r : option (option Z)) (old : Z) :=
    match r with Some (Some id) => id | _ => old end in
  (ok = true <-> passwd_uid E <> Some None /\ group_gid E <> Some None) /\
  (passwd_uid E = Some None ->
   charon_uid p' = charon_uid p /\ charon_gid p' = charon_gid p) /\
  (passwd_uid E <> Some None -> group_gid E = Some None ->
   charon_uid p' = resolved (passwd_uid E) (charon_uid p) /\
   charon_gid p' = charon_gid p) /\
  (ok = true ->
   charon_gid p' = resolved (group_gid E) (charon_gid p) /\
   charon_uid p' =
     match android_uid E with
     | Some aid => aid
     | None => resolved (passwd_uid E) (charon_uid p)
     end) /\
  same_host p p' /\ egid p' = egid p /\ heap p' = heap p /\
  bus_listeners p' = bus_listeners p /\ settings p' = settings p.
Proof.
  destruct p as [tr st eg eu cu cg mk pf hp bl sl fl].
  unfold lookup_uid_gid, same_host.
  destruct (passwd_uid E) as [[u|]|], (group_gid E) as [[g|]|],
    (android_uid E) as [a|]; cbn; repeat split; intros; try done;
    try tauto; try (by destruct H); try (by destruct H0).
Qed.


Lemma lookup_uid_gid_result_witness :
  charon_uid (snd (lookup_uid_gid
                     (with_passwd_uid (Some (Some 8))
                        (with_group_gid (Some None) quiet_env))
                     (sample_proc None))) =
    8 /\
  charon_gid (snd (lookup_uid_gid
                     (with_passwd_uid (Some (Some 8))
                        (with_group_gid (Some None) quiet_env))
                     (sample_proc None))) =
    charon_gid (sample_proc None).
Proof.
  apply (proj1 (proj2 (proj2 (lookup_uid_gid_result
           (with_passwd_uid (Some (Some 8))
              (with_group_gid (Some None) quiet_env))
           (sample_proc None))))).
  - discriminate.
  - reflexivity.
Defined.


(** ** The option loop *)

Lemma handle_arguments_run_flags E opts use_syslog levels p :
  forallb is_flag opts = true ->
  exists levels',
    handle_arguments E opts use_syslog levels p =
      (inr (use_syslog || existsb is_use_syslog opts, levels'), p) /\
    length levels' = length levels /\
    forall g x, levels !! g = Some x ->
                levels' !! g = Some (last_level g opts x).
Proof.
  revert use_syslog levels.
  induction opts as [|o opts IH]; intros use_syslog levels H.
  - exists levels. cbn. by rewrite orb_false_r.
  - destruct o as [| | |g a|]; try done; cbn in H.
    + destruct (IH true levels H) as (lv' & Hrun & Hlen & Hlv).
      exists lv'. cbn. rewrite Hrun. by rewrite orb_true_r.
    + destruct (IH use_syslog (<[g := atoi a]> levels) H)
        as (lv' & Hrun & Hlen & Hlv).
      exists lv'. cbn [handle_arguments existsb is_use_syslog orb].
      split; [exact Hrun|]. split; [by rewrite Hlen, length_insert|].
      intros g' x Hx. cbn [last_level]. apply Hlv.
      destruct (Nat.eqb_spec g g') as [->|Hne].
      * apply list_lookup_insert_eq. by eapply lookup_lt_Some.
      * by rewrite list_lookup_insert_ne.
Qed.

(** X7.  Options that only set a flag or a level never end the option
    loop and print nothing.  The syslog flag is set when it was set before
    or some option asks for it; the table of levels keeps its length, and
    the level of each group is the value of the last debug option given
    for it, or its initial level when there is none. *)
Theorem handle_arguments_levels E opts use_syslog levels p :
  forallb is_flag opts = true ->
  exists levels',
    handle_arguments E opts use_syslog levels p =
      (inr (use_syslog || existsb is_use_syslog opts, levels'), p) /\
    length levels' = length levels /\
    forall g x, levels !! g = Some x ->
                levels' !! g = Some (last_level g opts x).
Proof. exact (handle_arguments_run_flags E opts use_syslog levels p). Qed.

Lemma handle_arguments_levels_witness :
  exists levels',
    handle_arguments quiet_env
      [OptDebug 2 "3"; OptUseSyslog; OptDebug 2 "-1"; OptDebug 0 "4"]
      false (replicate 14 LEVEL_CTRL) (sample_proc None) =
      (inr (false || true, levels'), sample_proc None) /\
    length levels' = length (replicate 14 LEVEL_CTRL) /\
    forall g x, replicate 14 LEVEL_CTRL !! g = Some x ->
      levels' !! g =
      Some (last_level g
              [OptDebug 2 "3"; OptUseSyslog; OptDebug 2 "-1"; OptDebug 0 "4"]
              x).
Proof.
  apply (handle_arguments_levels quiet_env
           [OptDebug 2 "3"; OptUseSyslog; OptDebug 2 "-1"; OptDebug 0 "4"]
           false (replicate 14 LEVEL_CTRL) (sample_proc None)).
  reflexivity.
Defined.

Lemma handle_arguments_terminal E flags o rest use_syslog levels p :
  forallb is_flag flags = true -> is_flag o = false ->
  handle_arguments E (flags ++ o :: rest) use_syslog levels p =
  (inl (option_status o), logged (option_prints o) p).
Proof.
  revert use_syslog levels.
  induction flags as [|f flags IH]; intros use_syslog levels Hf Ho.
  - destruct o; try done; cbn; unfold usage; cbn; steps; reflexivity.
  - destruct f; try done; cbn in Hf |- *; by apply IH.
Qed.

Lemma deinit_run status p :
  deinit status p = (status, logged deinit_events p).
Proof.
  unfold deinit.
  repeat (erewrite bind_pair by apply emit_run; cbv beta iota).
  by rewrite ret_run, !logged_logged.
Qed.

Lemma abort_deinit status p :
  abort (deinit status) p = (Aborted status, logged deinit_events p).
Proof. unfold abort. by erewrite bind_pair by apply deinit_run. Qed.

Lemma integrity_passes E q :
  integrity E <> Some false ->
  (match integrity E with
   | Some ok => emit (EvIntegrityCheck ok) ;; ret ok
   | None => ret true
   end) q = (true, logged (integrity_events E) q).
Proof.
  intros H. unfold integrity_events.
  destruct (integrity E) as [[]|]; try done. by rewrite logged_nil.
Qed.

(** Run [startup] through the four stages, all of which succeed. *)
Ltac pass_stages H1 H2 H3 H4 :=
  unfold startup; rewrite H1, H3, H4; cbn [negb];
  erewrite bind_pair by apply emit_run; cbv beta iota;
  erewrite bind_pair by (by apply integrity_passes); cbn [negb];
  erewrite bind_pair by apply emit_run; cbv beta iota;
  erewrite bind_pair by apply emit_run; cbv beta iota;
  rewrite !logged_logged;
  change ([EvLibraryInit true] ++ integrity_events ?E ++
          [EvLibhydraInit true] ++ [EvLibcharonInit true])
    with (stage_events E).

(** X8.  When the stages initialize and the first option that is not a
    flag or a level is help, version or an unknown option, [main] prints
    the usage (or the version), tears the three stages down in reverse
    order and leaves with status 0 for help and version and 1 for an
    unknown option.  The options after it are not looked at; no identity
    is resolved, no logger is created, and the marker is not touched. *)
Theorem main_option_exit E p flags o rest :
  library_init_ok E = true -> integrity E <> Some false ->
  libhydra_init_ok E = true -> libcharon_init_ok E = true ->
  options E = flags ++ o :: rest ->
  forallb is_flag flags = true -> is_flag o = false ->
  main E p =
  (Some (option_status o),
   logged (stage_events E ++ option_prints o ++ deinit_events) p).
Proof.
  intros H1 H2 H3 H4 Ho Hf Hterm. apply main_aborted.
  pass_stages H1 H2 H3 H4. rewrite Ho.
  erewrite bind_pair by (by apply handle_arguments_terminal).
  cbv beta iota. rewrite abort_deinit, !logged_logged.
  by rewrite app_assoc.
Qed.

Lemma main_option_exit_witness :
  main (with_options [OptUseSyslog; OptVersion; OptOther] quiet_env)
       (sample_proc (Some "4242")) =
  (Some (option_status OptVersion),
   logged (stage_events
             (with_options [OptUseSyslog; OptVersion; OptOther] quiet_env) ++
           option_prints OptVersion ++ deinit_events)
          (sample_proc (Some "4242"))).
Proof.
  apply (main_option_exit
           (with_options [OptUseSyslog; OptVersion; OptOther] quiet_env)
           (sample_proc (Some "4242")) [OptUseSyslog] OptVersion [OptOther]);
    (reflexivity || discriminate).
Defined.

(** ** The control loop as a whole *)

Lemma silent_refl p : silent p p.
Proof. exists []. by rewrite app_nil_r. Qed.

Lemma silent_trans p1 p2 p3 : silent p1 p2 -> silent p2 p3 -> silent p1 p3.
Proof.
  intros (e1 & H1 & F1 & A1) (e2 & H2 & F2 & A2). exists (e1 ++ e2).
  split; [by rewrite H2, H1, app_assoc|].
  split; [by apply Forall_app|]. by rewrite alerts_app, A1, A2.
Qed.

Lemma silent_logged evs p :
  Forall (fun e => is_stage_event e = false) evs -> alerts evs = [] ->
  silent p (logged evs p).
Proof. intros H1 H2. by exists evs. Qed.

Lemma silent_reloaded d p : silent p (reloaded d p).
Proof.
  destruct p, d; unfold silent; simpl; rewrite <- ?app_assoc; eexists;
    (split; [reflexivity|]); (split; [repeat constructor|reflexivity]).
Qed.

Lemma settings_reloaded d p :
  settings (reloaded d p) = default (settings p) d.
Proof. by destruct d. Qed.

Lemma stops_or_continues i : {continues i} + {stops i}.
Proof.
  unfold continues, stops, is_shutdown.
  destruct (Z.eq_dec (wait_error i) 0); [|by right; left].
  destruct (Z.eq_dec (wait_sig i) SIGINT); [by right; right; auto|].
  destruct (Z.eq_dec (wait_sig i) SIGTERM); [by right; right; auto|].
  by left.
Qed.

Lemma stops_not_continues i : stops i -> ~ continues i.
Proof. intros [H|(_ & [H|H])] (H0 & H1 & H2); done. Qed.

(** The inputs either all keep the loop going, or there is a first one on
    which it returns. *)
Lemma inputs_split inputs :
  Forall continues inputs \/
  exists pre i post,
    inputs = pre ++ i :: post /\ Forall continues pre /\ stops i.
Proof.
  induction inputs as [|i rest IH]; [by left|].
  destruct (stops_or_continues i) as [Hc|Hs].
  - destruct IH as [IH|(pre & j & post & -> & Hpre & Hj)].
    + left. by constructor.
    + right. exists (i :: pre), j, post. split; [done|].
      split; [by constructor|done].
  - right. by exists [], i, rest.
Qed.

Lemma loaded_cons i inputs :
  loaded (i :: inputs) =
  match (if wait_sig i =? SIGHUP then disk i else None) with
  | Some s => s :: loaded inputs
  | None => loaded inputs
  end.
Proof. reflexivity. Qed.

(** The loop over inputs that keep it going. *)
Lemma run_loop_prefix pre p :
  Forall continues pre ->
  exists p1,
    (forall rest, run_loop (pre ++ rest) p = run_loop rest p1) /\
    settings p1 = default (settings p) (last (loaded pre)) /\
    silent p p1 /\ same_host p p1.
Proof.
  intros H. revert p. induction H as [|i pre Hi _ IH]; intros p.
  - exists p. split; [done|]. split; [done|].
    split; [apply silent_refl|apply same_host_refl].
  - destruct (continues_cases i Hi) as [Hr|Hu].
    + destruct (IH (reloaded (disk i) p)) as (p1 & Hrun & Hs & Hq & Hh).
      exists p1. split; [|split; [|split]].
      * intros rest. simpl app. rewrite run_loop_reload by done. apply Hrun.
      * rewrite Hs, settings_reloaded, loaded_cons.
        destruct Hr as [_ ->]. cbn.
        destruct (disk i) as [s|]; [|done].
        rewrite last_cons. by destruct (last _).
      * eapply silent_trans; [apply silent_reloaded|done].
      * eapply same_host_trans; [|exact Hh]. by destruct (disk i).
    + destruct (IH (logged [EvLog "unknown signal %d received. Ignored"] p))
        as (p1 & Hrun & Hs & Hq & Hh).
      exists p1. split; [|split; [|split]].
      * intros rest. simpl app. rewrite run_loop_unknown by done. apply Hrun.
      * rewrite Hs, loaded_cons.
        destruct Hu as (_ & Hne & _).
        by destruct (Z.eqb_spec (wait_sig i) SIGHUP).
      * eapply silent_trans; [|exact Hq]. by apply silent_logged; repeat constructor.
      * eapply same_host_trans; [|exact Hh]. done.
Qed.

(** The loop at an input on which it returns. *)
Lemma run_loop_stops i post p :
  stops i ->
  exists tail,
    run_loop (i :: post) p = (Returned, logged tail p) /\
    Forall (fun e => is_stage_event e = false) tail /\
    alerts tail =
      if wait_error i =? 0 then [(ALERT_SHUTDOWN_SIGNAL, wait_sig i)] else [].
Proof.
  intros [He|Hs].
  - rewrite run_loop_error by done. eexists. split; [reflexivity|].
    split; [repeat constructor|]. by destruct (Z.eqb_spec (wait_error i) 0).
  - destruct (run_loop_shutdown i post p Hs) as (msg & ->).
    eexists. split; [reflexivity|]. split; [repeat constructor|].
    destruct Hs as [-> _]. done.
Qed.

Lemma run_unfold inputs p :
  run inputs p =
  run_loop inputs (logged [EvSigprocmask [SIGINT; SIGHUP; SIGTERM]] p).
Proof. unfold run. by erewrite bind_pair by apply emit_run. Qed.

Lemma run_loop_stops_tail i post p :
  stops i -> run_loop (i :: post) p = run_loop [i] p.
Proof.
  intros [He|[He [Hs|Hs]]]; simpl.
  - by destruct (Z.eqb_spec (wait_error i) 0).
  - by rewrite He, Hs.
  - by rewrite He, Hs.
Qed.

Lemma run_prefix pre p :
  Forall continues pre ->
  exists p1,
    (forall rest, run (pre ++ rest) p = run_loop rest p1) /\
    settings p1 = default (settings p) (last (loaded pre)) /\
    silent p p1 /\ same_host p p1.
Proof.
  intros Hpre.
  destruct (run_loop_prefix pre
              (logged [EvSigprocmask [SIGINT; SIGHUP; SIGTERM]] p) Hpre)
    as (p1 & Hrun & Hs & Hq & Hh).
  exists p1. split; [|split; [|split]].
  - intros rest. rewrite run_unfold. apply Hrun.
  - exact Hs.
  - eapply silent_trans; [|exact Hq]. by apply silent_logged; repeat constructor.
  - eapply same_host_trans; [|exact Hh]. done.
Qed.

Lemma run_waiting inputs p :
  Forall continues inputs -> fst (run inputs p) = Waiting.
Proof.
  intros H. destruct (run_prefix inputs p H) as (p1 & Hrun & _).
  specialize (Hrun []). rewrite app_nil_r in Hrun. by rewrite Hrun.
Qed.

Lemma run_returned pre i post p :
  Forall continues pre -> stops i ->
  fst (run (pre ++ i :: post) p) = Returned.
Proof.
  intros Hpre Hi. destruct (run_prefix pre p Hpre) as (p1 & Hrun & _).
  rewrite Hrun. by destruct (run_loop_stops i post p1 Hi) as (tl & -> & _).
Qed.

(** X9.  [run] returns exactly when some [sigwait] fails or delivers
    SIGINT or SIGTERM; as long as every outcome is a SIGHUP or a signal it
    does not know, it keeps waiting.  Once it has returned, what would
    have come next plays no part: the outcomes after the first one on
    which it returns change neither its result nor the process. *)
Theorem run_returns_iff inputs p :
  (fst (run inputs p) = Waiting <-> Forall continues inputs) /\
  (fst (run inputs p) = Returned <-> Exists stops inputs) /\
  (forall pre i post,
     inputs = pre ++ i :: post -> Forall continues pre -> stops i ->
     run inputs p = run (pre ++ [i]) p).
Proof.
  split; [|split].
  - split; [|apply run_waiting]. intros H.
    destruct (inputs_split inputs) as [Hc|(pre & i & post & -> & Hpre & Hi)];
      [done|].
    rewrite run_returned in H; done.
  - split.
    + intros H.
      destruct (inputs_split inputs) as [Hc|(pre & i & post & -> & Hpre & Hi)].
      * rewrite run_waiting in H; done.
      * apply Exists_app. right. by constructor.
    + intros H.
      destruct (inputs_split inputs) as [Hc|(pre & i & post & -> & Hpre & Hi)].
      * exfalso. apply Exists_exists in H as (i & Hin & Hi).
        rewrite Forall_forall in Hc. by eapply stops_not_continues; eauto.
      * by apply run_returned.
  - intros pre i post -> Hpre Hi.
    destruct (run_prefix pre p Hpre) as (p1 & Hrun & _).
    rewrite !Hrun. by apply run_loop_stops_tail.
Qed.

Lemma run_returns_iff_witness :
  run [sighup_ok; sigusr1; sigterm; sighup_bad] (sample_proc None) =
  run ([sighup_ok; sigusr1] ++ [sigterm]) (sample_proc None).
Proof.
  apply (proj2 (proj2 (run_returns_iff
                         [sighup_ok; sigusr1; sigterm; sighup_bad]
                         (sample_proc None)))
           [sighup_ok; sigusr1] sigterm [sighup_bad]).
  - reflexivity.
  - repeat constructor; discriminate.
  - right. split; [reflexivity|]. by right.
Defined.

(** X10.  The settings in force after [run] are those of the last SIGHUP
    whose reload succeeded before the loop returned, and the settings it
    started with if there was none: a reload that fails, a signal the
    loop does not know and a failed [sigwait] leave the settings as they
    were, and SIGHUPs after the one on which the loop returns load
    nothing. *)
Theorem run_settings pre rest p :
  Forall continues pre ->
  rest = [] \/ (exists i post, rest = i :: post /\ stops i) ->
  settings (snd (run (pre ++ rest) p)) =
  default (settings p) (last (loaded pre)).
Proof.
  intros Hpre Hrest.
  destruct (run_prefix pre p Hpre) as (p1 & Hrun & Hs & _).
  rewrite Hrun, <- Hs.
  destruct Hrest as [->|(i & post & -> & Hi)]; [done|].
  by destruct (run_loop_stops i post p1 Hi) as (tl & -> & _).
Qed.

Lemma run_settings_witness :
  settings (snd (run ([sighup_ok; sighup_bad; sigusr1] ++
                      [sigterm; sighup_ok]) (sample_proc None))) =
  default (settings (sample_proc None))
          (last (loaded [sighup_ok; sighup_bad; sigusr1])).
Proof.
  apply (run_settings [sighup_ok; sighup_bad; sigusr1] [sigterm; sighup_ok]
           (sample_proc None)).
  - repeat constructor; discriminate.
  - right. exists sigterm, [sighup_ok]. split; [reflexivity|].
    right. split; [reflexivity|]. by right.
Defined.

(** ** Every path through main *)

Lemma flags_split opts :
  forallb is_flag opts = true \/
  exists flags o rest,
    opts = flags ++ o :: rest /\ forallb is_flag flags = true /\
    is_flag o = false.
Proof.
  induction opts as [|o opts IH]; [by left|].
  destruct (is_flag o) eqn:Ho.
  - destruct IH as [IH|(flags & o' & rest & -> & Hf & Ho')].
    + left. cbn. by rewrite Ho.
    + right. exists (o :: flags), o', rest. cbn. by rewrite Ho.
  - right. by exists [], o, opts.
Qed.

Ltac solve_silent :=
  first [ by (exists []; rewrite app_nil_r)
        | eexists; split; [reflexivity|];
          split; [repeat constructor|reflexivity] ].

Lemma lookup_uid_gid_silent E p : silent p (snd (lookup_uid_gid E p)).
Proof.
  destruct p. unfold lookup_uid_gid, silent.
  destruct (passwd_uid E) as [[u|]|], (group_gid E) as [[g|]|],
    (android_uid E) as [a|]; cbn; solve_silent.
Qed.

Lemma drop_capabilities_silent E p : silent p (snd (drop_capabilities E p)).
Proof.
  destruct (drop_capabilities_trace E p) as [_ Ht].
  exists (drop_trace E (charon_gid p) (charon_uid p)). split; [done|].
  unfold drop_trace.
  destruct (HAVE_PRCTL E); destruct (setgid_ok E (charon_gid p));
    try destruct (setuid_ok E (charon_uid p)); try destruct (caps_ok E);
    split; by repeat constructor.
Qed.

Lemma unlink_pidfile_silent E p : silent p (snd (unlink_pidfile E p)).
Proof.
  destruct (unlink_pidfile_run E p) as (p' & Hrun & _ & Ht).
  rewrite Hrun. exists (release_events E p). split; [done|].
  unfold release_events. destruct (pidfile p); split; by repeat constructor.
Qed.

Lemma check_pidfile_silent E p : silent p (snd (check_pidfile E p)).
Proof.
  destruct (check_pidfile_general E p) as (evs & _ & Ht & HF & Ha & _).
  by exists evs.
Qed.

Lemma initialize_loggers_silent E use_stderr levels p :
  silent p (after_initialize_loggers E use_stderr levels p).
Proof. apply stage_events_initialize_loggers. Qed.

Lemma ends_abort E p0 q s :
  silent p0 q ->
  s = 0 \/ s = 1 \/ s = -1 \/ s = SS_RC_INITIALIZATION_FAILED E ->
  ends_start E p0 (abort (deinit s) q).
Proof.
  intros (mid & Ht & HF & Ha) Hs. rewrite abort_deinit.
  exists mid. split; [done|]. split; [done|]. cbn [fst snd].
  split; [|done]. rewrite trace_logged, Ht. by rewrite <- app_assoc.
Qed.

Lemma ends_log_abort E p0 q s msg :
  silent p0 q ->
  s = 0 \/ s = 1 \/ s = -1 \/ s = SS_RC_INITIALIZATION_FAILED E ->
  ends_start E p0 ((DBG1 msg ;; abort (deinit s)) q).
Proof.
  intros Hq Hs. erewrite bind_pair by apply DBG1_run.
  apply ends_abort; [|done].
  eapply silent_trans; [exact Hq|]. by apply silent_logged; repeat constructor.
Qed.

Lemma ends_started E p0 q : silent p0 q -> ends_start E p0 (Started, q).
Proof. intros (mid & Ht & HF & Ha). by exists mid. Qed.

Lemma claim_and_start_ends E p0 q :
  silent p0 q -> ends_start E p0 (claim_and_start E q).
Proof.
  intros Hq. unfold claim_and_start.
  destruct (check_pidfile_general E q) as (evs & Hrun & _).
  pose proof (check_pidfile_silent E q) as Hc.
  erewrite bind_pair by exact Hrun. clear Hrun.
  set (q1 := snd (check_pidfile E q)) in *.
  assert (H1 : silent p0 q1) by (by eapply silent_trans).
  destruct (seen_running E q).
  { apply ends_log_abort; auto. }
  destruct (drop_capabilities_trace E q1) as [Hd _].
  pose proof (drop_capabilities_silent E q1) as Hs.
  erewrite bind_pair by exact Hd. clear Hd.
  set (q2 := snd (drop_capabilities E q1)) in *.
  assert (H2 : silent p0 q2) by (by eapply silent_trans).
  destruct (_ && _); cbn [negb].
  - unfold install_signal_handlers.
    erewrite bind_pair by apply emit_run. cbv beta iota.
    erewrite bind_pair by apply emit_run. cbv beta iota.
    rewrite ret_run, logged_logged. apply ends_started.
    eapply silent_trans; [exact H2|]. by apply silent_logged; repeat constructor.
  - apply ends_log_abort; auto.
Qed.

Lemma startup_ends E p :
  library_init_ok E = true -> integrity E <> Some false ->
  libhydra_init_ok E = true -> libcharon_init_ok E = true ->
  ends_start E (logged (stage_events E) p) (startup E p).
Proof.
  intros H1 H2 H3 H4. pass_stages H1 H2 H3 H4.
  set (p0 := logged (stage_events E) p).
  destruct (flags_split (options E))
    as [Hf|(flags & o & rest & -> & Hf & Ho)].
  - destruct (handle_arguments_flags E (options E) false
                (replicate (DBG_MAX E) LEVEL_CTRL) p0 Hf)
      as (us & lv' & Hargs).
    erewrite bind_pair by exact Hargs. cbv beta iota.
    pose proof (lookup_uid_gid_silent E p0) as Hl.
    destruct (lookup_uid_gid E p0) as [ok q1] eqn:Hlook. cbn [snd] in Hl.
    erewrite bind_pair by exact Hlook.
    destruct ok; cbn [negb].
    + erewrite bind_pair by apply initialize_loggers_run.
      erewrite bind_pair by apply emit_run. cbv beta iota.
      pose proof (initialize_loggers_silent E (negb us) lv' q1) as Hi.
      set (q2 := after_initialize_loggers E (negb us) lv' q1) in *.
      assert (Hq : silent p0 (logged [EvCharonInitialize
                                        (charon_initialize_ok E)] q2)).
      { eapply silent_trans; [exact Hl|].
        eapply silent_trans; [exact Hi|].
        by apply silent_logged; repeat constructor. }
      destruct (charon_initialize_ok E); cbn [negb].
      * by apply claim_and_start_ends.
      * apply ends_log_abort; auto.
    + apply (ends_log_abort E p0 q1 _ "invalid uid/gid - aborting charon");
        auto.
  - erewrite bind_pair by (by apply handle_arguments_terminal).
    cbv beta iota. apply ends_abort.
    + apply silent_logged; destruct o; by repeat constructor.
    + destruct o; cbn; auto.
Qed.

Lemma stage_events_stages E :
  integrity E <> Some false ->
  attempted (stage_events E) = [Library; Libhydra; Libcharon] /\
  teardowns (stage_events E) = [] /\ alerts (stage_events E) = [].
Proof.
  intros H. unfold stage_events, integrity_events.
  by destruct (integrity E) as [[]|].
Qed.

(** [main] after a start-up that initialized the three stages. *)
Lemma main_after_stages E p :
  library_init_ok E = true -> integrity E <> Some false ->
  libhydra_init_ok E = true -> libcharon_init_ok E = true ->
  exists evs,
    trace (snd (main E p)) = trace p ++ evs /\
    path_of_main E (fst (main E p)) evs.
Proof.
  intros H1 H2 H3 H4.
  destruct (startup_ends E p H1 H2 H3 H4) as (mid & HF & Ha & Hend).
  destruct (stage_events_stages E H2) as (Hat & Htd & Hal).
  destruct (no_stage_events mid HF) as [Hmt Hma].
  destruct (startup E p) as [[s|] p1] eqn:Hs; cbn [fst snd] in Hend;
    unfold main; erewrite bind_pair by exact Hs; cbv beta iota.
  - destruct Hend as [Ht Hst]. rewrite ret_run. cbn [fst snd].
    exists (stage_events E ++ mid ++ deinit_events).
    split; [by rewrite Ht, trace_logged, <- app_assoc|].
    unfold path_of_main.
    rewrite !attempted_app, !teardowns_app, !alerts_app,
      Hat, Htd, Hal, Hmt, Hma, Ha. cbn.
    split; [done|]. split; [|by left]. split; [done|].
    unfold exit_statuses. destruct Hst as [->|[->|[->| ->]]]; cbn; tauto.
  - rewrite trace_logged in Hend.
    destruct (inputs_split (signals E))
      as [Hc|(pre & i & post & Hsig & Hpre & Hi)].
    + destruct (run_prefix (signals E) p1 Hc) as (p2 & Hrun & _ & Hq & _).
      specialize (Hrun []). rewrite app_nil_r in Hrun.
      erewrite bind_pair by exact Hrun. cbv beta iota.
      rewrite ret_run. cbn [fst snd].
      destruct Hq as (e2 & Ht2 & HF2 & Ha2).
      destruct (no_stage_events e2 HF2) as [Hmt2 Hma2].
      exists (stage_events E ++ mid ++ e2).
      split; [by rewrite Ht2, Hend, <- !app_assoc|].
      unfold path_of_main.
      rewrite !attempted_app, !teardowns_app, !alerts_app,
        Hat, Htd, Hal, Hmt, Hma, Ha, Hmt2, Hma2, Ha2. cbn.
      split; [done|]. split; [done|]. by left.
    + rewrite Hsig.
      destruct (run_prefix pre p1 Hpre) as (p2 & Hrun & _ & Hq & _).
      destruct (run_loop_stops i post p2 Hi) as (tl & Hstop & HFt & Hat').
      erewrite bind_pair by (rewrite Hrun; exact Hstop). cbv beta iota.
      pose proof (unlink_pidfile_silent E (logged tl p2)) as Hu.
      destruct (unlink_pidfile_run E (logged tl p2)) as (p3 & Hrel & _).
      rewrite Hrel in Hu. cbn [snd] in Hu.
      erewrite bind_pair by exact Hrel.
      erewrite bind_pair by apply deinit_run. cbv beta iota.
      rewrite ret_run. cbn [fst snd].
      destruct Hq as (e2 & Ht2 & HF2 & Ha2).
      destruct (no_stage_events e2 HF2) as [Hmt2 Hma2].
      destruct (no_stage_events tl HFt) as [Hmt3 Hma3].
      destruct Hu as (e4 & Ht4 & HF4 & Ha4).
      destruct (no_stage_events e4 HF4) as [Hmt4 Hma4].
      exists (stage_events E ++ mid ++ e2 ++ tl ++ e4 ++ deinit_events).
      split.
      { rewrite trace_logged, Ht4, trace_logged, Ht2, Hend.
        by rewrite <- !app_assoc. }
      unfold path_of_main.
      rewrite !attempted_app, !teardowns_app, !alerts_app,
        Hat, Htd, Hal, Hmt, Hma, Ha, Hmt2, Hma2, Ha2, Hmt3, Hma3, Hat',
        Hmt4, Hma4, Ha4. cbn.
      split; [done|]. split; [split; [done|by left]|].
      rewrite app_nil_r.
      destruct Hi as [He|[He Hsg]].
      * left. by destruct (Z.eqb_spec (wait_error i) 0).
      * right. exists (wait_sig i). rewrite He. cbn. auto.
Qed.

(** [main] on every path. *)
Lemma main_path E p :
  exists evs,
    trace (snd (main E p)) = trace p ++ evs /\
    path_of_main E (fst (main E p)) evs.
Proof.
  destruct (library_init_ok E) eqn:H1.
  2: { rewrite (main_aborted _ _ _ _ (startup_library_fails E p H1)).
       eexists. split; [reflexivity|]. unfold path_of_main, exit_statuses.
       cbn. split; [by exists [Libhydra; Libcharon]|]. tauto. }
  destruct (decide (integrity E = Some false)) as [H2|H2].
  { rewrite (main_aborted _ _ _ _ (startup_integrity_fails E p H1 H2)).
    eexists. split; [reflexivity|]. unfold path_of_main, exit_statuses.
    cbn. split; [by exists [Libhydra; Libcharon]|]. tauto. }
  assert (Hi : attempted (integrity_events E) = [] /\
               teardowns (integrity_events E) = [] /\
               alerts (integrity_events E) = []).
  { unfold integrity_events. by destruct (integrity E) as [[]|]. }
  destruct Hi as (Hi1 & Hi2 & Hi3).
  destruct (libhydra_init_ok E) eqn:H3.
  2: { rewrite (main_aborted _ _ _ _ (startup_libhydra_fails E p H1 H2 H3)).
       eexists. split; [reflexivity|]. unfold path_of_main, exit_statuses.
       change (?e :: ?l ++ ?m) with ([e] ++ l ++ m).
       rewrite !attempted_app, !teardowns_app, !alerts_app, Hi1, Hi2, Hi3.
       cbn. split; [by exists [Libcharon]|]. tauto. }
  destruct (libcharon_init_ok E) eqn:H4.
  2: { rewrite (main_aborted _ _ _ _ (startup_libcharon_fails E p H1 H2 H3 H4)).
       eexists. split; [reflexivity|]. unfold path_of_main, exit_statuses.
       change (?e :: ?l ++ ?m) with ([e] ++ l ++ m).
       rewrite !attempted_app, !teardowns_app, !alerts_app, Hi1, Hi2, Hi3.
       cbn. split; [done|]. tauto. }
  by apply main_after_stages.
Qed.

Lemma since_app t evs : since (length t) (t ++ evs) = evs.
Proof. unfold since. by rewrite drop_app_length. Qed.

(** X11.  On every path through [main], whatever fails: the stages are
    initialized in the order core library, libhydra, libcharon, each at
    most once; when [main] returns, the teardown of every stage whose
    initialization was called has been run exactly once, in the reverse
    order of the initializations, also for the stage whose initialization
    failed; and while [main] is blocked in [run], all three stages are
    initialized and none has been torn down. *)
Theorem main_stage_discipline E p :
  let t := since (length (trace p)) (trace (snd (main E p))) in
  attempted t `prefix_of` [Library; Libhydra; Libcharon] /\
  (is_Some (fst (main E p)) -> teardowns t = rev (attempted t)) /\
  (fst (main E p) = None ->
   teardowns t = [] /\ attempted t = [Library; Libhydra; Libcharon]).
Proof.
  destruct (main_path E p) as (evs & Ht & Hpre & Hr & _).
  cbv zeta. rewrite Ht, since_app.
  split; [done|]. destruct (fst (main E p)) as [s|].
  - split; [by intros _; apply Hr|done].
  - split; [by intros [? ?]|]. intros _. by destruct Hr as (? & ? & _).
Qed.


Lemma main_stage_discipline_witness :
  teardowns
    (since (length (trace (sample_proc None)))
       (trace (snd (main (with_group_gid (Some None) quiet_env)
                         (sample_proc None))))) =
  rev (attempted
         (since (length (trace (sample_proc None)))
            (trace (snd (main (with_group_gid (Some None) quiet_env)
                              (sample_proc None)))))).
Proof.
  apply (proj1 (proj2 (main_stage_discipline
                         (with_group_gid (Some None) quiet_env)
                         (sample_proc None)))).
  by eexists.
Defined.


(** X12.  Every status [main] returns is one of 0, 1, -1 and the three
    status constants of library.h; and [main] stays in [run] without
    returning only if every [sigwait] succeeds with a signal other than
    SIGINT and SIGTERM. *)
Theorem main_exit_statuses E p :
  (forall s, fst (main E p) = Some s -> In s (exit_statuses E)) /\
  (fst (main E p) = None -> Forall continues (signals E)).
Proof.
  destruct (main_path E p) as (evs & _ & _ & Hr & _).
  destruct (fst (main E p)) as [s|].
  - split; [|done]. intros s' [= <-]. apply Hr.
  - split; [done|]. intros _. apply Hr.
Qed.


Lemma main_exit_statuses_witness :
  In 0 (exit_statuses (with_signals [sighup_ok; sigterm] quiet_env)).
Proof.
  apply (proj1 (main_exit_statuses
                  (with_signals [sighup_ok; sigterm] quiet_env)
                  (sample_proc None)) 0).
  reflexivity.
Defined.


(** The start-up publishes no alert, however it ends. *)
Lemma startup_alerts E p :
  exists evs,
    trace (snd (startup E p)) = trace p ++ evs /\ alerts evs = [].
Proof.
  destruct (library_init_ok E) eqn:H1.
  2: { rewrite startup_library_fails by done.
       eexists. split; [apply trace_logged|reflexivity]. }
  destruct (decide (integrity E = Some false)) as [H2|H2].
  { rewrite startup_integrity_fails by done.
    eexists. split; [apply trace_logged|reflexivity]. }
  assert (Hi : alerts (integrity_events E) = []).
  { unfold integrity_events. by destruct (integrity E) as [[]|]. }
  destruct (libhydra_init_ok E) eqn:H3.
  2: { rewrite startup_libhydra_fails by done.
       eexists. split; [apply trace_logged|].
       change (?e :: ?l ++ ?m) with ([e] ++ l ++ m).
       by rewrite !alerts_app, Hi. }
  destruct (libcharon_init_ok E) eqn:H4.
  2: { rewrite startup_libcharon_fails by done.
       eexists. split; [apply trace_logged|].
       change (?e :: ?l ++ ?m) with ([e] ++ l ++ m).
       by rewrite !alerts_app, Hi. }
  destruct (startup_ends E p H1 H2 H3 H4) as (mid & _ & Ha & Hend).
  destruct (stage_events_stages E H2) as (_ & _ & Hal).
  rewrite trace_logged in Hend.
  destruct (fst (startup E p)) as [s|].
  - destruct Hend as [Ht _]. exists (stage_events E ++ mid ++ deinit_events).
    split; [by rewrite Ht, <- app_assoc|].
    by rewrite !alerts_app, Hal, Ha.
  - exists (stage_events E ++ mid).
    split; [by rewrite Hend, <- app_assoc|].
    by rewrite !alerts_app, Hal, Ha.
Qed.

(** The alerts of [main], by the way it ends. *)
Lemma main_alerts_cases E p :
  (fst (startup E p) <> Started \/ Forall continues (signals E) ->
   alerts (since (length (trace p)) (trace (snd (main E p)))) = []) /\
  (forall pre i post,
     fst (startup E p) = Started ->
     signals E = pre ++ i :: post -> Forall continues pre -> stops i ->
     alerts (since (length (trace p)) (trace (snd (main E p)))) =
       if wait_error i =? 0 then [(ALERT_SHUTDOWN_SIGNAL, wait_sig i)]
       else []).
Proof.
  destruct (startup_alerts E p) as (e0 & Ht0 & Ha0).
  destruct (startup E p) as [[s|] p1] eqn:Hs; cbn [fst snd] in *.
  - rewrite (main_aborted E p s p1 Hs). cbn [snd].
    rewrite Ht0, since_app. split; [done|]. intros; discriminate.
  - split.
    + intros [H|Hc]; [done|].
      destruct (run_prefix (signals E) p1 Hc)
        as (p2 & Hrun & _ & (e2 & Ht2 & _ & Ha2) & _).
      specialize (Hrun []). rewrite app_nil_r in Hrun.
      unfold main. erewrite bind_pair by exact Hs. cbv beta iota.
      erewrite bind_pair by exact Hrun. cbv beta iota.
      rewrite ret_run. cbn [snd].
      rewrite Ht2, Ht0, <- app_assoc, since_app.
      by rewrite alerts_app, Ha0, Ha2.
    + intros pre i post _ Hsig Hpre Hi.
      destruct (run_prefix pre p1 Hpre)
        as (p2 & Hrun & _ & (e2 & Ht2 & _ & Ha2) & _).
      destruct (run_loop_stops i post p2 Hi) as (tl & Hstop & _ & Hat).
      pose proof (unlink_pidfile_silent E (logged tl p2)) as Hu.
      destruct (unlink_pidfile_run E (logged tl p2)) as (p3 & Hrel & _).
      rewrite Hrel in Hu. cbn [snd] in Hu.
      destruct Hu as (e4 & Ht4 & _ & Ha4).
      unfold main. erewrite bind_pair by exact Hs. cbv beta iota.
      rewrite Hsig. erewrite bind_pair by (rewrite Hrun; exact Hstop).
      cbv beta iota. erewrite bind_pair by exact Hrel.
      erewrite bind_pair by apply deinit_run. cbv beta iota.
      rewrite ret_run. cbn [snd].
      rewrite trace_logged, Ht4, trace_logged, Ht2, Ht0.
      rewrite <- !app_assoc, since_app.
      rewrite !alerts_app, Ha0, Ha2, Hat, Ha4. cbn.
      by rewrite app_nil_r.
Qed.

(** X13.  The alerts of [main] on every path.  A start-up that fails
    publishes none, and none is published while every [sigwait] succeeds
    with a SIGHUP or a signal [run] does not know.  When the daemon was
    started and [run] returns, the alerts are exactly the shutdown alert
    carrying the signal if [sigwait] succeeded, and none if it failed.
    So at most one alert is published; if there is one, it carries SIGINT
    or SIGTERM and [main] returns 0. *)
Theorem main_alerts E p :
  let t := since (length (trace p)) (trace (snd (main E p))) in
  (fst (startup E p) <> Started \/ Forall continues (signals E) ->
   alerts t = []) /\
  (forall pre i post,
     fst (startup E p) = Started ->
     signals E = pre ++ i :: post -> Forall continues pre -> stops i ->
     alerts t =
       if wait_error i =? 0 then [(ALERT_SHUTDOWN_SIGNAL, wait_sig i)]
       else []) /\
  (alerts t = [] \/
   exists sig,
     (sig = SIGINT \/ sig = SIGTERM) /\ fst (main E p) = Some 0 /\
     alerts t = [(ALERT_SHUTDOWN_SIGNAL, sig)]).
Proof.
  destruct (main_path E p) as (evs & Ht & _ & _ & Ha).
  destruct (main_alerts_cases E p) as [H1 H2].
  cbv zeta. split; [exact H1|]. split; [exact H2|].
  by rewrite Ht, since_app.
Qed.

Lemma main_alerts_witness :
  alerts
    (since (length (trace (sample_proc None)))
       (trace (snd (main (with_signals [sighup_ok; sigterm] quiet_env)
                         (sample_proc None))))) =
    [(ALERT_SHUTDOWN_SIGNAL, SIGTERM)] /\
  alerts
    (since (length (trace (sample_proc None)))
       (trace (snd (main failing_wait_env (sample_proc None))))) = [] /\
  alerts
    (since (length (trace (sample_proc None)))
       (trace (snd (main (with_group_gid (Some None) quiet_env)
                         (sample_proc None))))) = [].
Proof.
  split; [|split].
  - apply (proj1 (proj2 (main_alerts
                           (with_signals [sighup_ok; sigterm] quiet_env)
                           (sample_proc None)))
             [sighup_ok] sigterm []).
    + reflexivity.
    + reflexivity.
    + repeat constructor; discriminate.
    + right. split; [reflexivity|]. by right.
  - apply (proj1 (proj2 (main_alerts failing_wait_env (sample_proc None)))
             [] {| wait_error := 4; wait_sig := 0; disk := None |} []).
    + reflexivity.
    + reflexivity.
    + constructor.
    + left. discriminate.
  - apply (proj1 (main_alerts (with_group_gid (Some None) quiet_env)
                    (sample_proc None))).
    left. discriminate.
Defined.

(** ** The registry of loggers *)

Lemma foldl_keeps {A} (R : proc -> proc -> Prop) (step : A -> proc -> proc)
    (l : list A) p :
  (forall p, R p p) ->
  (forall p1 p2 p3, R p1 p2 -> R p2 p3 -> R p1 p3) ->
  (forall x p, R p (step x p)) ->
  R p (foldl (fun p x => step x p) p l).
Proof.
  intros Hrefl Htrans H. revert p. induction l as [|x l IH]; intros p; [done|].
  cbn. eapply Htrans; [apply H|apply IH].
Qed.

(** A relation that holds across every step of [initialize_loggers] holds
    across [initialize_loggers]. *)
Lemma after_initialize_loggers_keeps E (R : proc -> proc -> Prop)
    use_stderr levels p :
  (forall p, R p p) ->
  (forall p1 p2 p3, R p1 p2 -> R p2 p3 -> R p1 p3) ->
  (forall k p, R p (logged [EvEnumerate k] p)) ->
  (forall f p, R p (after_syslog_section E f p)) ->
  (forall f p, R p (after_filelog_section E f p)) ->
  (forall p, R p (after_default_loggers E use_stderr levels p)) ->
  R p (after_initialize_loggers E use_stderr levels p).
Proof.
  intros Hrefl Htrans Hlog Hsys Hfile Hdef.
  unfold after_initialize_loggers. cbv zeta.
  set (p2 := foldl _ _ (section_names _ ["charon"; "syslog"])).
  assert (H2 : R p p2).
  { eapply Htrans; [apply (Hlog ["charon"; "syslog"])|].
    by apply (foldl_keeps R (after_syslog_section E)). }
  set (p4 := foldl _ _ (section_names _ ["charon"; "filelog"])).
  assert (H4 : R p p4).
  { eapply Htrans; [exact H2|].
    eapply Htrans; [apply (Hlog ["charon"; "filelog"])|].
    by apply (foldl_keeps R (after_filelog_section E)). }
  destruct (_ =? 0)%nat; [|done].
  eapply Htrans; [exact H4|apply Hdef].
Qed.

Lemma initialize_loggers_tracked E use_stderr levels p :
  bus_listeners p ≡ₚ sys_loggers p ++ file_loggers p ->
  bus_listeners (after_initialize_loggers E use_stderr levels p) ≡ₚ
  sys_loggers (after_initialize_loggers E use_stderr levels p) ++
  file_loggers (after_initialize_loggers E use_stderr levels p).
Proof.
  apply (after_initialize_loggers_keeps E
           (fun p p' =>
              bus_listeners p ≡ₚ sys_loggers p ++ file_loggers p ->
              bus_listeners p' ≡ₚ sys_loggers p' ++ file_loggers p')).
  - done.
  - auto.
  - done.
  - intros f q H. unfold after_syslog_section.
    destruct (facility_of f); [|done]. cbn. rewrite H. solve_Permutation.
  - intros f q H. unfold after_filelog_section.
    destruct (file_stream_of E (settings q) f); [|done].
    cbn. rewrite H. solve_Permutation.
  - intros q H. cbn. rewrite H. solve_Permutation.
Qed.

Lemma initialize_loggers_frame E use_stderr levels p :
  let p' := after_initialize_loggers E use_stderr levels p in
  charon_uid p' = charon_uid p /\ charon_gid p' = charon_gid p /\
  egid p' = egid p.
Proof.
  apply (after_initialize_loggers_keeps E
           (fun p p' =>
              charon_uid p' = charon_uid p /\ charon_gid p' = charon_gid p /\
              egid p' = egid p)); try done.
  - intros p1 p2 p3 (?&?&?) (?&?&?). repeat split; congruence.
  - intros f q. unfold after_syslog_section. by destruct (facility_of f).
  - intros f q. unfold after_filelog_section.
    by destruct (file_stream_of E (settings q) f).
Qed.

Lemma added_listeners_app t1 t2 :
  added_listeners (t1 ++ t2) = added_listeners t1 ++ added_listeners t2.
Proof.
  induction t1 as [|e t1 IH]; [done|]. destruct e; cbn; by rewrite ?IH.
Qed.

Lemma added_listeners_level_queries E section :
  added_listeners (level_queries E section) = [].
Proof.
  unfold level_queries. cbn. by induction (groups E).
Qed.

Lemma added_listeners_file_open E s f :
  added_listeners (file_open_events E s f) = [].
Proof.
  unfold file_open_events.
  destruct (is_sentinel f); [done|]. cbn.
  destruct (openable E f); [|done]. cbn. by destruct (default false _).
Qed.

#[local] Arguments level_queries : simpl never.
#[local] Arguments file_open_events : simpl never.

(** Every listener on the bus was added by a call of add_listener, and
    every such call put its logger on the bus. *)
Lemma initialize_loggers_listeners E use_stderr levels p :
  exists evs,
    trace (after_initialize_loggers E use_stderr levels p) = trace p ++ evs /\
    bus_listeners (after_initialize_loggers E use_stderr levels p) =
      bus_listeners p ++ added_listeners evs.
Proof.
  apply (after_initialize_loggers_keeps E
           (fun p p' =>
              exists evs,
                trace p' = trace p ++ evs /\
                bus_listeners p' = bus_listeners p ++ added_listeners evs)).
  - intros q. exists []. by rewrite !app_nil_r.
  - intros p1 p2 p3 (e1 & Ht1 & Hb1) (e2 & Ht2 & Hb2). exists (e1 ++ e2).
    rewrite Ht2, Ht1, Hb2, Hb1, added_listeners_app. by rewrite !app_assoc.
  - intros k q. eexists. split; [reflexivity|]. cbn. by rewrite app_nil_r.
  - intros f q. unfold after_syslog_section, syslog_events.
    destruct (facility_of f); eexists; (split; [reflexivity|]); cbn.
    + by rewrite added_listeners_app, added_listeners_level_queries.
    + by rewrite app_nil_r.
  - intros f q. unfold after_filelog_section, filelog_events.
    destruct (file_stream_of E (settings q) f);
      eexists; (split; [reflexivity|]); cbn.
    + rewrite added_listeners_app, added_listeners_file_open. cbn.
      by rewrite added_listeners_app, added_listeners_level_queries.
    + by rewrite added_listeners_file_open, app_nil_r.
  - intros q. eexists. split; [reflexivity|]. reflexivity.
Qed.

(** X14.  [initialize_loggers] keeps the registry of loggers in order: if
    before it the bus lists no logger twice, every listener is a logger
    that exists, and the listeners are those kept in charon->sys_loggers
    and charon->file_loggers, then the same holds after it, whatever the
    configuration. *)
Theorem initialize_loggers_registry_ok E use_stderr levels p :
  registry_ok p ->
  registry_ok (snd (initialize_loggers E use_stderr levels p)).
Proof.
  intros (Hnd & Hlt & Hperm). rewrite initialize_loggers_run. cbn [snd].
  destruct (initialize_loggers_registers E use_stderr levels p)
    as (evs & (_ & Hh & Hb & _) & _).
  split; [|split].
  - rewrite Hb. apply NoDup_app. split; [done|]. split; [|apply NoDup_seq].
    intros a Ha Hs. apply elem_of_seq in Hs.
    rewrite Forall_forall in Hlt. specialize (Hlt a Ha). lia.
  - rewrite Hb, Hh, length_app. apply Forall_app. split.
    + eapply Forall_impl; [exact Hlt|]. intros a Ha. cbn in Ha. lia.
    + apply Forall_forall. intros a Ha. apply elem_of_seq in Ha. lia.
  - by apply initialize_loggers_tracked.
Qed.

Lemma initialize_loggers_registry_ok_witness :
  registry_ok (snd (initialize_loggers quiet_env true
                      (replicate 14 LEVEL_CTRL) configured_proc)).
Proof.
  apply (initialize_loggers_registry_ok quiet_env true
           (replicate 14 LEVEL_CTRL) configured_proc).
  split; [constructor|]. split; [constructor|]. reflexivity.
Defined.

(** X15.  [initialize_loggers] only appends.  The loggers and the
    listeners that were there stay, unchanged and in place; the new
    loggers are those of the sections of charon.syslog, then those of the
    sections of charon.filelog, each in the order of its enumeration, and
    the three default loggers only when neither has a section; each new
    logger is added to the bus once, in that order.  The settings, the
    marker and the credentials are not changed. *)
Theorem initialize_loggers_registry E use_stderr levels p :
  let p' := snd (initialize_loggers E use_stderr levels p) in
  let s := settings p in
  let new :=
    omap (syslog_built E s) (section_names s ["charon"; "syslog"]) ++
    omap (filelog_built E s) (section_names s ["charon"; "filelog"]) ++
    (if bool_decide (section_names s ["charon"; "syslog"] = [] /\
                     section_names s ["charon"; "filelog"] = [])
     then default_heap E use_stderr levels else []) in
  heap p' = heap p ++ new /\
  bus_listeners p' =
    bus_listeners p ++ seq (length (heap p)) (length new) /\
  added_listeners (since (length (trace p)) (trace p')) =
    seq (length (heap p)) (length new) /\
  settings p' = settings p /\ same_host p p' /\
  charon_uid p' = charon_uid p /\ charon_gid p' = charon_gid p /\
  egid p' = egid p.
Proof.
  cbv zeta. rewrite initialize_loggers_run. cbn [snd].
  destruct (initialize_loggers_registers E use_stderr levels p)
    as (evs & (Hs & Hh & Hb & _) & _).
  destruct (initialize_loggers_listeners E use_stderr levels p)
    as (evs' & Ht' & Hb').
  assert (Hadd : added_listeners (since (length (trace p))
                   (trace (after_initialize_loggers E use_stderr levels p))) =
                 seq (length (heap p))
                   (length (built_loggers E use_stderr levels (settings p)))).
  { rewrite Ht', since_app. rewrite Hb' in Hb. by apply app_inv_head in Hb. }
  assert (Hnew : built_loggers E use_stderr levels (settings p) =
    omap (syslog_built E (settings p))
         (section_names (settings p) ["charon"; "syslog"]) ++
    omap (filelog_built E (settings p))
         (section_names (settings p) ["charon"; "filelog"]) ++
    (if bool_decide (section_names (settings p) ["charon"; "syslog"] = [] /\
                     section_names (settings p) ["charon"; "filelog"] = [])
     then default_heap E use_stderr levels else [])).
  { unfold built_loggers. cbv zeta.
    destruct (section_names (settings p) ["charon"; "syslog"]),
      (section_names (settings p) ["charon"; "filelog"]);
      case_bool_decide as H; try done; by destruct H. }
  rewrite <- Hnew.
  split; [done|]. split; [done|]. split; [done|]. split; [done|].
  split; [apply same_host_initialize_loggers|].
  apply initialize_loggers_frame.
Qed.

Lemma omap_none {A B} (f : A -> option B) (l : list A) :
  Forall (fun x => f x = None) l -> omap f l = [].
Proof.
  induction 1 as [|x l Hx _ IH]; [done|].
  change (omap f (x :: l)) with
    (match f x with Some y => y :: omap f l | None => omap f l end).
  by rewrite Hx.
Qed.

(** X16.  The default loggers are set up only when charon.syslog and
    charon.filelog have no section at all.  If there are sections but none
    gives a logger, because every syslog section names a facility other
    than daemon and auth and no log file can be opened, then
    [initialize_loggers] adds no listener to the bus and creates no
    logger: the daemon is left without any logger. *)
Theorem no_logger_without_defaults E use_stderr levels p :
  let s := settings p in
  let p' := snd (initialize_loggers E use_stderr levels p) in
  section_names s ["charon"; "syslog"] <> [] \/
  section_names s ["charon"; "filelog"] <> [] ->
  Forall (fun f => facility_of f = None)
         (section_names s ["charon"; "syslog"]) ->
  Forall (fun f => file_stream_of E s f = None)
         (section_names s ["charon"; "filelog"]) ->
  heap p' = heap p /\ bus_listeners p' = bus_listeners p /\
  added_listeners (since (length (trace p)) (trace p')) = [].
Proof.
  cbv zeta. intros Hne Hsys Hfile. rewrite initialize_loggers_run. cbn [snd].
  destruct (initialize_loggers_registers E use_stderr levels p)
    as (evs & (Hs & Hh & Hb & Ht) & HQ).
  assert (Hnew : built_loggers E use_stderr levels (settings p) = []).
  { unfold built_loggers. cbv zeta.
    rewrite (omap_none (syslog_built E (settings p)))
      by (eapply Forall_impl; [exact Hsys|];
          intros f Hf; unfold syslog_built; by rewrite Hf).
    rewrite (omap_none (filelog_built E (settings p)))
      by (eapply Forall_impl; [exact Hfile|];
          intros f Hf; unfold filelog_built; by rewrite Hf).
    destruct (section_names (settings p) ["charon"; "syslog"]),
      (section_names (settings p) ["charon"; "filelog"]); try done.
    by destruct Hne. }
  rewrite Hnew in Hh, Hb. rewrite app_nil_r in Hh, Hb.
  split; [done|]. split; [done|].
  destruct (initialize_loggers_listeners E use_stderr levels p)
    as (evs' & Ht' & Hb').
  rewrite Ht', since_app. rewrite Hb' in Hb.
  rewrite <- (app_nil_r (bus_listeners p)) in Hb at 2.
  by apply app_inv_head in Hb.
Qed.

Lemma no_logger_without_defaults_witness :
  heap (snd (initialize_loggers
               (with_openable (fun _ => false) quiet_env) true
               (replicate 14 LEVEL_CTRL)
               (set_settings unusable_settings (sample_proc None)))) =
    heap (set_settings unusable_settings (sample_proc None)) /\
  bus_listeners (snd (initialize_loggers
               (with_openable (fun _ => false) quiet_env) true
               (replicate 14 LEVEL_CTRL)
               (set_settings unusable_settings (sample_proc None)))) =
    bus_listeners (set_settings unusable_settings (sample_proc None)) /\
  added_listeners
    (since (length (trace (set_settings unusable_settings (sample_proc None))))
       (trace (snd (initialize_loggers
               (with_openable (fun _ => false) quiet_env) true
               (replicate 14 LEVEL_CTRL)
               (set_settings unusable_settings (sample_proc None)))))) = [].
Proof.
  apply (no_logger_without_defaults
           (with_openable (fun _ => false) quiet_env) true
           (replicate 14 LEVEL_CTRL)
           (set_settings unusable_settings (sample_proc None))).
  - left. discriminate.
  - repeat constructor.
  - repeat constructor.
Defined.

(** ** Opening the log files *)

Lemma foldl_events_in {A} (events : A -> proc -> list event)
    (step : A -> proc -> proc) (l : list A) (p : proc) (x : A) :
  (forall x p, trace (step x p) = trace p ++ events x p /\
               settings (step x p) = settings p) ->
  x ∈ l ->
  exists q pre post,
    settings q = settings p /\
    trace (foldl (fun p x => step x p) p l) =
      trace p ++ pre ++ events x q ++ post.
Proof.
  intros Hstep. revert p. induction l as [|y l IH]; intros p Hin.
  { by apply elem_of_nil in Hin. }
  assert (Hext : forall q, exists evs,
            trace (foldl (fun p x => step x p) q l) = trace q ++ evs).
  { clear -Hstep. induction l as [|z l IH]; intros q.
    - exists []. by rewrite app_nil_r.
    - cbn. destruct (IH (step z q)) as (evs & ->).
      destruct (Hstep z q) as [-> _]. eexists. by rewrite <- app_assoc. }
  apply elem_of_cons in Hin as [->|Hin].
  - destruct (Hext (step y p)) as (evs & Ht).
    exists p, [], evs. split; [done|]. cbn [foldl app].
    rewrite Ht. destruct (Hstep y p) as [-> _]. by rewrite <- app_assoc.
  - destruct (IH (step y p) Hin) as (q & pre & post & Hs & Ht).
    destruct (Hstep y p) as [Hty Hsy].
    exists q, (events y p ++ pre), post. split; [congruence|].
    cbn [foldl]. rewrite Ht, Hty. by rewrite <- !app_assoc.
Qed.

Lemma filelog_events_in E use_stderr levels p f :
  f ∈ section_names (settings p) ["charon"; "filelog"] ->
  exists a pre post,
    trace (after_initialize_loggers E use_stderr levels p) =
    trace p ++ pre ++ filelog_events E (settings p) f a ++ post.
Proof.
  intros Hin. unfold after_initialize_loggers. cbv zeta.
  set (p1 := logged [EvEnumerate ["charon"; "syslog"]] p).
  set (p2 := foldl _ p1 _).
  destruct (registers_foldl (syslog_built E)
              (fun f p => syslog_events E f (length (heap p)))
              (after_syslog_section E)
              (section_names (settings p1) ["charon"; "syslog"]) p1)
    as (e2 & (Hs2 & _ & _ & Ht2) & _); [intros; apply registers_syslog|].
  fold p2 in Hs2, Ht2.
  set (p3 := logged [EvEnumerate ["charon"; "filelog"]] p2).
  assert (Hs3 : settings p3 = settings p) by exact Hs2.
  rewrite Hs3.
  destruct (foldl_events_in
              (fun f q => filelog_events E (settings q) f (length (heap q)))
              (after_filelog_section E)
              (section_names (settings p) ["charon"; "filelog"]) p3 f)
    as (q & pre & post & Hsq & Ht4); [|done|].
  { intros x q. split; apply registers_filelog. }
  cbv beta in Ht4. rewrite Hsq, Hs3 in Ht4.
  set (p4 := foldl _ p3 _) in *.
  assert (Ht3 : trace p3 =
                trace p ++ [EvEnumerate ["charon"; "syslog"]] ++ e2 ++
                [EvEnumerate ["charon"; "filelog"]]).
  { subst p3. rewrite trace_logged, Ht2. subst p1.
    rewrite trace_logged. by rewrite <- !app_assoc. }
  destruct (_ =? 0)%nat.
  - exists (length (heap q)),
      ([EvEnumerate ["charon"; "syslog"]] ++ e2 ++
       [EvEnumerate ["charon"; "filelog"]] ++ pre),
      (post ++ default_events (length (heap p4))).
    destruct (registers_default E use_stderr levels p4) as (_ & _ & _ & ->).
    rewrite Ht4, Ht3. by rewrite <- !app_assoc.
  - exists (length (heap q)),
      ([EvEnumerate ["charon"; "syslog"]] ++ e2 ++
       [EvEnumerate ["charon"; "filelog"]] ++ pre), post.
    rewrite Ht4, Ht3. by rewrite <- !app_assoc.
Qed.

Lemma length_omap_le {A B} (f : A -> option B) (l : list A) :
  (length (omap f l) <= length l)%nat.
Proof.
  induction l as [|x l IH]; [done|].
  change (omap f (x :: l)) with
    (match f x with Some y => y :: omap f l | None => omap f l end).
  destruct (f x); cbn; lia.
Qed.

Lemma length_omap_lt {A B} (f : A -> option B) (l : list A) (x : A) :
  x ∈ l -> f x = None -> (length (omap f l) < length l)%nat.
Proof.
  induction l as [|y l IH]; intros Hin Hx; [by apply elem_of_nil in Hin|].
  change (omap f (y :: l)) with
    (match f y with Some z => z :: omap f l | None => omap f l end).
  apply elem_of_cons in Hin as [->|Hin].
  - rewrite Hx. pose proof (length_omap_le f l). cbn. lia.
  - specialize (IH Hin Hx). destruct (f y); cbn; lia.
Qed.

(** The sink of a logger built for a section of charon.filelog is on a
    path only if the path is the name of the section and the file could
    be opened. *)
Lemma filelog_built_path E s f l path mode tf :
  filelog_built E s f = Some l ->
  lg_sink l = FileSink (Path path mode) tf ->
  path = f /\ openable E f = true.
Proof.
  unfold filelog_built, file_stream_of.
  destruct (String.eqb f "stderr"); [by intros [= <-]|].
  destruct (String.eqb f "stdout"); [by intros [= <-]|].
  destruct (openable E f); [|done].
  intros [= <-]. cbn. by intros [= -> _ _].
Qed.

(** X17.  For every section of charon.filelog whose name is neither
    stderr nor stdout, [initialize_loggers] opens the file of that name,
    for appending unless the section sets append to no, in which case the
    file is opened for writing and so truncated.  If the file cannot be
    opened, this is logged and the section gives no logger: none of the
    loggers created has its sink on that path, fewer loggers are created
    than there are sections, and only the loggers created are added to
    the bus.  If the file can be opened and the section sets flush_line,
    the stream is made line buffered. *)
Theorem filelog_opening E use_stderr levels p filename :
  let s := settings p in
  let section := ["charon"; "filelog"; filename] in
  let p' := snd (initialize_loggers E use_stderr levels p) in
  let t := since (length (trace p)) (trace p') in
  let created := drop (length (heap p)) (heap p') in
  filename ∈ section_names s ["charon"; "filelog"] ->
  is_sentinel filename = false ->
  In (EvFopenLog filename
        (if default true (bool_value s (section ++ ["append"]))
         then "a" else "w")
        (openable E filename)) t /\
  (openable E filename = false ->
   In (EvLog "opening file %s for logging failed: %s") t /\
   Forall (fun l => forall mode time_format,
                      lg_sink l <> FileSink (Path filename mode) time_format)
          created /\
   (length created <
    length (section_names s ["charon"; "syslog"]) +
    length (section_names s ["charon"; "filelog"]))%nat /\
   length (bus_listeners p') =
     (length (bus_listeners p) + length created)%nat /\
   length (added_listeners t) = length created) /\
  (openable E filename = true ->
   default false (bool_value s (section ++ ["flush_line"])) = true ->
   In (EvSetlinebuf filename) t).
Proof.
  cbv zeta. intros Hin Hsent. rewrite initialize_loggers_run. cbn [snd].
  destruct (filelog_events_in E use_stderr levels p filename Hin)
    as (a & pre & post & Htr).
  rewrite Htr, since_app.
  assert (Hsub : forall e,
            In e (file_open_events E (settings p) filename) ->
            In e (pre ++ filelog_events E (settings p) filename a ++ post)).
  { intros e He. apply in_or_app. right. apply in_or_app. left.
    unfold filelog_events.
    destruct (file_stream_of E (settings p) filename); [|done].
    apply in_or_app. by left. }
  assert (Hstream : openable E filename = false ->
                    file_stream_of E (settings p) filename = None).
  { intros Ho. unfold file_stream_of, is_sentinel in *.
    apply orb_false_iff in Hsent as [-> ->]. by rewrite Ho. }
  unfold file_open_events in Hsub. rewrite Hsent in Hsub.
  split; [|split].
  - apply Hsub. right. by left.
  - intros Ho. split.
    { apply Hsub. rewrite Ho. right. right. by left. }
    destruct (initialize_loggers_registers E use_stderr levels p)
      as (evs & (_ & Hh & Hb & _) & _).
    destruct (initialize_loggers_listeners E use_stderr levels p)
      as (evs' & Ht' & Hb').
    rewrite Hh, drop_app_length, Hb, length_app, length_seq.
    assert (Hadd : added_listeners
                     (pre ++ filelog_events E (settings p) filename a ++ post) =
                   seq (length (heap p))
                     (length (built_loggers E use_stderr levels (settings p)))).
    { rewrite Htr in Ht'. apply app_inv_head in Ht'. rewrite Ht'.
      rewrite Hb' in Hb. by apply app_inv_head in Hb. }
    rewrite Hadd, length_seq.
    unfold built_loggers. cbv zeta.
    set (facilities := section_names (settings p) ["charon"; "syslog"]).
    set (filenames := section_names (settings p) ["charon"; "filelog"]) in *.
    assert (Hdef : match facilities, filenames with
                   | [], [] => default_heap E use_stderr levels
                   | _, _ => []
                   end = []).
    { destruct facilities, filenames; try done. by apply elem_of_nil in Hin. }
    rewrite Hdef, app_nil_r.
    split; [|split; [|done]].
    + apply Forall_app. split; apply Forall_forall; intros l Hl mode tf Hsink;
        apply list_elem_of_omap in Hl as (f & Hf & Hbuilt).
      * unfold syslog_built in Hbuilt.
        destruct (facility_of f); [|done].
        injection Hbuilt as <-. discriminate Hsink.
      * destruct (filelog_built_path E _ f l filename mode tf Hbuilt Hsink)
          as [-> Ho']. congruence.
    + rewrite length_app.
      pose proof (length_omap_le (syslog_built E (settings p)) facilities).
      assert (filelog_built E (settings p) filename = None)
        by (unfold filelog_built; by rewrite Hstream).
      pose proof (length_omap_lt (filelog_built E (settings p)) filenames
                    filename Hin ltac:(done)).
      lia.
  - intros Ho Hfl. apply Hsub. rewrite Ho, Hfl. right. right. right. by left.
Qed.

Lemma filelog_opening_witness :
  In (EvLog "opening file %s for logging failed: %s")
     (since (length (trace (set_settings unusable_settings (sample_proc None))))
        (trace (snd (initialize_loggers
                       (with_openable (fun _ => false) quiet_env) true
                       (replicate 14 LEVEL_CTRL)
                       (set_settings unusable_settings (sample_proc None)))))) /\
  (length (drop (length (heap (set_settings unusable_settings
                                 (sample_proc None))))
             (heap (snd (initialize_loggers
                           (with_openable (fun _ => false) quiet_env) true
                           (replicate 14 LEVEL_CTRL)
                           (set_settings unusable_settings
                              (sample_proc None)))))) < 1 + 1)%nat.
Proof.
  destruct (filelog_opening (with_openable (fun _ => false) quiet_env) true
              (replicate 14 LEVEL_CTRL)
              (set_settings unusable_settings (sample_proc None))
              "/var/log/charon.log")
    as (_ & Hfail & _).
  - cbn. constructor.
  - reflexivity.
  - destruct Hfail as (Hlog & _ & Hlen & _); [reflexivity|].
    split; [exact Hlog|exact Hlen].
Defined.

(** ** From the stages to the guard *)

Lemma lookup_uid_gid_ok E p :
  passwd_uid E <> Some None -> group_gid E <> Some None ->
  lookup_uid_gid E p =
  (true, set_charon_uid (resolved_uid E (charon_uid p))
           (set_charon_gid (resolved_gid E (charon_gid p)) p)).
Proof.
  intros Hu Hg. destruct p. unfold lookup_uid_gid, resolved_uid, resolved_gid.
  destruct (passwd_uid E) as [[u|]|], (group_gid E) as [[g|]|],
    (android_uid E) as [a|]; try done.
Qed.

Lemma lookup_uid_gid_fails E p :
  passwd_uid E = Some None \/ group_gid E = Some None ->
  exists p',
    lookup_uid_gid E p = (false, logged [unresolved_log E] p') /\
    trace p' = trace p /\ same_host p p' /\ heap p' = heap p /\
    bus_listeners p' = bus_listeners p /\ settings p' = settings p.
Proof.
  intros H. destruct p. unfold lookup_uid_gid, unresolved_log.
  destruct (passwd_uid E) as [[u|]|], (group_gid E) as [[g|]|];
    try (by destruct H); eexists; (split; [reflexivity|done]).
Qed.

(** The start-up from the stages to the initialization of the daemon,
    when nothing fails on the way. *)
Lemma startup_initialize_state E p :
  library_init_ok E = true -> integrity E <> Some false ->
  libhydra_init_ok E = true -> libcharon_init_ok E = true ->
  forallb is_flag (options E) = true ->
  passwd_uid E <> Some None -> group_gid E <> Some None ->
  exists lv p3,
    startup E p =
      (if negb (charon_initialize_ok E)
       then DBG1 "initialization failed - aborting charon" ;;
            abort (deinit (SS_RC_INITIALIZATION_FAILED E))
       else claim_and_start E) p3 /\
    length lv = DBG_MAX E /\
    (forall g, (g < DBG_MAX E)%nat ->
               lv !! g = Some (last_level g (options E) LEVEL_CTRL)) /\
    silent (logged (stage_events E) p) p3 /\ same_host p p3 /\
    egid p3 = egid p /\
    charon_uid p3 = resolved_uid E (charon_uid p) /\
    charon_gid p3 = resolved_gid E (charon_gid p) /\
    settings p3 = settings p /\
    heap p3 =
      heap p ++ built_loggers E (negb (existsb is_use_syslog (options E)))
                  lv (settings p) /\
    bus_listeners p3 =
      bus_listeners p ++
      seq (length (heap p))
          (length (built_loggers E (negb (existsb is_use_syslog (options E)))
                     lv (settings p))).
Proof.
  intros H1 H2 H3 H4 H5 H6 H7. pass_stages H1 H2 H3 H4.
  set (p0 := logged (stage_events E) p).
  destruct (handle_arguments_run_flags E (options E) false
              (replicate (DBG_MAX E) LEVEL_CTRL) p0 H5)
    as (lv & Hargs & Hlen & Hlv).
  rewrite length_replicate in Hlen. cbn [orb] in Hargs.
  erewrite bind_pair by exact Hargs. cbv beta iota.
  erewrite bind_pair by (by apply lookup_uid_gid_ok). cbn [negb].
  erewrite bind_pair by apply initialize_loggers_run.
  erewrite bind_pair by apply emit_run. cbv beta iota.
  set (us := existsb is_use_syslog (options E)) in *.
  set (q1 := set_charon_uid _ _).
  pose proof (initialize_loggers_silent E (negb us) lv q1) as Hsil.
  pose proof (same_host_initialize_loggers E (negb us) lv q1) as Hsame.
  pose proof (initialize_loggers_frame E (negb us) lv q1) as Hfr.
  destruct (initialize_loggers_registers E (negb us) lv q1)
    as (evs & (Hs & Hh & Hb & _) & _).
  set (q2 := after_initialize_loggers E (negb us) lv q1) in *.
  cbv zeta in Hfr. destruct Hfr as (Hcu & Hcg & Heg).
  exists lv, (logged [EvCharonInitialize (charon_initialize_ok E)] q2).
  split; [done|]. split; [done|]. split.
  { intros g Hg. apply Hlv. apply lookup_replicate. done. }
  split.
  { eapply silent_trans; [|by apply silent_logged; repeat constructor].
    eapply silent_trans; [|exact Hsil]. exists [].
    rewrite app_nil_r. split; [reflexivity|]. split; [constructor|reflexivity]. }
  split.
  { eapply same_host_trans; [|eapply same_host_trans; [exact Hsame|done]].
    subst q1 p0. by destruct p. }
  subst q1 p0. destruct p. cbn in *. done.
Qed.

Lemma marker_logged evs p : marker (logged evs p) = marker p.
Proof. reflexivity. Qed.

Lemma pidfile_logged evs p : pidfile (logged evs p) = pidfile p.
Proof. reflexivity. Qed.

Lemma egid_logged evs p : egid (logged evs p) = egid p.
Proof. reflexivity. Qed.

Lemma euid_logged evs p : euid (logged evs p) = euid p.
Proof. reflexivity. Qed.

Lemma heap_logged evs p : heap (logged evs p) = heap p.
Proof. reflexivity. Qed.

Lemma bus_listeners_logged evs p :
  bus_listeners (logged evs p) = bus_listeners p.
Proof. reflexivity. Qed.

(** The guard and the drop of privileges, when no other instance is seen
    running. *)
Lemma claim_and_start_state E q :
  seen_running E q = false ->
  exists q',
    claim_and_start E q =
      (if can_drop E (charon_gid q) (charon_uid q) then Started
       else Aborted (SS_RC_INITIALIZATION_FAILED E), q') /\
    (can_drop E (charon_gid q) (charon_uid q) = true -> silent q q') /\
    marker q' = created E (euid q) (unlinked E (euid q) (marker q)) /\
    pidfile q' = (if may_write E (euid q) then OpenW else NULLp) /\
    egid q' = (if setgid_ok E (charon_gid q) then charon_gid q else egid q) /\
    euid q' = (if setgid_ok E (charon_gid q) && setuid_ok E (charon_uid q)
               then charon_uid q else euid q) /\
    heap q' = heap q /\ bus_listeners q' = bus_listeners q /\
    settings q' = settings q /\
    (can_drop E (charon_gid q) (charon_uid q) = false ->
     existsb changes_marker
       (since (length (trace (snd (check_pidfile E q)))) (trace q')) = false).
Proof.
  intros Hrun. unfold claim_and_start, can_drop.
  destruct (check_pidfile_general E q)
    as (e1 & Hc & Ht1 & HF1 & Ha1 & _ & Hm & Hf & Heu & Heg & Hcu & Hcg &
        Hh & Hb & Hs).
  rewrite Hrun in Hc, Hm, Hf.
  erewrite bind_pair by exact Hc. cbv beta iota.
  set (q1 := snd (check_pidfile E q)) in *.
  destruct (drop_capabilities_trace E q1) as [Hd Hdt].
  pose proof (drop_capabilities_silent E q1) as Hds.
  pose proof (drop_capabilities_state E q1) as Hst. cbv zeta in Hst.
  destruct Hst as (Hg2 & Hu2 & _ & Hm2 & Hf2 & Hcu2 & Hcg2 & Hh2 & Hb2 & Hs2).
  erewrite bind_pair by exact Hd.
  set (q2 := snd (drop_capabilities E q1)) in *.
  rewrite Hcg, Hcu in *. rewrite Heg in Hg2. rewrite Heu in Hu2.
  assert (Hq1 : silent q q1) by (by exists e1).
  destruct (setgid_ok E (charon_gid q) && setuid_ok E (charon_uid q) &&
            caps_ok E) eqn:Hok; cbn [negb].
  - unfold install_signal_handlers.
    erewrite bind_pair by apply emit_run. cbv beta iota.
    erewrite bind_pair by apply emit_run. cbv beta iota.
    rewrite ret_run, logged_logged.
    eexists. split; [reflexivity|]. split.
    { intros _.
      eapply silent_trans; [exact Hq1|]. eapply silent_trans; [exact Hds|].
      by apply silent_logged; repeat constructor. }
    rewrite ?marker_logged, ?pidfile_logged, ?egid_logged, ?euid_logged,
      ?heap_logged, ?bus_listeners_logged, ?settings_logged.
    repeat split; try congruence.
  - erewrite bind_pair by apply DBG1_run. rewrite abort_deinit, logged_logged.
    eexists. split; [reflexivity|]. split; [done|].
    rewrite ?marker_logged, ?pidfile_logged, ?egid_logged, ?euid_logged,
      ?heap_logged, ?bus_listeners_logged, ?settings_logged.
    do 7 (split; [congruence|]).
    intros _. rewrite trace_logged, Hdt, <- app_assoc, since_app.
    unfold drop_trace.
    destruct (HAVE_PRCTL E); destruct (setgid_ok E (charon_gid q));
      try destruct (setuid_ok E (charon_uid q)); try destruct (caps_ok E);
      reflexivity.
Qed.

(** ** When the daemon is started *)

Lemma startup_option_exit E p flags o rest :
  library_init_ok E = true -> integrity E <> Some false ->
  libhydra_init_ok E = true -> libcharon_init_ok E = true ->
  options E = flags ++ o :: rest ->
  forallb is_flag flags = true -> is_flag o = false ->
  startup E p =
  (Aborted (option_status o),
   logged (stage_events E ++ option_prints o ++ deinit_events) p).
Proof.
  intros H1 H2 H3 H4 Ho Hf Hterm.
  pass_stages H1 H2 H3 H4. rewrite Ho.
  erewrite bind_pair by (by apply handle_arguments_terminal).
  cbv beta iota. rewrite abort_deinit, !logged_logged.
  by rewrite app_assoc.
Qed.

Lemma startup_identity_fails E p :
  library_init_ok E = true -> integrity E <> Some false ->
  libhydra_init_ok E = true -> libcharon_init_ok E = true ->
  forallb is_flag (options E) = true ->
  passwd_uid E = Some None \/ group_gid E = Some None ->
  exists p',
    startup E p = (Aborted (SS_RC_INITIALIZATION_FAILED E), p') /\
    trace p' =
      trace p ++ stage_events E ++
      [unresolved_log E; EvLog "invalid uid/gid - aborting charon"] ++
      deinit_events /\
    same_host p p' /\ heap p' = heap p /\
    bus_listeners p' = bus_listeners p /\ settings p' = settings p.
Proof.
  intros H1 H2 H3 H4 H5 Hid. pass_stages H1 H2 H3 H4.
  set (p0 := logged (stage_events E) p).
  destruct (handle_arguments_flags E (options E) false
              (replicate (DBG_MAX E) LEVEL_CTRL) p0 H5)
    as (us & lv & Hargs).
  erewrite bind_pair by exact Hargs. cbv beta iota.
  destruct (lookup_uid_gid_fails E p0 Hid)
    as (q & Hl & Ht & Hsame & Hh & Hb & Hs).
  erewrite bind_pair by exact Hl. cbn [negb].
  erewrite bind_pair by apply emit_run. cbv beta iota.
  rewrite abort_deinit, !logged_logged.
  eexists. split; [reflexivity|].
  rewrite trace_logged, Ht, ?marker_logged, ?heap_logged,
    ?bus_listeners_logged, ?settings_logged.
  split; [subst p0; rewrite trace_logged; by rewrite <- !app_assoc|].
  split; [|done].
  eapply same_host_trans; [|eapply same_host_trans; [exact Hsame|done]]. done.
Qed.

Lemma claim_and_start_seen_running E q :
  seen_running E q = true ->
  exists q',
    claim_and_start E q = (Aborted (-1), q') /\
    marker q' = marker q /\ pidfile q' = Closed /\
    existsb changes_marker (since (length (trace q)) (trace q')) = false /\
    heap q' = heap q.
Proof.
  intros Hrun. unfold claim_and_start.
  destruct (check_pidfile_general E q)
    as (e1 & Hc & Ht1 & _ & _ & Hch & Hm & Hf & _ & _ & _ & _ & Hh & _).
  rewrite Hrun in Hc, Hm, Hf. specialize (Hch Hrun).
  erewrite bind_pair by exact Hc. cbv beta iota.
  erewrite bind_pair by apply DBG1_run. rewrite abort_deinit, logged_logged.
  eexists. split; [reflexivity|].
  rewrite marker_logged, pidfile_logged, heap_logged, trace_logged, Ht1,
    <- app_assoc, since_app, existsb_app, Hch.
  done.
Qed.

Lemma seen_running_same_host E p q :
  same_host p q -> seen_running E q = seen_running E p.
Proof. intros (Hm & _ & Hu). unfold seen_running. by rewrite Hm, Hu. Qed.

(** The start-up when everything it needs is there. *)
Lemma startup_can_start E p :
  can_start E p ->
  exists p',
    startup E p = (Started, p') /\
    euid p' = resolved_uid E (charon_uid p) /\
    egid p' = resolved_gid E (charon_gid p) /\
    marker p' = created E (euid p) (unlinked E (euid p) (marker p)) /\
    pidfile p' = (if may_write E (euid p) then OpenW else NULLp) /\
    settings p' = settings p /\
    silent (logged (stage_events E) p) p'.
Proof.
  intros (H1 & H2 & H3 & H4 & H5 & H6 & H7 & H8 & Hrun & Hdrop).
  destruct (startup_initialize_state E p H1 H2 H3 H4 H5 H6 H7)
    as (lv & p3 & Hst & _ & _ & Hsil & Hsame & Heg & Hcu & Hcg & Hs & _).
  rewrite H8 in Hst. cbn [negb] in Hst.
  rewrite <- (seen_running_same_host E p p3 Hsame) in Hrun.
  destruct (claim_and_start_state E p3 Hrun)
    as (p' & Hc & Hsil' & Hm & Hf & Heg' & Heu' & _ & _ & Hs' & _).
  rewrite Hcu, Hcg in *. rewrite Hdrop in Hc. specialize (Hsil' Hdrop).
  unfold can_drop in Hdrop.
  apply andb_true_iff in Hdrop as [Hdrop _].
  apply andb_true_iff in Hdrop as [Hg Hu].
  rewrite Hg in Heg', Heu'. rewrite Hu in Heu'. cbn in Heu'.
  destruct Hsame as (Hm3 & Hf3 & Hu3). rewrite Hm3, Hu3 in *.
  exists p'. split; [congruence|].
  repeat split; try congruence. by eapply silent_trans.
Qed.

Lemma started_can_start E p :
  fst (startup E p) = Started -> can_start E p.
Proof.
  intros Hst. unfold can_start.
  destruct (library_init_ok E) eqn:H1.
  2: { by rewrite startup_library_fails in Hst. }
  destruct (decide (integrity E = Some false)) as [H2|H2].
  { by rewrite startup_integrity_fails in Hst. }
  destruct (libhydra_init_ok E) eqn:H3.
  2: { by rewrite startup_libhydra_fails in Hst. }
  destruct (libcharon_init_ok E) eqn:H4.
  2: { by rewrite startup_libcharon_fails in Hst. }
  destruct (flags_split (options E))
    as [H5|(flags & o & rest & Ho & Hf & Hterm)].
  2: { by rewrite (startup_option_exit E p flags o rest) in Hst. }
  destruct (decide (passwd_uid E = Some None)) as [H6|H6].
  { destruct (startup_identity_fails E p H1 H2 H3 H4 H5 (or_introl H6))
      as (p' & Hab & _). by rewrite Hab in Hst. }
  destruct (decide (group_gid E = Some None)) as [H7|H7].
  { destruct (startup_identity_fails E p H1 H2 H3 H4 H5 (or_intror H7))
      as (p' & Hab & _). by rewrite Hab in Hst. }
  destruct (startup_initialize_state E p H1 H2 H3 H4 H5 H6 H7)
    as (lv & p3 & Hrun & _ & _ & _ & Hsame & _ & Hcu & Hcg & _).
  rewrite Hrun in Hst.
  destruct (charon_initialize_ok E) eqn:H8; cbn [negb] in Hst.
  2: { erewrite bind_pair in Hst by apply DBG1_run.
       by rewrite abort_deinit in Hst. }
  destruct (seen_running E p) eqn:H9.
  { rewrite <- (seen_running_same_host E p p3 Hsame) in H9.
    destruct (claim_and_start_seen_running E p3 H9) as (q' & Hab & _).
    by rewrite Hab in Hst. }
  rewrite <- (seen_running_same_host E p p3 Hsame) in H9.
  destruct (claim_and_start_state E p3 H9) as (q' & Hc & _).
  rewrite Hcu, Hcg in Hc. rewrite Hc in Hst.
  destruct (can_drop E _ _) eqn:H10; [|done].
  rewrite (seen_running_same_host E p p3 Hsame) in H9.
  done.
Qed.

(** X18.  [main] starts the daemon exactly when the three stages
    initialize, every option is a flag or a level, the user and the group
    resolve, the daemon initializes, no other instance is seen running,
    and the group, the user and the capabilities can be changed.  The
    started daemon runs as charon's user and group; its marker was
    written, if it could be, while the process still had the user it was
    started with, and the stream on it is still open. *)
Theorem startup_started_iff E p :
  (fst (startup E p) = Started <-> can_start E p) /\
  (can_start E p ->
   let p' := snd (startup E p) in
   euid p' = resolved_uid E (charon_uid p) /\
   egid p' = resolved_gid E (charon_gid p) /\
   marker p' = created E (euid p) (unlinked E (euid p) (marker p)) /\
   pidfile p' = (if may_write E (euid p) then OpenW else NULLp) /\
   settings p' = settings p).
Proof.
  split.
  - split; [apply started_can_start|].
    intros H. by destruct (startup_can_start E p H) as (p' & -> & _).
  - intros H. destruct (startup_can_start E p H) as (p' & -> & Hrest).
    cbn [snd]. tauto.
Qed.

Lemma startup_started_iff_witness :
  let p' := snd (startup quiet_env (sample_proc (Some "4242"))) in
  euid p' = resolved_uid quiet_env (charon_uid (sample_proc (Some "4242"))) /\
  egid p' = resolved_gid quiet_env (charon_gid (sample_proc (Some "4242"))) /\
  marker p' =
    created quiet_env (euid (sample_proc (Some "4242")))
      (unlinked quiet_env (euid (sample_proc (Some "4242")))
         (marker (sample_proc (Some "4242")))) /\
  pidfile p' =
    (if may_write quiet_env (euid (sample_proc (Some "4242")))
     then OpenW else NULLp) /\
  settings p' = settings (sample_proc (Some "4242")).
Proof.
  apply (proj2 (startup_started_iff quiet_env (sample_proc (Some "4242")))).
  unfold can_start.
  repeat split; try reflexivity; discriminate.
Defined.

(** ** Failures between the stages and the start *)

(** X19.  When the three stages initialize and the options are read but
    the user or the group of the daemon does not resolve, [main] logs
    which of the two failed and that it aborts, tears the three stages
    down in reverse order and returns the initialization status.  No
    logger has been created, nothing is on the bus, and the marker has
    not been looked at. *)
Theorem main_identity_failure E p :
  library_init_ok E = true -> integrity E <> Some false ->
  libhydra_init_ok E = true -> libcharon_init_ok E = true ->
  forallb is_flag (options E) = true ->
  passwd_uid E = Some None \/ group_gid E = Some None ->
  exists p',
    main E p = (Some (SS_RC_INITIALIZATION_FAILED E), p') /\
    since (length (trace p)) (trace p') =
      stage_events E ++
      [unresolved_log E; EvLog "invalid uid/gid - aborting charon"] ++
      deinit_events /\
    same_host p p' /\ heap p' = heap p /\
    bus_listeners p' = bus_listeners p.
Proof.
  intros H1 H2 H3 H4 H5 Hid.
  destruct (startup_identity_fails E p H1 H2 H3 H4 H5 Hid)
    as (p' & Hst & Ht & Hsame & Hh & Hb & _).
  exists p'. split; [by apply main_aborted|].
  rewrite Ht, since_app. done.
Qed.

Lemma main_identity_failure_witness :
  exists p',
    main (with_group_gid (Some None) quiet_env) (sample_proc (Some "4242")) =
      (Some (SS_RC_INITIALIZATION_FAILED
               (with_group_gid (Some None) quiet_env)), p') /\
    since (length (trace (sample_proc (Some "4242")))) (trace p') =
      stage_events (with_group_gid (Some None) quiet_env) ++
      [unresolved_log (with_group_gid (Some None) quiet_env);
       EvLog "invalid uid/gid - aborting charon"] ++
      deinit_events /\
    same_host (sample_proc (Some "4242")) p' /\
    heap p' = heap (sample_proc (Some "4242")) /\
    bus_listeners p' = bus_listeners (sample_proc (Some "4242")).
Proof.
  apply (main_identity_failure (with_group_gid (Some None) quiet_env)
           (sample_proc (Some "4242")));
    try reflexivity; try discriminate.
  by right.
Defined.

(** X20.  When the daemon itself fails to initialize, the loggers of the
    configuration have already been created and put on the bus, with the
    levels of the command line; [main] logs the failure, tears the three
    stages down and returns the initialization status, and the marker
    has not been looked at. *)
Theorem main_initialize_failure E p :
  library_init_ok E = true -> integrity E <> Some false ->
  libhydra_init_ok E = true -> libcharon_init_ok E = true ->
  forallb is_flag (options E) = true ->
  passwd_uid E <> Some None -> group_gid E <> Some None ->
  charon_initialize_ok E = false ->
  exists lv p',
    main E p = (Some (SS_RC_INITIALIZATION_FAILED E), p') /\
    (forall g, (g < DBG_MAX E)%nat ->
               lv !! g = Some (last_level g (options E) LEVEL_CTRL)) /\
    heap p' =
      heap p ++ built_loggers E (negb (existsb is_use_syslog (options E)))
                  lv (settings p) /\
    bus_listeners p' =
      bus_listeners p ++
      seq (length (heap p))
          (length (built_loggers E (negb (existsb is_use_syslog (options E)))
                     lv (settings p))) /\
    same_host p p'.
Proof.
  intros H1 H2 H3 H4 H5 H6 H7 H8.
  destruct (startup_initialize_state E p H1 H2 H3 H4 H5 H6 H7)
    as (lv & p3 & Hst & _ & Hlv & _ & Hsame & _ & _ & _ & _ & Hh & Hb).
  rewrite H8 in Hst. cbn [negb] in Hst.
  erewrite bind_pair in Hst by apply DBG1_run.
  rewrite abort_deinit, logged_logged in Hst.
  eexists lv, _. split; [apply main_aborted; exact Hst|].
  rewrite heap_logged, bus_listeners_logged.
  split; [done|]. split; [done|]. split; [done|].
  eapply same_host_trans; [exact Hsame|done].
Qed.

Lemma main_initialize_failure_witness :
  exists lv p',
    main (with_charon_initialize_ok false quiet_env) configured_proc =
      (Some (SS_RC_INITIALIZATION_FAILED
               (with_charon_initialize_ok false quiet_env)), p') /\
    (forall g, (g < DBG_MAX (with_charon_initialize_ok false quiet_env))%nat ->
       lv !! g =
       Some (last_level g (options (with_charon_initialize_ok false quiet_env))
               LEVEL_CTRL)) /\
    heap p' =
      heap configured_proc ++
      built_loggers (with_charon_initialize_ok false quiet_env)
        (negb (existsb is_use_syslog
                 (options (with_charon_initialize_ok false quiet_env))))
        lv (settings configured_proc) /\
    bus_listeners p' =
      bus_listeners configured_proc ++
      seq (length (heap configured_proc))
        (length (built_loggers (with_charon_initialize_ok false quiet_env)
                   (negb (existsb is_use_syslog
                            (options (with_charon_initialize_ok false
                                        quiet_env))))
                   lv (settings configured_proc))) /\
    same_host configured_proc p'.
Proof.
  apply (main_initialize_failure (with_charon_initialize_ok false quiet_env)
           configured_proc);
    try reflexivity; discriminate.
Defined.

(** X21.  When no other instance is seen running but the group, the user
    or the capabilities cannot be changed, [main] returns the
    initialization status without calling [unlink_pidfile]: the marker
    that [check_pidfile] has just written stays behind and, if it could
    be opened for writing, holds the pid of the process that is
    leaving. *)
Theorem drop_failure_leaves_marker E p :
  library_init_ok E = true -> integrity E <> Some false ->
  libhydra_init_ok E = true -> libcharon_init_ok E = true ->
  forallb is_flag (options E) = true ->
  passwd_uid E <> Some None -> group_gid E <> Some None ->
  charon_initialize_ok E = true ->
  seen_running E p = false ->
  can_drop E (resolved_gid E (charon_gid p))
             (resolved_uid E (charon_uid p)) = false ->
  exists p',
    main E p = (Some (SS_RC_INITIALIZATION_FAILED E), p') /\
    marker p' = created E (euid p) (unlinked E (euid p) (marker p)) /\
    (may_write E (euid p) = true ->
     marker p' = Some (pid_line (getpid E)) /\ pidfile p' = OpenW).
Proof.
  intros H1 H2 H3 H4 H5 H6 H7 H8 Hrun Hdrop.
  destruct (startup_initialize_state E p H1 H2 H3 H4 H5 H6 H7)
    as (lv & p3 & Hst & _ & _ & _ & Hsame & _ & Hcu & Hcg & _).
  rewrite H8 in Hst. cbn [negb] in Hst.
  rewrite <- (seen_running_same_host E p p3 Hsame) in Hrun.
  destruct (claim_and_start_state E p3 Hrun)
    as (p' & Hc & _ & Hm & Hf & _).
  rewrite Hcu, Hcg, Hdrop in Hc.
  destruct Hsame as (Hm3 & _ & Hu3). rewrite Hm3, Hu3 in *.
  exists p'. split; [apply main_aborted; congruence|].
  split; [done|]. intros Hw. rewrite Hm, Hf. unfold created. by rewrite Hw.
Qed.

Lemma drop_failure_leaves_marker_witness :
  exists p',
    main (with_setuid_ok (fun _ => false) quiet_env) (sample_proc None) =
      (Some (SS_RC_INITIALIZATION_FAILED
               (with_setuid_ok (fun _ => false) quiet_env)), p') /\
    marker p' =
      created (with_setuid_ok (fun _ => false) quiet_env)
        (euid (sample_proc None))
        (unlinked (with_setuid_ok (fun _ => false) quiet_env)
           (euid (sample_proc None)) (marker (sample_proc None))) /\
    (may_write (with_setuid_ok (fun _ => false) quiet_env)
       (euid (sample_proc None)) = true ->
     marker p' =
       Some (pid_line (getpid (with_setuid_ok (fun _ => false) quiet_env))) /\
     pidfile p' = OpenW).
Proof.
  apply (drop_failure_leaves_marker
           (with_setuid_ok (fun _ => false) quiet_env) (sample_proc None));
    try reflexivity; discriminate.
Defined.

Lemma startup_heap E p :
  library_init_ok E = true -> integrity E <> Some false ->
  libhydra_init_ok E = true -> libcharon_init_ok E = true ->
  forallb is_flag (options E) = true ->
  passwd_uid E <> Some None -> group_gid E <> Some None ->
  exists lv,
    length lv = DBG_MAX E /\
    (forall g, (g < DBG_MAX E)%nat ->
               lv !! g = Some (last_level g (options E) LEVEL_CTRL)) /\
    heap (snd (startup E p)) =
      heap p ++ built_loggers E (negb (existsb is_use_syslog (options E)))
                  lv (settings p).
Proof.
  intros H1 H2 H3 H4 H5 H6 H7.
  destruct (startup_initialize_state E p H1 H2 H3 H4 H5 H6 H7)
    as (lv & p3 & Hst & Hlen & Hlv & _ & _ & _ & _ & _ & _ & Hh & _).
  exists lv. split; [done|]. split; [done|]. rewrite Hst, <- Hh.
  destruct (charon_initialize_ok E); cbn [negb].
  - destruct (seen_running E p3) eqn:Hrun.
    + by destruct (claim_and_start_seen_running E p3 Hrun)
        as (q' & -> & _ & _ & _ & ?).
    + by destruct (claim_and_start_state E p3 Hrun)
        as (q' & -> & _ & _ & _ & _ & _ & ? & _).
  - erewrite bind_pair by apply DBG1_run. by rewrite abort_deinit.
Qed.

(** X22.  The levels of the command line reach the default loggers.  When
    the configuration has no logger section, the syslog logger of the
    daemon facility has, for every debug group, the level of the last
    debug option given for the group, and the control level when there is
    none; the logger on stdout has the same levels, unless the syslog
    flag was given, in which case it keeps the level it was created
    with. *)
Theorem default_logger_levels E p :
  library_init_ok E = true -> integrity E <> Some false ->
  libhydra_init_ok E = true -> libcharon_init_ok E = true ->
  forallb is_flag (options E) = true ->
  passwd_uid E <> Some None -> group_gid E <> Some None ->
  section_names (settings p) ["charon"; "syslog"] = [] ->
  section_names (settings p) ["charon"; "filelog"] = [] ->
  exists l0 l1 l2,
    heap (snd (startup E p)) = heap p ++ [l0; l1; l2] /\
    lg_sink l0 = FileSink Stdout None /\ lg_sink l1 = SysSink LOG_DAEMON /\
    forall g, (g < DBG_MAX E)%nat ->
      lg_levels l1 !! g = Some (last_level g (options E) LEVEL_CTRL) /\
      lg_levels l0 !! g =
        Some (if existsb is_use_syslog (options E) then created_level E
              else last_level g (options E) LEVEL_CTRL).
Proof.
  intros H1 H2 H3 H4 H5 H6 H7 Hsys Hfile.
  destruct (startup_heap E p H1 H2 H3 H4 H5 H6 H7) as (lv & Hlen & Hlv & Hh).
  unfold built_loggers in Hh. cbv zeta in Hh. rewrite Hsys, Hfile in Hh.
  cbn [omap app] in Hh. unfold default_heap in Hh.
  eexists _, _, _. split; [exact Hh|]. split; [done|]. split; [done|].
  intros g Hg. cbn [lg_levels].
  assert (Hmap : map (fun g => lv !!! g) (groups E) !! g =
                 Some (last_level g (options E) LEVEL_CTRL)).
  { change (map ?f ?l) with (f <$> l). rewrite list_lookup_fmap.
    unfold groups. rewrite lookup_seq_lt by done. cbn.
    f_equal. apply list_lookup_total_correct. by apply Hlv. }
  split; [done|].
  destruct (existsb is_use_syslog (options E)); cbn [negb]; [|done].
  by apply lookup_replicate.
Qed.

Lemma default_logger_levels_witness :
  exists l0 l1 l2,
    heap (snd (startup
                 (with_options [OptDebug 2 "3"; OptUseSyslog; OptDebug 2 "-1"]
                               quiet_env) (sample_proc None))) =
      heap (sample_proc None) ++ [l0; l1; l2] /\
    lg_sink l0 = FileSink Stdout None /\ lg_sink l1 = SysSink LOG_DAEMON /\
    forall g,
      (g < DBG_MAX (with_options
                      [OptDebug 2 "3"; OptUseSyslog; OptDebug 2 "-1"]
                      quiet_env))%nat ->
      lg_levels l1 !! g =
        Some (last_level g
                (options (with_options
                            [OptDebug 2 "3"; OptUseSyslog; OptDebug 2 "-1"]
                            quiet_env)) LEVEL_CTRL) /\
      lg_levels l0 !! g =
        Some (if existsb is_use_syslog
                   (options (with_options
                               [OptDebug 2 "3"; OptUseSyslog; OptDebug 2 "-1"]
                               quiet_env))
              then created_level
                     (with_options
                        [OptDebug 2 "3"; OptUseSyslog; OptDebug 2 "-1"]
                        quiet_env)
              else last_level g
                     (options (with_options
                                 [OptDebug 2 "3"; OptUseSyslog; OptDebug 2 "-1"]
                                 quiet_env)) LEVEL_CTRL).
Proof.
  apply (default_logger_levels
           (with_options [OptDebug 2 "3"; OptUseSyslog; OptDebug 2 "-1"]
                         quiet_env) (sample_proc None));
    try reflexivity; discriminate.
Defined.

(** ** The marker from start to shutdown *)

(** X23.  [unlink_pidfile] never works on a stream that has been closed.
    Whenever the daemon is started, the stream on the marker is, from
    then on and whatever signals arrive, either the one [check_pidfile]
    opened for writing or null; the stream it opened for reading and
    closed is never the one left in [pidfile].  It is open for writing
    exactly when the marker could be opened for writing at the start. *)
Theorem pidfile_stream_at_shutdown E p inputs :
  fst (startup E p) = Started ->
  let q := snd (run inputs (snd (startup E p))) in
  (pidfile q = OpenW \/ pidfile q = NULLp) /\
  (pidfile q = OpenW <-> may_write E (euid p) = true) /\
  since (length (trace q)) (trace (snd (unlink_pidfile E q))) =
    (if may_write E (euid p) then [EvFtruncate (ftruncate_ok E); EvFclose]
     else []) ++
    [EvUnlink (bool_decide (is_Some (marker q)) && may_unlink E (euid q))].
Proof.
  intros Hst. apply started_can_start in Hst.
  destruct (startup_can_start E p Hst) as (p' & -> & _ & _ & _ & Hf & _).
  cbn [snd]. cbv zeta.
  destruct (run_same_host inputs p') as (_ & Hf' & _).
  destruct (unlink_pidfile_run E (snd (run inputs p')))
    as (p3 & Hrel & _ & Ht3).
  rewrite Hrel. cbn [snd]. rewrite Ht3, since_app.
  unfold release_events. rewrite Hf', Hf.
  destruct (may_write E (euid p)); cbn.
  - rewrite andb_true_r. split; [by left|]. done.
  - split; [by right|]. done.
Qed.

Lemma pidfile_stream_at_shutdown_witness :
  let q := snd (run [sighup_ok; sigterm]
                  (snd (startup quiet_env (sample_proc None)))) in
  (pidfile q = OpenW \/ pidfile q = NULLp) /\
  (pidfile q = OpenW <-> may_write quiet_env (euid (sample_proc None)) = true) /\
  since (length (trace q)) (trace (snd (unlink_pidfile quiet_env q))) =
    (if may_write quiet_env (euid (sample_proc None))
     then [EvFtruncate (ftruncate_ok quiet_env); EvFclose]
     else []) ++
    [EvUnlink (bool_decide (is_Some (marker q)) &&
               may_unlink quiet_env (euid q))].
Proof.
  apply (pidfile_stream_at_shutdown quiet_env (sample_proc None)
           [sighup_ok; sigterm]).
  reflexivity.
Defined.

(** X24.  A daemon that was started and could write its marker does not
    leave its pid behind when [run] returns, provided the marker can be
    truncated: [main] returns 0 and the marker is either gone or empty.
    It is created with the user the process was started with, but
    removed with charon's user: it is gone exactly when that user may
    unlink it, and empty otherwise. *)
Theorem marker_released E p pre i post :
  fst (startup E p) = Started ->
  signals E = pre ++ i :: post -> Forall continues pre -> stops i ->
  may_write E (euid p) = true -> ftruncate_ok E = true ->
  fst (main E p) = Some 0 /\
  marker (snd (main E p)) =
    (if may_unlink E (resolved_uid E (charon_uid p)) then None
     else Some "").
Proof.
  intros Hst Hsig Hpre Hi Hw Hft. apply started_can_start in Hst.
  destruct (startup_can_start E p Hst)
    as (p1 & Hs & Heu & _ & Hm & Hf & _).
  rewrite Hw in Hf. unfold created in Hm. rewrite Hw in Hm.
  destruct (run_prefix pre p1 Hpre) as (p2 & Hrun & _ & _ & Hsame).
  destruct (run_loop_stops i post p2 Hi) as (tl & Hstop & _).
  destruct (unlink_pidfile_run E (logged tl p2)) as (p3 & Hrel & Hm3 & _).
  assert (Hmain : main E p = (Some 0, logged deinit_events p3)).
  { unfold main. erewrite bind_pair by exact Hs. cbv beta iota.
    rewrite Hsig. erewrite bind_pair by (rewrite Hrun; exact Hstop).
    cbv beta iota. erewrite bind_pair by exact Hrel.
    erewrite bind_pair by apply deinit_run. reflexivity. }
  rewrite Hmain. cbn [fst snd]. split; [done|].
  rewrite marker_logged, Hm3, euid_logged, pidfile_logged, marker_logged.
  destruct Hsame as (-> & -> & ->). rewrite Hm, Hf, Heu.
  unfold truncated, unlinked. rewrite Hft.
  by destruct (may_unlink E _).
Qed.

Lemma marker_released_witness :
  fst (main (with_signals [sighup_ok; sigterm] quiet_env)
            (sample_proc (Some "4242"))) = Some 0 /\
  marker (snd (main (with_signals [sighup_ok; sigterm] quiet_env)
                    (sample_proc (Some "4242")))) =
    (if may_unlink (with_signals [sighup_ok; sigterm] quiet_env)
          (resolved_uid (with_signals [sighup_ok; sigterm] quiet_env)
             (charon_uid (sample_proc (Some "4242"))))
     then None else Some "").
Proof.
  apply (marker_released (with_signals [sighup_ok; sigterm] quiet_env)
           (sample_proc (Some "4242")) [sighup_ok] sigterm []).
  - reflexivity.
  - reflexivity.
  - repeat constructor; discriminate.
  - right. split; [reflexivity|]. by right.
  - reflexivity.
  - reflexivity.
Defined.
